(** * Energy model of the smart-home sensor network

    A shallow embedding of the power model, the distance-aware
    communication channel with its batch scheduler, and the energy
    optimizer of [main.py].

    Conventions of the embedding.
    - A Python [float] is a real number of [R]: the arithmetic of the
      program is read as exact arithmetic, so [math.sqrt] is [sqrt],
      [math.log10 x] is [ln x / ln 10] and [10 ** y] is [Rpower 10 y].
    - A Python [int] is an integer of [Z]; [len] of a list is the
      [length] of the list, injected where the program mixes it with
      ints or floats.
    - [None] or a string is [option string]; a [dict] from strings to
      floats is a [gmap string R]; a [dict] whose iteration order is
      observed is an association list in insertion order.
    - What a method reads from the world is an argument of its model:
      [time.time()] is [now], [random.random()] is [rnd],
      [datetime.now()] is [stamp].
    - A method that mutates [self] or its arguments returns their new
      values next to its result. *)

From Stdlib Require Import Reals Lra Lia ZArith List String Ascii Permutation.
From stdpp Require Import gmap strings.

Import ListNotations.

(** ** Python values and built-ins used by the program *)

Module Py.

(** The exceptions the modelled code can raise. *)
Inductive exn : Type :=
| IndexError.

(** The outcome of a call: a returned value or a raised exception. *)
Inductive result (A : Type) : Type :=
| Ok (a : A)
| Raised (e : exn).

Arguments Ok {A} a.
Arguments Raised {A} e.

Definition bind {A B : Type} (m : result A) (k : A -> result B) : result B :=
  match m with
  | Ok a => k a
  | Raised e => Raised e
  end.

Definition raises {A : Type} (m : result A) : Prop := exists e, m = Raised e.

(** Truth value of an optional string: [None] and [''] are false. *)
Definition truthy (s : option string) : bool :=
  match s with
  | None => false
  | Some EmptyString => false
  | Some (String _ _) => true
  end.

(** [min(a, b)] and [max(a, b)] return [a] unless [b] is strictly
    smaller (resp. larger). *)
Definition min (a b : R) : R := if Rlt_dec b a then b else a.
Definition max (a b : R) : R := if Rgt_dec b a then b else a.

(** The comparisons [a < b], [a > b], [a <= b] and [a != b] on floats. *)
Definition lt (a b : R) : bool := if Rlt_dec a b then true else false.
Definition gt (a b : R) : bool := if Rgt_dec a b then true else false.
Definition le (a b : R) : bool := if Rle_dec a b then true else false.
Definition ne (a b : R) : bool := if Req_dec_T a b then false else true.

(** [sum(xs)]: left fold from the integer [0]. *)
Definition sum (xs : list R) : R := fold_left Rplus xs 0%R.
Definition sum_int (xs : list Z) : Z := fold_left Z.add xs 0%Z.

(** [math.log10(x)] and [x ** y] on floats, for a positive [x]. *)
Definition log10 (x : R) : R := (ln x / ln 10)%R.
Definition pow (x y : R) : R := Rpower x y.

(** [l[i]] with Python's negative indices. *)
Definition getitem {A : Type} (l : list A) (i : Z) : result A :=
  let n := Z.of_nat (length l) in
  let j := if (i <? 0)%Z then (i + n)%Z else i in
  if ((j <? 0) || (n <=? j))%Z then Raised IndexError
  else match nth_error l (Z.to_nat j) with
       | Some a => Ok a
       | None => Raised IndexError
       end.

(** [sub in s]: [sub] occurs in [s] as a substring. *)
Fixpoint contains (sub s : string) : bool :=
  String.prefix sub s ||
  match s with
  | EmptyString => false
  | String _ s' => contains sub s'
  end.

(** [s.split(sep)] for a one-character separator: the pieces of [s]
    between the occurrences of [sep], in order; never the empty list. *)
Fixpoint split (sep : ascii) (s : string) : list string :=
  match s with
  | EmptyString => [EmptyString]
  | String c s' =>
      if Ascii.eqb c sep then EmptyString :: split sep s'
      else match split sep s' with
           | [] => [String c EmptyString]
           | p :: ps => String c p :: ps
           end
  end.

(** [c in s] for a character [c]. *)
Fixpoint has_char (c : ascii) (s : string) : bool :=
  match s with
  | EmptyString => false
  | String c' s' => Ascii.eqb c' c || has_char c s'
  end.

(** [l[-1]] of a list of strings that is known not to be empty. *)
Definition last_piece (l : list string) : string := List.last l EmptyString.

End Py.

Notation "'try!' x ':=' m 'in' k" := (Py.bind m (fun x => k))
  (at level 10, x name, m at level 100, k at level 200).

Local Open Scope string_scope.

(** ** Data classes *)

(** A payload dict, given by its serialisation
    [json.dumps(payload).encode()]. *)
Definition Payload : Type := string.

(** [SensorReading]; the timestamp is a number of seconds. *)
Record SensorReading : Type := mkReading {
  timestamp : R;
  sensor_id : string;
  value : R;
  unit : string;
  power_consumed : R
}.

(** The fields of a reading, under names that stay in reach where a
    record of alerts has fields of the same names. *)
Definition reading_sensor_id (reading : SensorReading) : string := sensor_id reading.
Definition reading_value (reading : SensorReading) : R := value reading.
Definition reading_unit (reading : SensorReading) : string := unit reading.

(** ** Power model ([IoTSensor]) *)

Module Sensor.

(** One entry of [IoTSensor.power_specs]: the four coefficients, in mW. *)
Record PowerSpec : Type := mkPowerSpec {
  sensing : R;
  communication : R;
  processing : R;
  sleep : R
}.

(** The attributes of an [IoTSensor]; [dev_id] is its [sensor_id]. *)
Record IoTSensor : Type := mkSensor {
  dev_id : string;
  sensor_type : string;
  location : string;
  is_active : bool;
  duty_cycle : R;
  power : PowerSpec
}.

Definition power_specs (ty : string) : option PowerSpec :=
  if ty =? "DHT22" then Some (mkPowerSpec 1.5 15.0 0.8 0.05)
  else if ty =? "LDR" then Some (mkPowerSpec 0.5 12.0 0.3 0.02)
  else if ty =? "AirQuality" then Some (mkPowerSpec 2.5 20.0 1.2 0.1)
  else if ty =? "Noise" then Some (mkPowerSpec 1.8 16.0 0.9 0.06)
  else if ty =? "PIR" then Some (mkPowerSpec 0.8 10.0 0.5 0.03)
  else None.

(** [IoTSensor.__init__]: an unknown type gets the DHT22 coefficients. *)
Definition IoTSensor_init (id ty loc : string) : IoTSensor :=
  {| dev_id := id; sensor_type := ty; location := loc;
     is_active := true; duty_cycle := 1.0;
     power := match power_specs ty with
              | Some p => p
              | None => mkPowerSpec 1.5 15.0 0.8 0.05
              end |}.

(** [IoTSensor.calculate_power_consumption]. *)
Definition calculate_power_consumption
    (self : IoTSensor) (operation_time : R) (operation_type : string)
  : Py.result R :=
  if operation_type =? "sensing" then
    Py.Ok (sensing (power self) * operation_time * duty_cycle self)%R
  else if operation_type =? "communication" then
    Py.Ok (communication (power self) * operation_time)%R
  else if operation_type =? "processing" then
    Py.Ok (processing (power self) * operation_time)%R
  else if operation_type =? "sleep" then
    Py.Ok (sleep (power self) * operation_time * (1 - duty_cycle self))%R
  else
    Py.Ok 0.0%R.

(** The operation kinds the power model knows. *)
Definition known_kind (op : string) : Prop :=
  op = "sensing" \/ op = "communication" \/ op = "processing" \/ op = "sleep".

Definition nonneg_spec (p : PowerSpec) : Prop :=
  (0 <= sensing p /\ 0 <= communication p /\
   0 <= processing p /\ 0 <= sleep p)%R.

End Sensor.

(** ** Communication channel ([CommunicationProtocol], [MQTTProtocol]) *)

Module Channel.

Local Open Scope R_scope.

(** One entry of [message_batch]. *)
Record Message : Type := mkMessage {
  topic : string;
  payload : Payload;
  size : Z;
  time : R;
  location : option string
}.

(** The attributes of an [MQTTProtocol] that the publish path reads or
    writes. *)
Record MQTTProtocol : Type := mkMQTT {
  message_count : Z;
  total_bytes_sent : Z;
  retry_count : Z;
  message_batch : list Message;
  batch_size_limit : Z;
  batch_timeout : R;
  last_batch_time : R;
  batch_mode_enabled : bool
}.

(** [MQTTProtocol.__init__], constructed at time [now]. *)
Definition MQTTProtocol_init (now : R) : MQTTProtocol :=
  {| message_count := 0; total_bytes_sent := 0; retry_count := 0;
     message_batch := []; batch_size_limit := 5; batch_timeout := 3.0;
     last_batch_time := now; batch_mode_enabled := true |}.

Definition gateway_position : Z * Z := (0, 0)%Z.

Definition sensor_locations : gmap string (Z * Z) :=
  list_to_map
    [ ("Living Room", (8, 12)%Z);
      ("Master Bedroom", (15, 20)%Z);
      ("Kitchen", (6, 8)%Z);
      ("Guest Bedroom", (20, 18)%Z);
      ("Bathroom", (12, 6)%Z);
      ("Home Office", (25, 15)%Z);
      ("Front Door", (3, 5)%Z);
      ("Back Yard", (10, 25)%Z) ].

(** [CommunicationProtocol.calculate_distance]. *)
Definition calculate_distance (sensor_location : string) : R :=
  match sensor_locations !! sensor_location with
  | None => 50.0
  | Some sensor_pos =>
      sqrt (IZR ((fst sensor_pos - fst gateway_position) ^ 2 +
                 (snd sensor_pos - snd gateway_position) ^ 2))
  end.

(** [CommunicationProtocol.calculate_transmission_power]. *)
Definition calculate_transmission_power (distance : R) : R :=
  let P_min := 50.0 in
  let d_ref := 10.0 in
  let n := 3.0 in
  if Py.le distance d_ref then P_min
  else
    let power_ratio := Py.pow 10 ((n * Py.log10 (distance / d_ref)) / 10) in
    let P_tx := P_min * power_ratio in
    Py.min P_tx 200.0.

(** The local [P_tx] of [calculate_comm_power]. *)
Definition tx_power_of (sensor_location : option string) : R :=
  match sensor_location with
  | Some loc =>
      if Py.truthy sensor_location
      then calculate_transmission_power (calculate_distance loc)
      else 100.0
  | None => 100.0
  end.

(** [CommunicationProtocol.calculate_comm_power]. *)
Definition calculate_comm_power
    (message_size : Z) (transmission_time : R) (sensor_location : option string)
  : R :=
  let P_tx := tx_power_of sensor_location in
  let P_rx := 50.0 in
  let P_idle := 5.0 in
  let t_tx := transmission_time in
  let t_rx := transmission_time * 0.1 in
  let t_idle := 0.1 in
  P_tx * t_tx + P_rx * t_rx + P_idle * t_idle.

(** [set(msg['location'] for msg in batch if msg['location'])], as the
    list of its elements; the program only sums over it and takes its
    length. *)
Definition total_locations_of (batch : list Message) : list string :=
  remove_dups
    (omap (fun msg => if Py.truthy (location msg) then location msg else None)
          batch).

(** The first value of the local [batch_power] of [_batch_message]: the
    power of the whole batch before the efficiency factor is applied. *)
Definition batch_power_of
    (batch : list Message) (sensor_location : option string) : R :=
  let total_size := Py.sum_int (map size batch) in
  let batch_transmission_time := IZR total_size / 1200 in
  let total_locations := total_locations_of batch in
  if Py.truthy sensor_location && (0 <? length total_locations)%nat then
    let avg_distance :=
      Py.sum (map calculate_distance total_locations)
      / INR (length total_locations) in
    calculate_transmission_power avg_distance * batch_transmission_time
  else
    calculate_comm_power total_size batch_transmission_time sensor_location.

(** The local [batch_full or timeout_reached] of [_batch_message], for the
    batch as it is after the append. *)
Definition flush_due (self : MQTTProtocol) (batch : list Message) (now : R)
  : bool :=
  let batch_full := (batch_size_limit self <=? Z.of_nat (length batch))%Z in
  let timeout_reached :=
    Py.gt (now - last_batch_time self) (batch_timeout self) in
  batch_full || timeout_reached.

(** [MQTTProtocol._batch_message]; returns the new [self] and the pair
    [(success, power)]. *)
Definition _batch_message
    (self : MQTTProtocol) (topic : string) (payload : Payload)
    (message_size : Z) (transmission_time : R)
    (sensor_location : option string) (now rnd : R)
  : MQTTProtocol * (bool * R) :=
  let batch :=
    (message_batch self ++
     [mkMessage topic payload message_size transmission_time sensor_location])%list in
  let current_time := now in
  let queuing_power :=
    calculate_comm_power message_size (transmission_time * 0.2)
                         sensor_location in
  if flush_due self batch current_time then
    let total_size := Py.sum_int (map size batch) in
    let batch_power := batch_power_of batch sensor_location in
    let efficiency_factor := Py.max 0.5 (1.0 - INR (length batch) * 0.1) in
    let batch_power := batch_power * efficiency_factor in
    let success := Py.lt rnd 0.93 in
    let batch_size := Z.of_nat (length batch) in
    if success then
      ({| message_count := message_count self + Z.of_nat (length batch);
          total_bytes_sent := total_bytes_sent self + total_size;
          retry_count := retry_count self;
          message_batch := [];
          batch_size_limit := batch_size_limit self;
          batch_timeout := batch_timeout self;
          last_batch_time := current_time;
          batch_mode_enabled := batch_mode_enabled self |},
       (success, queuing_power + batch_power / IZR (Z.max batch_size 1)))
    else
      let batch_power := batch_power * 1.5 in
      ({| message_count := message_count self;
          total_bytes_sent := total_bytes_sent self;
          retry_count := retry_count self + 1;
          message_batch := [];
          batch_size_limit := batch_size_limit self;
          batch_timeout := batch_timeout self;
          last_batch_time := current_time;
          batch_mode_enabled := batch_mode_enabled self |},
       (success, queuing_power + batch_power / IZR (Z.max batch_size 1)))
  else
    ({| message_count := message_count self;
        total_bytes_sent := total_bytes_sent self;
        retry_count := retry_count self;
        message_batch := batch;
        batch_size_limit := batch_size_limit self;
        batch_timeout := batch_timeout self;
        last_batch_time := last_batch_time self;
        batch_mode_enabled := batch_mode_enabled self |},
     (true, queuing_power)).

(** [MQTTProtocol._publish_single_message]; [rnd] is the draw that
    decides success (the delay drawn before it is not used). *)
Definition _publish_single_message
    (self : MQTTProtocol) (topic : string) (payload : Payload)
    (message_size : Z) (transmission_time : R)
    (sensor_location : option string) (rnd : R)
  : MQTTProtocol * (bool * R) :=
  if Py.lt rnd 0.95 then
    let power_consumed :=
      calculate_comm_power message_size transmission_time sensor_location in
    ({| message_count := message_count self + 1;
        total_bytes_sent := total_bytes_sent self + message_size;
        retry_count := retry_count self;
        message_batch := message_batch self;
        batch_size_limit := batch_size_limit self;
        batch_timeout := batch_timeout self;
        last_batch_time := last_batch_time self;
        batch_mode_enabled := batch_mode_enabled self |},
     (true, power_consumed))
  else
    let power_consumed :=
      calculate_comm_power message_size transmission_time sensor_location * 2 in
    ({| message_count := message_count self;
        total_bytes_sent := total_bytes_sent self;
        retry_count := retry_count self + 1;
        message_batch := message_batch self;
        batch_size_limit := batch_size_limit self;
        batch_timeout := batch_timeout self;
        last_batch_time := last_batch_time self;
        batch_mode_enabled := batch_mode_enabled self |},
     (false, power_consumed)).

(** [MQTTProtocol.publish_message]. *)
Definition publish_message
    (self : MQTTProtocol) (topic : string) (payload : Payload) (qos : Z)
    (sensor_location : option string) (now rnd : R)
  : MQTTProtocol * (bool * R) :=
  let message_size := Z.of_nat (String.length payload) in
  let transmission_time := IZR message_size / 1000 in
  if batch_mode_enabled self then
    _batch_message self topic payload message_size transmission_time
                   sensor_location now rnd
  else
    _publish_single_message self topic payload message_size transmission_time
                            sensor_location rnd.

(** One call of [publish_message] with what it reads from the world. *)
Record Call : Type := mkCall {
  call_topic : string;
  call_payload : Payload;
  call_qos : Z;
  call_location : option string;
  call_now : R;
  call_rnd : R
}.

Definition publish (self : MQTTProtocol) (c : Call) : MQTTProtocol * (bool * R) :=
  publish_message self (call_topic c) (call_payload c) (call_qos c)
                  (call_location c) (call_now c) (call_rnd c).

(** The channel after a sequence of calls. *)
Definition run (self : MQTTProtocol) (calls : list Call) : MQTTProtocol :=
  fold_left (fun s c => fst (publish s c)) calls self.

(** The message a call appends and the batch as it is right after the
    append, when a flush is decided. *)
Definition message_of (c : Call) : Message :=
  let message_size := Z.of_nat (String.length (call_payload c)) in
  mkMessage (call_topic c) (call_payload c) message_size
            (IZR message_size / 1000) (call_location c).

Definition pending (self : MQTTProtocol) (c : Call) : list Message :=
  (message_batch self ++ [message_of c])%list.

(** The queuing charge of a call and the share of the flush that it
    reports, as [_batch_message] computes them. *)
Definition queuing_power_of (c : Call) : R :=
  calculate_comm_power (size (message_of c)) (time (message_of c) * 0.2)
                       (call_location c).

Definition flush_share (self : MQTTProtocol) (c : Call) : R :=
  let batch := pending self c in
  batch_power_of batch (call_location c)
  * Py.max 0.5 (1.0 - INR (length batch) * 0.1)
  * (if Py.lt (call_rnd c) 0.93 then 1 else 1.5)
  / IZR (Z.max (Z.of_nat (length batch)) 1).

(** The batch stays below its limit between two calls. *)
Definition below_limit (self : MQTTProtocol) : Prop :=
  batch_mode_enabled self = true /\
  (Z.of_nat (length (message_batch self)) < batch_size_limit self)%Z.

(** [MQTTProtocol.set_batch_parameters]; [None] is an argument left at
    its default. *)
Definition set_batch_parameters (self : MQTTProtocol) (enabled : bool)
    (batch_size : option Z) (timeout : option R) : MQTTProtocol :=
  {| message_count := message_count self;
     total_bytes_sent := total_bytes_sent self;
     retry_count := retry_count self;
     message_batch := message_batch self;
     batch_size_limit := match batch_size with
                         | Some b => Z.max 1 b
                         | None => batch_size_limit self
                         end;
     batch_timeout := match timeout with
                      | Some t => Py.max 0.5 t
                      | None => batch_timeout self
                      end;
     last_batch_time := last_batch_time self;
     batch_mode_enabled := enabled |}.

(** [MQTTProtocol.subscribe_to_topic]. *)
Definition subscribe_to_topic (self : MQTTProtocol) (topic : string) : R := 5.0.

(** The pairs [(success, power)] that a sequence of calls returns, in
    order. *)
Fixpoint outcomes (self : MQTTProtocol) (calls : list Call)
  : list (bool * R) :=
  match calls with
  | [] => []
  | c :: rest => snd (publish self c) :: outcomes (fst (publish self c)) rest
  end.

(** The number of calls of a sequence that report the given success. *)
Definition count_success (b : bool) (results : list (bool * R)) : Z :=
  Z.of_nat (length (List.filter (fun o => Bool.eqb (fst o) b) results)).

End Channel.

(** ** Energy optimizer ([EnergyOptimizer]) *)

Module Optimizer.

Local Open Scope R_scope.

(** The attributes of an [EnergyOptimizer] that the modelled methods read
    or write. *)
Record EnergyOptimizer : Type := mkOptimizer {
  optimization_enabled : bool;
  duty_cycle : R;
  aggregation_factor : R;
  adaptive_duty_cycling : bool;
  inactivity_counter : Z;
  progressive_sleep : bool;
  activity_threshold : R;
  last_sensor_values : gmap string R;
  sleep_levels : list R;
  current_sleep_level : Z;
  sleep_level_timeout : Z
}.

(** [EnergyOptimizer.__init__]. *)
Definition EnergyOptimizer_init : EnergyOptimizer :=
  {| optimization_enabled := false; duty_cycle := 0.8;
     aggregation_factor := 0.7; adaptive_duty_cycling := false;
     inactivity_counter := 0; progressive_sleep := false;
     activity_threshold := 5.0; last_sensor_values := ∅;
     sleep_levels := [0.8; 0.6; 0.4; 0.2]; current_sleep_level := 0;
     sleep_level_timeout := 5 |}.

(** [EnergyOptimizer.enable_adaptive_duty_cycling]. *)
Definition enable_adaptive_duty_cycling
    (self : EnergyOptimizer) (enabled : bool) : EnergyOptimizer :=
  {| optimization_enabled := optimization_enabled self;
     duty_cycle := duty_cycle self;
     aggregation_factor := aggregation_factor self;
     adaptive_duty_cycling := enabled;
     inactivity_counter := if enabled then 0%Z else inactivity_counter self;
     progressive_sleep := enabled;
     activity_threshold := activity_threshold self;
     last_sensor_values := last_sensor_values self;
     sleep_levels := sleep_levels self;
     current_sleep_level := if enabled then 0%Z else current_sleep_level self;
     sleep_level_timeout := sleep_level_timeout self |}.

(** The percent change computed in the loop of [update_sleep_mode]. *)
Definition percent_change (previous_value current_value : R) : R :=
  if Py.ne previous_value 0 then
    Rabs ((current_value - previous_value) / previous_value) * 100
  else if Py.ne current_value 0 then 100.0
  else 0.0.

(** One iteration of the loop over the readings: the state of the loop is
    the flag [activity_detected] and the dict [last_sensor_values]. *)
Definition scan_reading (threshold : R)
    (st : bool * gmap string R) (reading : SensorReading)
  : bool * gmap string R :=
  let '(activity_detected, last) := st in
  let current_value := value reading in
  if Py.contains "motion" (sensor_id reading) then
    (if Py.gt current_value 0 then true else activity_detected, last)
  else
    let activity_detected :=
      match last !! sensor_id reading with
      | Some previous_value =>
          if Py.gt (percent_change previous_value current_value) threshold
          then true else activity_detected
      | None => activity_detected
      end in
    (activity_detected, <[sensor_id reading := current_value]> last).

Definition scan_readings (threshold : R) (last : gmap string R)
    (readings : list SensorReading) : bool * gmap string R :=
  fold_left (scan_reading threshold) readings (false, last).

(** The writes of [update_sleep_mode] to [self]. *)
Definition with_sleep_state (self : EnergyOptimizer)
    (counter level : Z) (last : gmap string R) : EnergyOptimizer :=
  {| optimization_enabled := optimization_enabled self;
     duty_cycle := duty_cycle self;
     aggregation_factor := aggregation_factor self;
     adaptive_duty_cycling := adaptive_duty_cycling self;
     inactivity_counter := counter;
     progressive_sleep := progressive_sleep self;
     activity_threshold := activity_threshold self;
     last_sensor_values := last;
     sleep_levels := sleep_levels self;
     current_sleep_level := level;
     sleep_level_timeout := sleep_level_timeout self |}.

(** [sensor.duty_cycle = new_duty_cycle]. *)
Definition set_duty_cycle (new_duty_cycle : R) (sensor : Sensor.IoTSensor)
  : Sensor.IoTSensor :=
  {| Sensor.dev_id := Sensor.dev_id sensor;
     Sensor.sensor_type := Sensor.sensor_type sensor;
     Sensor.location := Sensor.location sensor;
     Sensor.is_active := Sensor.is_active sensor;
     Sensor.duty_cycle := new_duty_cycle;
     Sensor.power := Sensor.power sensor |}.

(** The local [power_diff] of the loops over the sensors. *)
Definition power_diff (new_duty_cycle : R) (sensor : Sensor.IoTSensor) : R :=
  (Sensor.duty_cycle sensor - new_duty_cycle)
  * Sensor.sensing (Sensor.power sensor) * 5.

(** [EnergyOptimizer.update_sleep_mode]; returns the new [self], the
    sensors with their new duty cycles and the power saved. *)
Definition update_sleep_mode
    (self : EnergyOptimizer) (sensors : list Sensor.IoTSensor)
    (readings : list SensorReading)
  : Py.result (EnergyOptimizer * list Sensor.IoTSensor * R) :=
  if negb (progressive_sleep self) then Py.Ok (self, sensors, 0.0)
  else
    let '(activity_detected, last) :=
      scan_readings (activity_threshold self) (last_sensor_values self)
                    readings in
    let power_saved := 0.0 in
    if activity_detected then
      let counter := 0%Z in
      if (0 <? current_sleep_level self)%Z then
        let level := 0%Z in
        try! new_duty_cycle := Py.getitem (sleep_levels self) level in
        Py.Ok (with_sleep_state self counter level last,
               map (set_duty_cycle new_duty_cycle) sensors,
               fold_left (fun saved sensor =>
                            saved - power_diff new_duty_cycle sensor)
                         sensors power_saved)
      else
        Py.Ok (with_sleep_state self counter (current_sleep_level self) last,
               sensors, power_saved)
    else
      let counter := (inactivity_counter self + 1)%Z in
      if (sleep_level_timeout self <=? counter)%Z then
        if (current_sleep_level self
            <? Z.of_nat (length (sleep_levels self)) - 1)%Z then
          let level := (current_sleep_level self + 1)%Z in
          try! new_duty_cycle := Py.getitem (sleep_levels self) level in
          Py.Ok (with_sleep_state self 0 level last,
                 map (set_duty_cycle new_duty_cycle) sensors,
                 fold_left (fun saved sensor =>
                              saved + power_diff new_duty_cycle sensor)
                           sensors power_saved)
        else
          Py.Ok (with_sleep_state self 0 (current_sleep_level self) last,
                 sensors, power_saved)
      else
        Py.Ok (with_sleep_state self counter (current_sleep_level self) last,
               sensors, power_saved).

(** Consecutive calls of [update_sleep_mode], one list of readings per
    cycle; the power saved by each call is dropped. *)
Fixpoint run_cycles (self : EnergyOptimizer) (sensors : list Sensor.IoTSensor)
    (cycles : list (list SensorReading))
  : Py.result (EnergyOptimizer * list Sensor.IoTSensor) :=
  match cycles with
  | [] => Py.Ok (self, sensors)
  | readings :: rest =>
      try! out := update_sleep_mode self sensors readings in
      run_cycles (fst (fst out)) (snd (fst out)) rest
  end.

(** *** The same call in the arithmetic of the program

    The program evaluates the percent change in floating point, so the
    comparison with the threshold sees a rounded value.  The definitions
    of this section are [percent_change], [scan_reading], [scan_readings]
    and [update_sleep_mode] with that one evaluation left open:
    [scaled_change previous_value current_value] is the value that the
    arithmetic in use gives to
    [abs((current_value - previous_value) / previous_value) * 100]. *)
Section Arithmetic.

Variable scaled_change : R -> R -> R.

Definition percent_change_with (previous_value current_value : R) : R :=
  if Py.ne previous_value 0 then scaled_change previous_value current_value
  else if Py.ne current_value 0 then 100.0
  else 0.0.

Definition scan_reading_with (threshold : R)
    (st : bool * gmap string R) (reading : SensorReading)
  : bool * gmap string R :=
  let '(activity_detected, last) := st in
  let current_value := value reading in
  if Py.contains "motion" (sensor_id reading) then
    (if Py.gt current_value 0 then true else activity_detected, last)
  else
    let activity_detected :=
      match last !! sensor_id reading with
      | Some previous_value =>
          if Py.gt (percent_change_with previous_value current_value)
                   threshold
          then true else activity_detected
      | None => activity_detected
      end in
    (activity_detected, <[sensor_id reading := current_value]> last).

Definition scan_readings_with (threshold : R) (last : gmap string R)
    (readings : list SensorReading) : bool * gmap string R :=
  fold_left (scan_reading_with threshold) readings (false, last).

Definition update_sleep_mode_with
    (self : EnergyOptimizer) (sensors : list Sensor.IoTSensor)
    (readings : list SensorReading)
  : Py.result (EnergyOptimizer * list Sensor.IoTSensor * R) :=
  if negb (progressive_sleep self) then Py.Ok (self, sensors, 0.0)
  else
    let '(activity_detected, last) :=
      scan_readings_with (activity_threshold self) (last_sensor_values self)
                         readings in
    let power_saved := 0.0 in
    if activity_detected then
      let counter := 0%Z in
      if (0 <? current_sleep_level self)%Z then
        let level := 0%Z in
        try! new_duty_cycle := Py.getitem (sleep_levels self) level in
        Py.Ok (with_sleep_state self counter level last,
               map (set_duty_cycle new_duty_cycle) sensors,
               fold_left (fun saved sensor =>
                            saved - power_diff new_duty_cycle sensor)
                         sensors power_saved)
      else
        Py.Ok (with_sleep_state self counter (current_sleep_level self) last,
               sensors, power_saved)
    else
      let counter := (inactivity_counter self + 1)%Z in
      if (sleep_level_timeout self <=? counter)%Z then
        if (current_sleep_level self
            <? Z.of_nat (length (sleep_levels self)) - 1)%Z then
          let level := (current_sleep_level self + 1)%Z in
          try! new_duty_cycle := Py.getitem (sleep_levels self) level in
          Py.Ok (with_sleep_state self 0 level last,
                 map (set_duty_cycle new_duty_cycle) sensors,
                 fold_left (fun saved sensor =>
                              saved + power_diff new_duty_cycle sensor)
                           sensors power_saved)
        else
          Py.Ok (with_sleep_state self 0 (current_sleep_level self) last,
                 sensors, power_saved)
      else
        Py.Ok (with_sleep_state self counter (current_sleep_level self) last,
               sensors, power_saved).

End Arithmetic.

(** The evaluation in exact arithmetic, which gives [update_sleep_mode]
    back. *)
Definition exact_change (previous_value current_value : R) : R :=
  Rabs ((current_value - previous_value) / previous_value) * 100.

(** The writes of [self.duty_cycle] and [self.aggregation_factor]. *)
Definition with_params (self : EnergyOptimizer)
    (new_duty_cycle new_aggregation_factor : R) : EnergyOptimizer :=
  {| optimization_enabled := optimization_enabled self;
     duty_cycle := new_duty_cycle;
     aggregation_factor := new_aggregation_factor;
     adaptive_duty_cycling := adaptive_duty_cycling self;
     inactivity_counter := inactivity_counter self;
     progressive_sleep := progressive_sleep self;
     activity_threshold := activity_threshold self;
     last_sensor_values := last_sensor_values self;
     sleep_levels := sleep_levels self;
     current_sleep_level := current_sleep_level self;
     sleep_level_timeout := sleep_level_timeout self |}.

(** [EnergyOptimizer.enable_duty_cycling]; [None] is the default
    argument. *)
Definition enable_duty_cycling (self : EnergyOptimizer)
    (sensors : list Sensor.IoTSensor) (new_duty_cycle : option R)
  : EnergyOptimizer * list Sensor.IoTSensor :=
  let self :=
    match new_duty_cycle with
    | Some d => with_params self d (aggregation_factor self)
    | None => self
    end in
  (self, map (set_duty_cycle (duty_cycle self)) sensors).

(** [EnergyOptimizer.update_optimization_params]; returns the new [self],
    the sensors and the flag [updated]. *)
Definition update_optimization_params (self : EnergyOptimizer)
    (sensors : list Sensor.IoTSensor)
    (new_duty_cycle new_aggregation_factor : option R)
  : EnergyOptimizer * list Sensor.IoTSensor * bool :=
  let updated := false in
  let '(self, sensors, updated) :=
    match new_duty_cycle with
    | Some d =>
        if Py.le 0.1 d && Py.le d 1.0 then
          (with_params self d (aggregation_factor self),
           map (set_duty_cycle d) sensors, true)
        else (self, sensors, updated)
    | None => (self, sensors, updated)
    end in
  let '(self, updated) :=
    match new_aggregation_factor with
    | Some a =>
        if Py.le 0.1 a && Py.le a 1.0 then
          (with_params self (duty_cycle self) a, true)
        else (self, updated)
    | None => (self, updated)
    end in
  (self, sensors, updated).

(** The attributes of the optimizer that are settings: the tunable
    parameters, the switches, the threshold, the levels and the timeout. *)
Definition same_settings (self self' : EnergyOptimizer) : Prop :=
  optimization_enabled self' = optimization_enabled self /\
  duty_cycle self' = duty_cycle self /\
  aggregation_factor self' = aggregation_factor self /\
  progressive_sleep self' = progressive_sleep self /\
  activity_threshold self' = activity_threshold self /\
  sleep_levels self' = sleep_levels self /\
  sleep_level_timeout self' = sleep_level_timeout self.

(** The assignment [optimizer.optimization_enabled = enabled] of
    [run_simulation]. *)
Definition set_optimization_enabled (self : EnergyOptimizer) (enabled : bool)
  : EnergyOptimizer :=
  {| optimization_enabled := enabled;
     duty_cycle := duty_cycle self;
     aggregation_factor := aggregation_factor self;
     adaptive_duty_cycling := adaptive_duty_cycling self;
     inactivity_counter := inactivity_counter self;
     progressive_sleep := progressive_sleep self;
     activity_threshold := activity_threshold self;
     last_sensor_values := last_sensor_values self;
     sleep_levels := sleep_levels self;
     current_sleep_level := current_sleep_level self;
     sleep_level_timeout := sleep_level_timeout self |}.

(** The tunable parameters are within [0.1, 1.0]. *)
Definition params_in_range (self : EnergyOptimizer) : Prop :=
  0.1 <= duty_cycle self <= 1.0 /\
  0.1 <= aggregation_factor self <= 1.0.

(** The sensors run at the duty cycle of the current sleep level. *)
Definition at_sleep_level (self : EnergyOptimizer)
    (sensors : list Sensor.IoTSensor) : Prop :=
  exists level_duty : R,
    nth_error (sleep_levels self) (Z.to_nat (current_sleep_level self))
    = Some level_duty /\
    Forall (fun sensor => Sensor.duty_cycle sensor = level_duty) sensors.

(** The levels go from the most active to the deepest sleep. *)
Definition descending (levels : list R) : Prop :=
  forall (i j : nat) (a b : R),
    (i <= j)%nat ->
    nth_error levels i = Some a -> nth_error levels j = Some b -> b <= a.

(** The sensor type of a reading: [reading.sensor_id.split('_')[-1]]. *)
Definition sensor_type_of (reading : SensorReading) : string :=
  Py.last_piece (Py.split "_" (sensor_id reading)).

(** The dict [grouped_readings], in insertion order:
    [if key not in d: d[key] = []] followed by [d[key].append(reading)]. *)
Fixpoint group_append (key : string) (reading : SensorReading)
    (grouped : list (string * list SensorReading))
  : list (string * list SensorReading) :=
  match grouped with
  | [] => [(key, [reading])]
  | (k, readings_list) :: rest =>
      if k =? key then (k, (readings_list ++ [reading])%list) :: rest
      else (k, readings_list) :: group_append key reading rest
  end.

Definition group_readings (readings : list SensorReading)
  : list (string * list SensorReading) :=
  fold_left (fun grouped reading =>
               group_append (sensor_type_of reading) reading grouped)
            readings [].

(** The body of the loop over [grouped_readings.items()]: what one group
    adds to [aggregated]; [stamp] is [datetime.now()]. *)
Definition aggregate_group (self : EnergyOptimizer) (stamp : R)
    (sensor_type : string) (readings_list : list SensorReading)
  : list SensorReading :=
  match readings_list with
  | first :: _ :: _ =>
      let avg_value :=
        Py.sum (map value readings_list) / INR (length readings_list) in
      let total_power := Py.sum (map power_consumed readings_list) in
      [ mkReading stamp ("aggregated_" ++ sensor_type) avg_value (unit first)
                  (total_power * aggregation_factor self) ]
  | _ => readings_list
  end.

(** [EnergyOptimizer.aggregate_data]; [stamp i] is the time read for the
    group at position [i] of the dict. *)
Definition aggregate_data (self : EnergyOptimizer) (stamp : nat -> R)
    (readings : list SensorReading) : list SensorReading :=
  if negb (optimization_enabled self) then readings
  else
    concat (imap (fun i group =>
                    aggregate_group self (stamp i) (fst group) (snd group))
                 (group_readings readings)).

End Optimizer.

(** ** The specification's formulations

    The definitions of this module follow the words of the specification,
    not the program; the theorems compare them with the program. *)

Module Spec.

Local Open Scope R_scope.

(** The total and the arithmetic mean of a list of numbers. *)
Definition total (xs : list R) : R := fold_right Rplus 0 xs.
Definition mean (xs : list R) : R := total xs / INR (length xs).

(** The single-message power formula of section 4.3:
    [Ptx * t_tx + Prx * (0.1 * t_tx) + Pidle * 0.1], with [Prx = 50] and
    [Pidle = 5]. *)
Definition single_message_power (P_tx t_tx : R) : R :=
  P_tx * t_tx + 50 * (0.1 * t_tx) + 5 * 0.1.

(** The queuing charge as the specification words it: 20% of the
    single-message power formula. *)
Definition queuing_charge (P_tx t_tx : R) : R :=
  0.2 * single_message_power P_tx t_tx.

(** The power of a batch before the efficiency discount, as the
    specification words it: the mean of the transmission powers of the
    distinct locations, times the batch transmission time; without
    locations, the single-message formula at the batch transmission
    time. *)
Definition batch_power (batch : list Channel.Message) : R :=
  let total_size := fold_right Z.add 0%Z (map Channel.size batch) in
  let batch_transmission_time := IZR total_size / 1200 in
  match Channel.total_locations_of batch with
  | [] =>
      Channel.calculate_comm_power total_size batch_transmission_time None
  | locations =>
      mean (map (fun loc => Channel.calculate_transmission_power
                              (Channel.calculate_distance loc))
                locations)
      * batch_transmission_time
  end.

(** The distinct elements of a list, in the order of their first
    occurrences. *)
Fixpoint first_occurrences (keys : list string) : list string :=
  match keys with
  | [] => []
  | k :: rest =>
      k :: filter (fun k' => k' <> k) (first_occurrences rest)
  end.

(** The groups of the readings by a key: one group per key, in the order
    of the first occurrences of the keys, holding the readings of that key
    in the order of the input. *)
Definition groups_by (key : SensorReading -> string)
    (readings : list SensorReading) : list (string * list SensorReading) :=
  map (fun k => (k, filter (fun r => key r = k) readings))
      (first_occurrences (map key readings)).

(** The trailing suffix of a sensor id, as the specification words it:
    the text after the last ['_'] of the id, and the whole id when it
    holds no ['_']. *)
Fixpoint holds_underscore (s : string) : bool :=
  match s with
  | EmptyString => false
  | String c rest => Ascii.eqb c "_" || holds_underscore rest
  end.

Fixpoint trailing_suffix (s : string) : string :=
  match s with
  | EmptyString => EmptyString
  | String c rest =>
      if holds_underscore rest then trailing_suffix rest
      else if Ascii.eqb c "_" then rest
      else s
  end.

Definition suffix_of (r : SensorReading) : string :=
  trailing_suffix (sensor_id r).

(** The groups of the readings by the trailing suffix of their sensor
    id. *)
Definition groups (readings : list SensorReading)
  : list (string * list SensorReading) :=
  groups_by suffix_of readings.

(** What the output holds for a group of suffix [k]: the group itself
    when it has one reading, and otherwise one synthetic reading. *)
Definition aggregates (factor : R) (k : string)
    (group out : list SensorReading) : Prop :=
  (length group = 1%nat -> out = group) /\
  ((1 < length group)%nat ->
   exists r : SensorReading,
     out = [r] /\
     sensor_id r = "aggregated_" ++ k /\
     value r = mean (map value group) /\
     power_consumed r = total (map power_consumed group) * factor).

(** The stored previous values after a list of readings went by: each
    reading that is not a motion reading replaces the value stored for
    its sensor id. *)
Definition stored (last : gmap string R) (readings : list SensorReading)
  : gmap string R :=
  fold_left (fun m r =>
               if Py.contains "motion" (sensor_id r) then m
               else <[sensor_id r := value r]> m)
            readings last.

(** A reading shows activity against the stored values: a motion reading
    with a value above 0, or another reading whose change relative to the
    value stored for its sensor id is above the threshold. *)
Definition triggers (threshold : R) (last : gmap string R)
    (r : SensorReading) : Prop :=
  (Py.contains "motion" (sensor_id r) = true /\ value r > 0) \/
  (Py.contains "motion" (sensor_id r) = false /\
   exists previous : R,
     last !! sensor_id r = Some previous /\
     Optimizer.percent_change previous (value r) > threshold).

(** Activity is detected in a cycle when one of its readings shows
    activity against the values stored when it is looked at. *)
Definition activity (threshold : R) (last : gmap string R)
    (readings : list SensorReading) : Prop :=
  exists (before : list SensorReading) (r : SensorReading)
         (after : list SensorReading),
    readings = (before ++ r :: after)%list /\
    triggers threshold (stored last before) r.

(** The same two notions when the change is the one the program
    computes: [scaled_change] is the evaluation of
    [abs((current - previous) / previous) * 100] in its arithmetic. *)
Section Computed.

Variable scaled_change : R -> R -> R.



End Computed.

(** No activity is detected in any of the consecutive cycles. *)
Fixpoint quiet (threshold : R) (last : gmap string R)
    (cycles : list (list SensorReading)) : Prop :=
  match cycles with
  | [] => True
  | readings :: rest =>
      ~ activity threshold last readings /\
      quiet threshold (stored last readings) rest
  end.

End Spec.

(** ** The system ([IoTSystem]) *)

Module System.

Local Open Scope R_scope.

(** [PowerMetrics]. *)
Record PowerMetrics : Type := mkPowerMetrics {
  sensing_power : R;
  communication_power : R;
  processing_power : R;
  sleep_power : R;
  total_power : R
}.

(** The sensors that [IoTSystem._initialize_sensors] appends, with the
    sensor type each subclass passes to the base constructor. *)
Definition _initialize_sensors : list Sensor.IoTSensor :=
  [ Sensor.IoTSensor_init "living_room_01" "DHT22" "Living Room";
    Sensor.IoTSensor_init "bedroom_01" "DHT22" "Master Bedroom";
    Sensor.IoTSensor_init "kitchen_01" "DHT22" "Kitchen";
    Sensor.IoTSensor_init "air_01" "AirQuality" "Living Room";
    Sensor.IoTSensor_init "air_02" "AirQuality" "Kitchen";
    Sensor.IoTSensor_init "light_01" "LDR" "Living Room";
    Sensor.IoTSensor_init "light_02" "LDR" "Master Bedroom";
    Sensor.IoTSensor_init "light_03" "LDR" "Home Office";
    Sensor.IoTSensor_init "noise_01" "Noise" "Living Room";
    Sensor.IoTSensor_init "noise_02" "Noise" "Master Bedroom";
    Sensor.IoTSensor_init "pir_01" "PIR" "Front Door";
    Sensor.IoTSensor_init "pir_02" "PIR" "Back Yard" ].

(** The locals of the publishing loop of [run_simulation]:
    [base_sensor_id = reading.sensor_id.split('_')[0]],
    [matching_sensor = next((s for s in sensors if s.sensor_id ==
    base_sensor_id), None)] and [sensor_location]. *)
Definition base_sensor_id (reading : SensorReading) : string :=
  match Py.split "_" (sensor_id reading) with
  | first :: _ => first
  | [] => ""
  end.

Definition matching_sensor (sensors : list Sensor.IoTSensor)
    (reading : SensorReading) : option Sensor.IoTSensor :=
  List.find (fun s => Sensor.dev_id s =? base_sensor_id reading)%string sensors.

Definition sensor_location_of (sensors : list Sensor.IoTSensor)
    (reading : SensorReading) : option string :=
  match matching_sensor sensors reading with
  | Some s => Some (Sensor.location s)
  | None => None
  end.

(** [sum] over calls that may raise, left to right from [0]. *)
Definition sum_results (xs : list (Py.result R)) : Py.result R :=
  fold_left (fun acc x => try! a := acc in try! v := x in Py.Ok (a + v))
            xs (Py.Ok 0).

(** [IoTSystem.calculate_system_power], on the sensors of the system. *)
Definition calculate_system_power (sensors : list Sensor.IoTSensor)
    (readings : list SensorReading) (comm_power : R)
  : Py.result PowerMetrics :=
  let sensing_power := Py.sum (map power_consumed readings) in
  let processing_power := INR (length readings) * 0.5 in
  try! sleep_power :=
    sum_results (map (fun s => Sensor.calculate_power_consumption s 1.0 "sleep")
                     sensors) in
  Py.Ok {| sensing_power := sensing_power;
           communication_power := comm_power;
           processing_power := processing_power;
           sleep_power := sleep_power;
           total_power := sensing_power + comm_power + processing_power
                          + sleep_power |}.

End System.

(** ** String methods used by the alert system *)

Module PyStr.

(** [sep.join(pieces)] for a one-character separator. *)
Fixpoint join (sep : ascii) (pieces : list string) : string :=
  match pieces with
  | [] => ""
  | [p] => p
  | p :: rest => p ++ String sep (join sep rest)
  end.

(** [s.rsplit(sep, 1)[0]]: what precedes the last separator of [s], and
    [s] itself when it holds none. *)
Fixpoint before_last (sep : ascii) (s : string) : option string :=
  match s with
  | EmptyString => None
  | String c s' =>
      match before_last sep s' with
      | Some p => Some (String c p)
      | None => if Ascii.eqb c sep then Some "" else None
      end
  end.

Definition rsplit1_head (sep : ascii) (s : string) : string :=
  match before_last sep s with
  | Some p => p
  | None => s
  end.

(** [s.replace(a, b)] for one-character [a] and [b]. *)
Fixpoint replace (a b : ascii) (s : string) : string :=
  match s with
  | EmptyString => ""
  | String c s' => String (if Ascii.eqb c a then b else c) (replace a b s')
  end.

Definition is_upper (c : ascii) : bool :=
  (65 <=? nat_of_ascii c)%nat && (nat_of_ascii c <=? 90)%nat.
Definition is_lower (c : ascii) : bool :=
  (97 <=? nat_of_ascii c)%nat && (nat_of_ascii c <=? 122)%nat.
Definition upper (c : ascii) : ascii :=
  if is_lower c then ascii_of_nat (nat_of_ascii c - 32) else c.
Definition lower (c : ascii) : ascii :=
  if is_upper c then ascii_of_nat (nat_of_ascii c + 32) else c.

(** [s.title()] on ASCII strings: a letter that follows a letter is
    lowered, any other letter is raised. *)
Fixpoint title_from (after_letter : bool) (s : string) : string :=
  match s with
  | EmptyString => ""
  | String c s' =>
      if is_upper c || is_lower c then
        String (if after_letter then lower c else upper c) (title_from true s')
      else String c (title_from false s')
  end.

Definition title (s : string) : string := title_from false s.

End PyStr.

(** ** Alerts ([EmailAlertSystem]) *)

Module Alerts.

Local Open Scope R_scope.

(** [AlertData]; the timestamp is a number of seconds. *)
Record AlertData : Type := mkAlert {
  timestamp : R;
  alert_type : string;
  severity : string;
  sensor_id : string;
  sensor_location : string;
  current_value : R;
  threshold_value : R;
  unit : string;
  message : string
}.

(** One entry of [EmailAlertSystem.thresholds]. *)
Record Thresholds : Type := mkThresholds {
  min : R;
  max : R;
  critical_min : R;
  critical_max : R
}.

(** The attributes of an [EmailAlertSystem] that the alert path reads or
    writes. *)
Record EmailAlertSystem : Type := mkAlertSystem {
  thresholds : gmap string Thresholds;
  alert_history : list AlertData;
  last_alert_time : gmap string R;
  alert_cooldown : R;
  pending_alerts : gset string;
  email_enabled : bool
}.

(** [EmailAlertSystem.__init__]. *)
Definition EmailAlertSystem_init : EmailAlertSystem :=
  {| thresholds :=
       list_to_map
         [ ("temperature", mkThresholds 18.0 28.0 10.0 35.0);
           ("humidity", mkThresholds 40.0 70.0 25.0 85.0);
           ("air_quality", mkThresholds 0.0 50.0 0.0 100.0);
           ("light", mkThresholds 200.0 1000.0 50.0 1500.0);
           ("noise", mkThresholds 30.0 60.0 20.0 80.0) ];
     alert_history := [];
     last_alert_time := ∅;
     alert_cooldown := 300;
     pending_alerts := ∅;
     email_enabled := true |}.

(** [datetime.min], in seconds from the epoch of the timestamps. *)
Definition datetime_min : R := -62135596800.

(** [type_mapping.get(sensor_type)]; [None] also for 'motion', which the
    dict maps to [None]. *)
Definition type_mapping (sensor_type : string) : option string :=
  if sensor_type =? "temp" then Some "temperature"
  else if sensor_type =? "hum" then Some "humidity"
  else if sensor_type =? "air" then Some "air_quality"
  else if sensor_type =? "light" then Some "light"
  else if sensor_type =? "noise" then Some "noise"
  else if sensor_type =? "motion" then None
  else None.

(** The chain that sets the locals [alert_type], [severity] and
    [threshold_exceeded] of [check_sensor_reading]; [None] when no branch
    is taken. *)
Definition classify (threshold_key : string) (limits : Thresholds) (value : R)
  : option (string * string * R) :=
  let name := PyStr.title (PyStr.replace "_" " " threshold_key) in
  if Py.lt value (critical_min limits) then
    Some ("Critical Low " ++ name, "critical", critical_min limits)
  else if Py.gt value (critical_max limits) then
    Some ("Critical High " ++ name, "critical", critical_max limits)
  else if Py.lt value (min limits) then
    Some ("Low " ++ name, "high", min limits)
  else if Py.gt value (max limits) then
    Some ("High " ++ name, "high", max limits)
  else None.

Section Formatting.

(** The formatting [f"{x:.1f}"] of a float. *)
Variable format_1f : R -> string.

(** [EmailAlertSystem._generate_alert_message]. *)
Definition _generate_alert_message (alert_type : string)
    (current_value threshold_value : R) (unit location : string) : string :=
  let urgency :=
    if Py.contains "Critical" alert_type then "CRITICAL ALERT"
    else "WARNING ALERT" in
  let action :=
    if Py.contains "Critical" alert_type then "IMMEDIATE ACTION REQUIRED"
    else "Please check the system" in
  urgency ++ ": " ++ alert_type ++ " detected at " ++ location ++ ". "
  ++ "Current reading: " ++ format_1f current_value ++ " " ++ unit ++ ", "
  ++ "Threshold: " ++ format_1f threshold_value ++ " " ++ unit ++ ". "
  ++ action ++ ".".

(** [EmailAlertSystem.check_sensor_reading], called at time [now];
    returns the new [self] and the list of alerts. *)
Definition check_sensor_reading (self : EmailAlertSystem)
    (reading : SensorReading) (now : R)
  : EmailAlertSystem * list AlertData :=
  let sensor_parts := Py.split "_" (reading_sensor_id reading) in
  if (length sensor_parts <? 2)%nat then (self, [])
  else
    let sensor_type := Py.last_piece sensor_parts in
    match type_mapping sensor_type with
    | None => (self, [])
    | Some threshold_key =>
        if negb (Py.truthy (Some threshold_key)) then (self, [])
        else
          match thresholds self !! threshold_key with
          | None => (self, [])
          | Some limits =>
              let value := reading_value reading in
              let base_sensor_id := PyStr.join "_" (removelast sensor_parts) in
              let location := "Unknown Location" in
              match classify threshold_key limits value with
              | None => (self, [])
              | Some (alert_type, severity, threshold_exceeded) =>
                  let alert_key := base_sensor_id ++ "_" ++ alert_type in
                  let last_alert :=
                    match last_alert_time self !! alert_key with
                    | Some t => t
                    | None => datetime_min
                    end in
                  let time_since_last := now - last_alert in
                  if bool_decide (alert_key ∈ pending_alerts self)
                  then (self, [])
                  else if Py.le (alert_cooldown self) time_since_last then
                    let alert :=
                      mkAlert now alert_type severity (reading_sensor_id reading)
                              location value threshold_exceeded
                              (reading_unit reading)
                              (_generate_alert_message alert_type value
                                 threshold_exceeded (reading_unit reading)
                                 location) in
                    ({| thresholds := thresholds self;
                        alert_history := alert_history self;
                        last_alert_time :=
                          <[alert_key := now]> (last_alert_time self);
                        alert_cooldown := alert_cooldown self;
                        pending_alerts := {[alert_key]} ∪ pending_alerts self;
                        email_enabled := email_enabled self |},
                     [alert])
                  else (self, [])
              end
          end
    end.

End Formatting.

(** [EmailAlertSystem.process_alerts]; [delivered alert] tells whether the
    mail server accepts the mail of an alert.  Returns the new [self] and
    the number of mails sent. *)
Fixpoint process_alerts (delivered : AlertData -> bool)
    (self : EmailAlertSystem) (alerts : list AlertData)
  : EmailAlertSystem * Z :=
  match alerts with
  | [] => (self, 0%Z)
  | alert :: rest =>
      let sent := if email_enabled self then delivered alert else false in
      let alert_key :=
        PyStr.rsplit1_head "_" (sensor_id alert) ++ "_" ++ alert_type alert in
      let self :=
        {| thresholds := thresholds self;
           alert_history := (alert_history self ++ [alert])%list;
           last_alert_time := last_alert_time self;
           alert_cooldown := alert_cooldown self;
           pending_alerts := pending_alerts self ∖ {[alert_key]};
           email_enabled := email_enabled self |} in
      let '(self, emails_sent) := process_alerts delivered self rest in
      (self, ((if sent then 1 else 0) + emails_sent)%Z)
  end.

(** The assignment [alert.sensor_location = sensor.location] of
    [collect_sensor_data]. *)
Definition with_location (alert : AlertData) (location : string) : AlertData :=
  {| timestamp := timestamp alert;
     alert_type := alert_type alert;
     severity := severity alert;
     sensor_id := sensor_id alert;
     sensor_location := location;
     current_value := current_value alert;
     threshold_value := threshold_value alert;
     unit := unit alert;
     message := message alert |}.

(** The key under which an alert of the given type for a reading is
    tracked. *)
Definition alert_key_of (reading : SensorReading) (alert_type : string)
  : string :=
  PyStr.join "_" (removelast (Py.split "_" (reading_sensor_id reading)))
  ++ "_" ++ alert_type.

End Alerts.

(** ** Theorems: power model *)

Module PowerModelFacts.
Import Sensor.

Lemma unknown_kind_eqb (op : string) :
  ~ known_kind op ->
  (op =? "sensing") = false /\ (op =? "communication") = false /\
  (op =? "processing") = false /\ (op =? "sleep") = false.
Proof.
  intros H. unfold known_kind in H.
  repeat split; apply String.eqb_neq; intros ->; tauto.
Qed.

(** C1 (as the code has it): for every sensor, duration and operation
    kind other than 'sensing', 'communication', 'processing' and
    'sleep', the power model returns the ordinary value 0.0 and raises
    nothing. *)
Theorem unknown_kind_returns_zero
    (self : IoTSensor) (t : R) (op : string) :
  ~ known_kind op ->
  calculate_power_consumption self t op = Py.Ok 0.0%R /\
  ~ Py.raises (calculate_power_consumption self t op).
Proof.
  intros H. destruct (unknown_kind_eqb op H) as (H1 & H2 & H3 & H4).
  unfold calculate_power_consumption. rewrite H1, H2, H3, H4.
  split; [reflexivity | intros [e He]; discriminate He].
Qed.

Lemma unknown_kind_returns_zero_witness :
  ~ known_kind "calibration" /\
  calculate_power_consumption (IoTSensor_init "s1" "DHT22" "Kitchen") 2 "calibration"
    = Py.Ok 0.0%R.
Proof.
  assert (H : ~ known_kind "calibration").
  { unfold known_kind. intros [H | [H | [H | H]]]; discriminate H. }
  split; [exact H |].
  exact (proj1 (unknown_kind_returns_zero
                  (IoTSensor_init "s1" "DHT22" "Kitchen") 2 "calibration" H)).
Defined.

(** C1 (as the spec states it) fails: the kind 'calibration' is none of
    the four known kinds, yet the call on a DHT22 sensor raises nothing
    and returns a number. *)
Lemma unknown_kind_does_not_raise :
  ~ (forall (self : IoTSensor) (t : R) (op : string),
        ~ known_kind op ->
        Py.raises (calculate_power_consumption self t op)).
Proof.
  intros H.
  destruct (H (IoTSensor_init "s1" "DHT22" "Kitchen") 2%R "calibration") as [e He].
  - unfold known_kind. intros [K | [K | [K | K]]]; discriminate K.
  - discriminate He.
Qed.

(** C2: for every profile with non-negative coefficients, every duration
    t >= 0 and every duty cycle in [0,1], the power model returns
    sensing*t*duty for 'sensing', communication*t for 'communication',
    processing*t for 'processing' and sleep*t*(1-duty) for 'sleep'; the
    result depends on the profile, the duty cycle, the duration and the
    kind only. *)
Theorem power_model_formulas (self : IoTSensor) (t : R) :
  nonneg_spec (power self) ->
  (0 <= t)%R ->
  (0 <= duty_cycle self <= 1)%R ->
  calculate_power_consumption self t "sensing"
    = Py.Ok (sensing (power self) * t * duty_cycle self)%R /\
  calculate_power_consumption self t "communication"
    = Py.Ok (communication (power self) * t)%R /\
  calculate_power_consumption self t "processing"
    = Py.Ok (processing (power self) * t)%R /\
  calculate_power_consumption self t "sleep"
    = Py.Ok (sleep (power self) * t * (1 - duty_cycle self))%R /\
  (forall (other : IoTSensor) (op : string),
      power other = power self ->
      duty_cycle other = duty_cycle self ->
      calculate_power_consumption other t op
        = calculate_power_consumption self t op).
Proof.
  intros _ _ _. repeat split.
  intros other op Hp Hd. unfold calculate_power_consumption.
  rewrite Hp, Hd. reflexivity.
Qed.

Lemma power_model_formulas_witness :
  calculate_power_consumption (IoTSensor_init "s1" "DHT22" "Kitchen") 0.1 "sensing"
    = Py.Ok (1.5 * 0.1 * 1.0)%R.
Proof.
  refine (proj1 (power_model_formulas (IoTSensor_init "s1" "DHT22" "Kitchen") 0.1 _ _ _)).
  - unfold nonneg_spec; simpl; lra.
  - lra.
  - simpl; lra.
Defined.

End PowerModelFacts.

(** ** Theorems: Python built-ins *)

Module PyFacts.

Local Open Scope R_scope.

Lemma min_Rmin (a b : R) : Py.min a b = Rmin a b.
Proof.
  unfold Py.min, Rmin.
  destruct (Rlt_dec b a), (Rle_dec a b); try reflexivity; lra.
Qed.

Lemma max_Rmax (a b : R) : Py.max a b = Rmax a b.
Proof.
  unfold Py.max, Rmax.
  destruct (Rgt_dec b a), (Rle_dec a b); try reflexivity; lra.
Qed.

Lemma le_true (a b : R) : Py.le a b = true <-> a <= b.
Proof. unfold Py.le. destruct (Rle_dec a b); split; intros; try easy. Qed.

Lemma le_false (a b : R) : Py.le a b = false <-> b < a.
Proof.
  unfold Py.le. destruct (Rle_dec a b); split; intros; try easy; lra.
Qed.

Lemma gt_true (a b : R) : Py.gt a b = true <-> b < a.
Proof.
  unfold Py.gt. destruct (Rgt_dec a b); split; intros; try easy; lra.
Qed.

Lemma gt_false (a b : R) : Py.gt a b = false <-> a <= b.
Proof.
  unfold Py.gt. destruct (Rgt_dec a b); split; intros; try easy; lra.
Qed.

Lemma lt_true (a b : R) : Py.lt a b = true <-> a < b.
Proof. unfold Py.lt. destruct (Rlt_dec a b); split; intros; try easy. Qed.

Lemma lt_false (a b : R) : Py.lt a b = false <-> b <= a.
Proof.
  unfold Py.lt. destruct (Rlt_dec a b); split; intros; try easy; lra.
Qed.

Lemma sum_total (xs : list R) : Py.sum xs = Spec.total xs.
Proof.
  unfold Py.sum, Spec.total.
  enough (H : forall a, fold_left Rplus xs a = a + fold_right Rplus 0 xs)
    by (rewrite H; lra).
  induction xs as [| x xs IH]; intros a; simpl; [lra |].
  rewrite IH. lra.
Qed.

Lemma sum_int_total (xs : list Z) : Py.sum_int xs = fold_right Z.add 0%Z xs.
Proof.
  unfold Py.sum_int.
  enough (H : forall a, fold_left Z.add xs a = (a + fold_right Z.add 0 xs)%Z)
    by (rewrite H; lia).
  induction xs as [| x xs IH]; intros a; simpl; [lia |].
  rewrite IH. lia.
Qed.

(** The order in which a set is summed does not matter. *)
Lemma sum_permutation (xs ys : list R) :
  Permutation xs ys -> Py.sum xs = Py.sum ys.
Proof.
  intros H. rewrite !sum_total. unfold Spec.total.
  induction H; simpl; lra.
Qed.

Lemma ln_10_pos : 0 < ln 10.
Proof. rewrite <- ln_1. apply ln_increasing; lra. Qed.

(** [log10] is non-decreasing on the positive reals. *)
Lemma log10_le (x y : R) : 0 < x -> x <= y -> Py.log10 x <= Py.log10 y.
Proof.
  intros Hx Hxy. unfold Py.log10.
  apply Rmult_le_compat_r.
  - left. apply Rinv_0_lt_compat, ln_10_pos.
  - destruct (Rle_lt_or_eq_dec _ _ Hxy) as [Hlt | ->]; [| lra].
    left. apply ln_increasing; assumption.
Qed.

Lemma log10_pos (x : R) : 1 < x -> 0 < Py.log10 x.
Proof.
  intros Hx. unfold Py.log10.
  apply Rmult_lt_0_compat.
  - rewrite <- ln_1. apply ln_increasing; lra.
  - apply Rinv_0_lt_compat, ln_10_pos.
Qed.

(** [10 ** y] is non-decreasing in [y], and above 1 for a positive [y]. *)
Lemma pow10_le (y z : R) : y <= z -> Py.pow 10 y <= Py.pow 10 z.
Proof. intros H. unfold Py.pow. apply Rle_Rpower; lra. Qed.

Lemma pow10_gt_1 (y : R) : 0 < y -> 1 < Py.pow 10 y.
Proof.
  intros H. unfold Py.pow, Rpower. rewrite <- exp_0.
  apply exp_increasing. apply Rmult_lt_0_compat; [assumption | apply ln_10_pos].
Qed.

End PyFacts.

(** ** Theorems: distance model *)

Module DistanceFacts.
Import Channel.

Local Open Scope R_scope.

(** The uncapped power of the path-loss law, as the formula writes it. *)
Lemma tx_power_far (d : R) :
  10 < d ->
  calculate_transmission_power d
  = Rmin (50 * Rpower 10 ((3 * (ln (d / 10) / ln 10)) / 10)) 200.
Proof.
  intros Hd. unfold calculate_transmission_power.
  replace (Py.le d 10.0) with false
    by (symmetry; apply PyFacts.le_false; lra).
  rewrite PyFacts.min_Rmin. unfold Py.pow, Py.log10.
  replace 50.0 with 50 by lra. replace 200.0 with 200 by lra.
  replace 3.0 with 3 by lra. replace 10.0 with 10 by lra. reflexivity.
Qed.

Lemma tx_power_near (d : R) : d <= 10 -> calculate_transmission_power d = 50.
Proof.
  intros Hd. unfold calculate_transmission_power.
  replace (Py.le d 10.0) with true
    by (symmetry; apply PyFacts.le_true; lra).
  lra.
Qed.

Lemma path_loss_monotone (d d' : R) :
  10 < d -> d <= d' ->
  50 * Rpower 10 ((3 * (ln (d / 10) / ln 10)) / 10)
  <= 50 * Rpower 10 ((3 * (ln (d' / 10) / ln 10)) / 10).
Proof.
  intros Hd Hdd'.
  apply Rmult_le_compat_l; [lra |].
  apply PyFacts.pow10_le.
  assert (H := PyFacts.log10_le (d / 10) (d' / 10)).
  unfold Py.log10 in H. lra.
Qed.

(** C3: for every distance d >= 0, the transmission power is 50 mW when
    d <= 10 and min(50 * 10^((3 * log10(d/10))/10), 200) mW otherwise; it
    never exceeds 200 mW and is non-decreasing in d for d > 10. *)
Theorem transmission_power_law (d : R) :
  0 <= d ->
  (d <= 10 -> calculate_transmission_power d = 50) /\
  (10 < d ->
   calculate_transmission_power d
   = Rmin (50 * Rpower 10 ((3 * (ln (d / 10) / ln 10)) / 10)) 200) /\
  calculate_transmission_power d <= 200 /\
  (forall d' : R,
      10 < d -> d <= d' ->
      calculate_transmission_power d <= calculate_transmission_power d').
Proof.
  intros _. split; [apply tx_power_near |]. split; [apply tx_power_far |].
  split.
  - destruct (Rle_dec d 10) as [Hle | Hgt].
    + rewrite tx_power_near by assumption. lra.
    + rewrite tx_power_far by lra. apply Rmin_r.
  - intros d' Hd Hdd'.
    rewrite !tx_power_far by lra.
    apply Rle_min_compat_r. apply path_loss_monotone; assumption.
Qed.

Lemma transmission_power_law_witness :
  calculate_transmission_power 40 <= 200 /\
  calculate_transmission_power 10 = 50.
Proof.
  split.
  - refine (proj1 (proj2 (proj2 (transmission_power_law 40 _)))). lra.
  - refine (proj1 (transmission_power_law 10 _) _); lra.
Defined.

(** Beyond the reference distance the power is above the minimum. *)
Lemma tx_power_above_min (d : R) :
  10 < d -> 50 < calculate_transmission_power d.
Proof.
  intros Hd. rewrite tx_power_far by assumption.
  apply Rmin_glb_lt; [| lra].
  assert (H : 1 < Py.pow 10 ((3 * Py.log10 (d / 10)) / 10)).
  { apply PyFacts.pow10_gt_1.
    assert (H := PyFacts.log10_pos (d / 10)). lra. }
  unfold Py.pow, Py.log10 in H. lra.
Qed.

Lemma distance_front_door : calculate_distance "Front Door" = sqrt 34.
Proof.
  unfold calculate_distance.
  replace (sensor_locations !! "Front Door") with (Some (3, 5)%Z)
    by (vm_compute; reflexivity).
  reflexivity.
Qed.

Lemma distance_bathroom : calculate_distance "Bathroom" = sqrt 180.
Proof.
  unfold calculate_distance.
  replace (sensor_locations !! "Bathroom") with (Some (12, 6)%Z)
    by (vm_compute; reflexivity).
  reflexivity.
Qed.

Lemma sqrt_between (x lo hi : R) :
  0 <= lo -> lo * lo < x -> x < hi * hi -> 0 <= hi -> lo < sqrt x < hi.
Proof.
  intros Hlo Hlx Hxh Hhi. split.
  - rewrite <- (sqrt_square lo) at 1 by assumption.
    apply sqrt_lt_1_alt. nra.
  - rewrite <- (sqrt_square hi) at 1 by assumption.
    apply sqrt_lt_1_alt. nra.
Qed.

End DistanceFacts.

(** ** Theorems: batch scheduler *)

Module ChannelFacts.
Import Channel.

Local Open Scope R_scope.

(** The single-message formula of the specification is
    [calculate_comm_power]. *)
Lemma comm_power_formula (sz : Z) (t : R) (loc : option string) :
  calculate_comm_power sz t loc
  = Spec.single_message_power (tx_power_of loc) t.
Proof. unfold calculate_comm_power, Spec.single_message_power. lra. Qed.

(** A publish in batch mode that does not flush. *)
Lemma publish_queues (self : MQTTProtocol) (c : Call) :
  batch_mode_enabled self = true ->
  flush_due self (pending self c) (call_now c) = false ->
  publish self c
  = ({| message_count := message_count self;
        total_bytes_sent := total_bytes_sent self;
        retry_count := retry_count self;
        message_batch := pending self c;
        batch_size_limit := batch_size_limit self;
        batch_timeout := batch_timeout self;
        last_batch_time := last_batch_time self;
        batch_mode_enabled := batch_mode_enabled self |},
     (true, queuing_power_of c)).
Proof.
  intros Hmode Hdue.
  unfold publish, publish_message, _batch_message. rewrite Hmode.
  unfold pending, message_of in Hdue. rewrite Hdue. reflexivity.
Qed.

(** A publish in batch mode that flushes. *)
Lemma publish_flushes (self : MQTTProtocol) (c : Call) :
  batch_mode_enabled self = true ->
  flush_due self (pending self c) (call_now c) = true ->
  let self' := fst (publish self c) in
  message_batch self' = [] /\
  last_batch_time self' = call_now c /\
  batch_size_limit self' = batch_size_limit self /\
  batch_timeout self' = batch_timeout self /\
  batch_mode_enabled self' = true /\
  fst (snd (publish self c)) = Py.lt (call_rnd c) 0.93 /\
  snd (snd (publish self c)) = queuing_power_of c + flush_share self c.
Proof.
  intros Hmode Hdue.
  unfold publish, publish_message, _batch_message. rewrite Hmode.
  unfold pending, message_of in Hdue. rewrite Hdue.
  unfold flush_share, queuing_power_of, pending, message_of.
  destruct (Py.lt (call_rnd c) 0.93); simpl; repeat split; try assumption.
  f_equal. field. apply not_0_IZR. lia.
Qed.

(** The flush decision, on the length of the batch and the clock. *)
Lemma flush_due_false (self : MQTTProtocol) (batch : list Message) (now : R) :
  flush_due self batch now = false <->
  (Z.of_nat (length batch) < batch_size_limit self)%Z /\
  now - last_batch_time self <= batch_timeout self.
Proof.
  unfold flush_due. rewrite orb_false_iff, Z.leb_gt, PyFacts.gt_false.
  reflexivity.
Qed.

Lemma publish_keeps_parameters (self : MQTTProtocol) (c : Call) :
  batch_mode_enabled self = true ->
  batch_size_limit (fst (publish self c)) = batch_size_limit self /\
  batch_timeout (fst (publish self c)) = batch_timeout self /\
  batch_mode_enabled (fst (publish self c)) = true.
Proof.
  intros Hmode.
  destruct (flush_due self (pending self c) (call_now c)) eqn:Hdue.
  - destruct (publish_flushes self c Hmode Hdue) as (_ & _ & H1 & H2 & H3 & _).
    auto.
  - rewrite (publish_queues self c Hmode Hdue). simpl. auto.
Qed.

Lemma publish_below_limit (self : MQTTProtocol) (c : Call) :
  (1 <= batch_size_limit self)%Z ->
  below_limit self -> below_limit (fst (publish self c)).
Proof.
  intros Hlimit [Hmode Hlen].
  destruct (publish_keeps_parameters self c Hmode) as (HL & _ & HM).
  split; [exact HM |]. rewrite HL.
  destruct (flush_due self (pending self c) (call_now c)) eqn:Hdue.
  - destruct (publish_flushes self c Hmode Hdue) as (Hnil & _).
    rewrite Hnil. simpl. lia.
  - rewrite (publish_queues self c Hmode Hdue). simpl.
    apply flush_due_false in Hdue. tauto.
Qed.

Lemma run_below_limit (calls : list Call) (self : MQTTProtocol) :
  (1 <= batch_size_limit self)%Z ->
  below_limit self ->
  below_limit (run self calls) /\
  batch_size_limit (run self calls) = batch_size_limit self.
Proof.
  revert self. induction calls as [| c calls IH]; intros self Hlimit Hinv.
  - split; [exact Hinv | reflexivity].
  - unfold run. simpl. fold (run (fst (publish self c)) calls).
    destruct (publish_keeps_parameters self c (proj1 Hinv)) as (HL & _).
    destruct (IH (fst (publish self c))) as [H1 H2].
    + rewrite HL. exact Hlimit.
    + apply publish_below_limit; assumption.
    + split; [exact H1 | congruence].
Qed.

(** C6: with batch mode enabled and a batch size limit of at least 1,
    along every sequence of publish calls on a channel that starts with
    an empty batch, a call that flushes finds at most batchSizeLimit
    messages in the batch, and leaves the batch empty and the time of the
    last flush equal to the time of the call, whether the draw that
    decides the delivery makes it succeed or fail. *)
Theorem flush_within_limit_and_clears
    (self : MQTTProtocol) (pre : list Call) (c : Call) :
  batch_mode_enabled self = true ->
  (1 <= batch_size_limit self)%Z ->
  message_batch self = [] ->
  let before := run self pre in
  flush_due before (pending before c) (call_now c) = true ->
  (Z.of_nat (length (pending before c)) <= batch_size_limit self)%Z /\
  message_batch (fst (publish before c)) = [] /\
  last_batch_time (fst (publish before c)) = call_now c /\
  fst (snd (publish before c)) = Py.lt (call_rnd c) 0.93.
Proof.
  intros Hmode Hlimit Hempty before Hdue.
  assert (Hinv : below_limit self).
  { split; [exact Hmode |]. rewrite Hempty. simpl. lia. }
  destruct (run_below_limit pre self Hlimit Hinv) as [[Hm Hlen] HL].
  fold before in Hm, Hlen, HL.
  destruct (publish_flushes before c Hm Hdue)
    as (Hnil & Hlast & _ & _ & _ & Hdraw & _).
  split; [| split; [exact Hnil | split; [exact Hlast | exact Hdraw]]].
  unfold pending. rewrite length_app. simpl. lia.
Qed.

Lemma flush_within_limit_and_clears_witness :
  let c := mkCall "sensors/t1_temp" "{}" 1 (Some "Kitchen") 10 0.99 in
  message_batch (fst (publish (MQTTProtocol_init 0) c)) = [] /\
  last_batch_time (fst (publish (MQTTProtocol_init 0) c)) = 10.
Proof.
  intros c.
  refine ((fun H => conj (proj1 (proj2 H)) (proj1 (proj2 (proj2 H))))
            (flush_within_limit_and_clears (MQTTProtocol_init 0) [] c _ _ _ _)).
  - reflexivity.
  - simpl. lia.
  - reflexivity.
  - unfold flush_due. apply orb_true_iff. right.
    apply PyFacts.gt_true. simpl. lra.
Defined.

(** C10: for every publish call made with batch mode enabled, if after
    the append the batch is still shorter than batchSizeLimit and the
    time since the last flush does not exceed the batch timeout, the call
    returns success = true with the queuing charge alone, the message is
    only held in the batch, and the message count, the bytes sent and the
    retry count are unchanged. *)
Theorem queued_publish_reports_success (self : MQTTProtocol) (c : Call) :
  batch_mode_enabled self = true ->
  (Z.of_nat (length (pending self c)) < batch_size_limit self)%Z ->
  call_now c - last_batch_time self <= batch_timeout self ->
  snd (publish self c) = (true, queuing_power_of c) /\
  message_batch (fst (publish self c)) = pending self c /\
  message_count (fst (publish self c)) = message_count self /\
  total_bytes_sent (fst (publish self c)) = total_bytes_sent self /\
  retry_count (fst (publish self c)) = retry_count self.
Proof.
  intros Hmode Hlen Htime.
  assert (Hdue : flush_due self (pending self c) (call_now c) = false)
    by (apply flush_due_false; split; assumption).
  rewrite (publish_queues self c Hmode Hdue). simpl. auto.
Qed.

Lemma queued_publish_reports_success_witness :
  let c := mkCall "sensors/t1_temp" "{}" 1 (Some "Kitchen") 1 0.99 in
  snd (publish (MQTTProtocol_init 0) c) = (true, queuing_power_of c).
Proof.
  intros c.
  refine (proj1 (queued_publish_reports_success (MQTTProtocol_init 0) c _ _ _)).
  - reflexivity.
  - simpl. lia.
  - simpl. lra.
Defined.

(** C5: the charge made at enqueue time is meant to be 20% of the
    single-message power formula (the comment above the charge says 20%
    of normal transmission), and the code misses it: it takes the formula
    at 20% of the transmission time, which leaves the idle term whole.
    On a fresh channel a two-byte message without a location is queued
    without a flush; 20% of the formula is 0.142 mW and the charge
    returned is 0.542 mW. *)
Lemma queuing_charge_is_not_a_fifth :
  let c := mkCall "sensors/t1_temp" "{}" 1 None 1 0.5 in
  batch_mode_enabled (MQTTProtocol_init 0) = true /\
  flush_due (MQTTProtocol_init 0) (pending (MQTTProtocol_init 0) c) (call_now c) = false /\
  Spec.queuing_charge (tx_power_of (call_location c)) (time (message_of c))
  = 0.142 /\
  snd (snd (publish (MQTTProtocol_init 0) c)) = 0.542 /\
  snd (snd (publish (MQTTProtocol_init 0) c))
  <> Spec.queuing_charge (tx_power_of (call_location c))
                         (time (message_of c)).
Proof.
  intros c.
  assert (Hdue : flush_due (MQTTProtocol_init 0) (pending (MQTTProtocol_init 0) c) (call_now c) = false).
  { apply flush_due_false. simpl. split; [lia | lra]. }
  assert (Hspec : Spec.queuing_charge (tx_power_of (call_location c))
                                      (time (message_of c)) = 0.142).
  { unfold Spec.queuing_charge, Spec.single_message_power. simpl.
    change (Z.of_nat 2) with 2%Z. lra. }
  assert (Hcode : snd (snd (publish (MQTTProtocol_init 0) c)) = 0.542).
  { rewrite (publish_queues (MQTTProtocol_init 0) c eq_refl Hdue).
    unfold queuing_power_of. rewrite comm_power_formula.
    unfold Spec.single_message_power. simpl.
    change (Z.of_nat 2) with 2%Z. lra. }
  split; [reflexivity |]. split; [exact Hdue |].
  split; [exact Hspec |]. split; [exact Hcode |].
  rewrite Hspec, Hcode. lra.
Qed.

(** A message with a location puts that location in the set. *)
Lemma flushing_location_counted
    (batch : list Message) (msg : Message) :
  Py.truthy (location msg) = true ->
  (0 <? length (total_locations_of (batch ++ [msg])))%nat = true.
Proof.
  intros Hloc. apply Nat.ltb_lt.
  destruct (location msg) as [loc |] eqn:Hmsg; [| discriminate Hloc].
  assert (Hin : loc ∈ total_locations_of (batch ++ [msg])).
  { unfold total_locations_of. apply elem_of_remove_dups.
    apply list_elem_of_omap. exists msg. split.
    - apply elem_of_app. right. apply list_elem_of_singleton. reflexivity.
    - rewrite Hmsg, Hloc. reflexivity. }
  destruct (total_locations_of (batch ++ [msg])).
  - apply elem_of_nil in Hin. contradiction.
  - simpl. lia.
Qed.

(** C4 (as the code has it): on every batch flush whose flushing message
    carries a location, the batch power before the efficiency discount is
    the transmission power at the arithmetic mean of the distances of the
    distinct locations of the batch, times the batch transmission time
    totalSize/1200, where totalSize is the sum of the message sizes; when
    no location is present in the batch, it is the single-message power
    formula, with the default Ptx of 100 mW, at that batch transmission
    time. *)
Theorem batch_power_at_flush (self : MQTTProtocol) (c : Call) :
  batch_mode_enabled self = true ->
  flush_due self (pending self c) (call_now c) = true ->
  let batch := pending self c in
  let total_size := fold_right Z.add 0%Z (map size batch) in
  let batch_time := IZR total_size / 1200 in
  snd (snd (publish self c)) = queuing_power_of c + flush_share self c /\
  (Py.truthy (call_location c) = true ->
   batch_power_of batch (call_location c)
   = calculate_transmission_power
       (Spec.mean (map calculate_distance (total_locations_of batch)))
     * batch_time) /\
  (total_locations_of batch = [] ->
   batch_power_of batch (call_location c)
   = Spec.single_message_power 100 batch_time).
Proof.
  intros Hmode Hdue batch total_size batch_time.
  split; [apply (publish_flushes self c Hmode Hdue) |].
  unfold batch_power_of. rewrite PyFacts.sum_int_total.
  fold batch total_size batch_time. split.
  - intros Hloc. rewrite Hloc.
    unfold batch, pending.
    rewrite (flushing_location_counted (message_batch self) (message_of c) Hloc).
    simpl. rewrite PyFacts.sum_total. unfold Spec.mean.
    rewrite length_map. reflexivity.
  - intros Hnil. rewrite Hnil. rewrite andb_false_r.
    rewrite comm_power_formula. f_equal.
    unfold tx_power_of.
    destruct (call_location c) as [loc |] eqn:Hc; [| lra].
    destruct (Py.truthy (Some loc)) eqn:Hloc; [| lra].
    assert (H := flushing_location_counted (message_batch self) (message_of c)).
    simpl in H. rewrite Hc in H. specialize (H Hloc).
    fold (pending self c) in H. fold batch in H. rewrite Hnil in H.
    discriminate H.
Qed.

Lemma batch_power_at_flush_witness :
  let c := mkCall "sensors/t1_temp" "{}" 1 (Some "Kitchen") 10 0.5 in
  snd (snd (publish (MQTTProtocol_init 0) c)) = queuing_power_of c + flush_share (MQTTProtocol_init 0) c.
Proof.
  intros c.
  refine (proj1 (batch_power_at_flush (MQTTProtocol_init 0) c _ _)).
  - reflexivity.
  - unfold flush_due. apply orb_true_iff. right.
    apply PyFacts.gt_true. simpl. lra.
Defined.

(** C4 (as the spec states it) fails: a message from the front door is
    queued, and a message from the bathroom then flushes the batch on the
    timeout; the batch power before the discount is the power at the mean
    of the two distances, 50 mW times the batch time, which is below the
    mean of the two transmission powers times the batch time. *)
Lemma batch_power_is_not_mean_of_powers :
  let c1 := mkCall "sensors/d1_motion" "{}" 1 (Some "Front Door") 1 0.5 in
  let c2 := mkCall "sensors/b1_hum" "{}" 1 (Some "Bathroom") 10 0.5 in
  let s1 := fst (publish (MQTTProtocol_init 0) c1) in
  flush_due s1 (pending s1 c2) (call_now c2) = true /\
  batch_power_of (pending s1 c2) (call_location c2)
  <> Spec.batch_power (pending s1 c2).
Proof.
  intros c1 c2 s1.
  assert (Hq : flush_due (MQTTProtocol_init 0) (pending (MQTTProtocol_init 0) c1) (call_now c1) = false).
  { apply flush_due_false. simpl. split; [lia | lra]. }
  assert (Hs1 : pending s1 c2 = [message_of c1; message_of c2]).
  { unfold s1. rewrite (publish_queues (MQTTProtocol_init 0) c1 eq_refl Hq). reflexivity. }
  split.
  - unfold flush_due. apply orb_true_iff. right. apply PyFacts.gt_true.
    unfold s1. rewrite (publish_queues (MQTTProtocol_init 0) c1 eq_refl Hq). simpl. lra.
  - rewrite Hs1.
    assert (Hlocs : total_locations_of [message_of c1; message_of c2]
                    = ["Front Door"; "Bathroom"]) by reflexivity.
    assert (Hsize : Py.sum_int (map size [message_of c1; message_of c2]) = 4%Z)
      by reflexivity.
    assert (Hsize' : fold_right Z.add 0%Z
                       (map size [message_of c1; message_of c2]) = 4%Z)
      by reflexivity.
    unfold batch_power_of, Spec.batch_power.
    rewrite Hlocs, Hsize, Hsize'. simpl.
    rewrite DistanceFacts.distance_front_door, DistanceFacts.distance_bathroom.
    destruct (DistanceFacts.sqrt_between 34 5 6) as [Ha1 Ha2]; try lra.
    destruct (DistanceFacts.sqrt_between 180 13 14) as [Hb1 Hb2]; try lra.
    unfold Py.sum, Spec.mean, Spec.total. simpl.
    rewrite (DistanceFacts.tx_power_near ((0 + sqrt 34 + sqrt 180) / (1 + 1)))
      by lra.
    rewrite (DistanceFacts.tx_power_near (sqrt 34)) by lra.
    assert (Hfar := DistanceFacts.tx_power_above_min (sqrt 180)).
    intros Heq. lra.
Qed.

End ChannelFacts.

(** ** Theorems: progressive sleep *)

Module SleepFacts.
Import Optimizer.

Local Open Scope R_scope.

(** One iteration of the loop, on the flag and on the dict. *)
Lemma scan_reading_spec (threshold : R) (b : bool) (last : gmap string R)
    (r : SensorReading) :
  snd (scan_reading threshold (b, last) r) = Spec.stored last [r] /\
  (fst (scan_reading threshold (b, last) r) = true <->
   b = true \/ Spec.triggers threshold last r).
Proof.
  unfold scan_reading, Spec.stored, Spec.triggers. simpl.
  destruct (Py.contains "motion" (sensor_id r)) eqn:Hm; simpl.
  - split; [reflexivity |].
    destruct (Py.gt (value r) 0) eqn:Hgt.
    + apply PyFacts.gt_true in Hgt. split; [intros _ | reflexivity].
      right. left. split; [reflexivity | lra].
    + apply PyFacts.gt_false in Hgt. split; [tauto |].
      intros [H | [[_ H] | [H _]]]; [exact H | lra | discriminate H].
  - split; [reflexivity |].
    destruct (last !! sensor_id r) as [previous |] eqn:Hprev.
    + destruct (Py.gt (percent_change previous (value r)) threshold) eqn:Hgt.
      * apply PyFacts.gt_true in Hgt. split; [intros _ | reflexivity].
        right. right. split; [reflexivity |]. exists previous.
        split; [reflexivity | lra].
      * apply PyFacts.gt_false in Hgt. split; [tauto |].
        intros [H | [[H _] | [_ (p & Hp & H)]]];
          [exact H | discriminate H |].
        inversion Hp; subst p. lra.
    + split; [tauto |].
      intros [H | [[H _] | [_ (p & Hp & _)]]];
        [exact H | discriminate H | discriminate Hp].
Qed.

Lemma stored_app (last : gmap string R) (l1 l2 : list SensorReading) :
  Spec.stored last (l1 ++ l2) = Spec.stored (Spec.stored last l1) l2.
Proof. unfold Spec.stored. apply fold_left_app. Qed.

(** The loop over the readings: the flag it ends with and the dict it
    leaves. *)
Lemma scan_loop_spec (threshold : R) (readings : list SensorReading)
    (b : bool) (last : gmap string R) :
  snd (fold_left (scan_reading threshold) readings (b, last))
  = Spec.stored last readings /\
  (fst (fold_left (scan_reading threshold) readings (b, last)) = true <->
   b = true \/ Spec.activity threshold last readings).
Proof.
  revert b last. induction readings as [| r rs IH]; intros b last.
  - simpl. split; [reflexivity |]. split; [tauto |].
    intros [H | (before & r & after & Heq & _)]; [exact H |].
    destruct before; discriminate Heq.
  - cbn [fold_left].
    destruct (scan_reading threshold (b, last) r) as [b1 last1] eqn:Hstep.
    destruct (scan_reading_spec threshold b last r) as [Hs Hb].
    rewrite Hstep in Hs, Hb. cbn [fst snd] in Hs, Hb. subst last1.
    destruct (IH b1 (Spec.stored last [r])) as [IHs IHb].
    split; [rewrite IHs; symmetry; apply (stored_app last [r] rs) |].
    rewrite IHb, Hb. split.
    + intros [[H | H] | (before & x & after & Heq & Htr)].
      * left. exact H.
      * right. exists [], r, rs. split; [reflexivity | exact H].
      * right. exists (r :: before), x, after. split.
        -- simpl. rewrite Heq. reflexivity.
        -- exact Htr.
    + intros [H | (before & x & after & Heq & Htr)]; [left; left; exact H |].
      destruct before as [| y before]; simpl in Heq.
      * inversion Heq; subst x after. left. right. exact Htr.
      * inversion Heq; subst y rs. right.
        exists before, x, after. split; [reflexivity | exact Htr].
Qed.

Lemma scan_readings_spec (threshold : R) (last : gmap string R)
    (readings : list SensorReading) :
  snd (scan_readings threshold last readings) = Spec.stored last readings /\
  (fst (scan_readings threshold last readings) = true <->
   Spec.activity threshold last readings).
Proof.
  destruct (scan_loop_spec threshold readings false last) as [Hs Hb].
  split; [exact Hs |]. unfold scan_readings. rewrite Hb.
  split; [intros [H | H]; [discriminate H | exact H] | tauto].
Qed.

Lemma getitem_in_range {A : Type} (l : list A) (i : Z) :
  (0 <= i < Z.of_nat (length l))%Z ->
  exists a : A, Py.getitem l i = Py.Ok a /\ nth_error l (Z.to_nat i) = Some a.
Proof.
  intros Hi. unfold Py.getitem.
  assert (H1 : (i <? 0)%Z = false) by (apply Z.ltb_ge; lia).
  assert (H2 : (Z.of_nat (length l) <=? i)%Z = false) by (apply Z.leb_gt; lia).
  cbv zeta. rewrite !H1, H2. simpl.
  destruct (nth_error l (Z.to_nat i)) as [a |] eqn:Hnth.
  - exists a. split; reflexivity.
  - apply nth_error_None in Hnth. lia.
Qed.

(** A cycle without activity that does not reach the timeout only
    counts. *)
Lemma quiet_cycle_waits (self : EnergyOptimizer)
    (sensors : list Sensor.IoTSensor) (readings : list SensorReading) :
  progressive_sleep self = true ->
  ~ Spec.activity (activity_threshold self) (last_sensor_values self) readings ->
  (inactivity_counter self + 1 < sleep_level_timeout self)%Z ->
  update_sleep_mode self sensors readings
  = Py.Ok (with_sleep_state self (inactivity_counter self + 1)
                            (current_sleep_level self)
                            (Spec.stored (last_sensor_values self) readings),
           sensors, 0.0).
Proof.
  intros Hsleep Hquiet Hcount. unfold update_sleep_mode. rewrite Hsleep. simpl.
  destruct (scan_readings_spec (activity_threshold self)
              (last_sensor_values self) readings) as [Hs Hb].
  destruct (scan_readings (activity_threshold self)
              (last_sensor_values self) readings) as [act last'].
  cbn [fst snd] in Hs, Hb. subst last'.
  destruct act; [exfalso; apply Hquiet, Hb; reflexivity |].
  replace (sleep_level_timeout self <=? inactivity_counter self + 1)%Z
    with false by (symmetry; apply Z.leb_gt; lia).
  reflexivity.
Qed.

(** A cycle without activity that reaches the timeout above the deepest
    level goes one level deeper. *)
Lemma quiet_cycle_deepens (self : EnergyOptimizer)
    (sensors : list Sensor.IoTSensor) (readings : list SensorReading)
    (new_duty_cycle : R) :
  progressive_sleep self = true ->
  ~ Spec.activity (activity_threshold self) (last_sensor_values self) readings ->
  (sleep_level_timeout self <= inactivity_counter self + 1)%Z ->
  (0 <= current_sleep_level self + 1)%Z ->
  nth_error (sleep_levels self) (Z.to_nat (current_sleep_level self + 1))
  = Some new_duty_cycle ->
  update_sleep_mode self sensors readings
  = Py.Ok (with_sleep_state self 0 (current_sleep_level self + 1)
                            (Spec.stored (last_sensor_values self) readings),
           map (set_duty_cycle new_duty_cycle) sensors,
           fold_left (fun saved sensor =>
                        saved + power_diff new_duty_cycle sensor)
                     sensors 0.0).
Proof.
  intros Hsleep Hquiet Hcount Hlevel Hnth.
  assert (Hlen : (current_sleep_level self + 1
                  < Z.of_nat (length (sleep_levels self)))%Z).
  { assert (H : nth_error (sleep_levels self)
                  (Z.to_nat (current_sleep_level self + 1)) <> None)
      by congruence.
    apply nth_error_Some in H. lia. }
  unfold update_sleep_mode. rewrite Hsleep. simpl.
  destruct (scan_readings_spec (activity_threshold self)
              (last_sensor_values self) readings) as [Hs Hb].
  destruct (scan_readings (activity_threshold self)
              (last_sensor_values self) readings) as [act last'].
  cbn [fst snd] in Hs, Hb. subst last'.
  destruct act; [exfalso; apply Hquiet, Hb; reflexivity |].
  replace (sleep_level_timeout self <=? inactivity_counter self + 1)%Z
    with true by (symmetry; apply Z.leb_le; lia).
  replace (current_sleep_level self
           <? Z.of_nat (length (sleep_levels self)) - 1)%Z
    with true by (symmetry; apply Z.ltb_lt; lia).
  destruct (getitem_in_range (sleep_levels self) (current_sleep_level self + 1))
    as (a & Hget & Ha); [lia |].
  assert (a = new_duty_cycle) by congruence. subst a.
  rewrite Hget. reflexivity.
Qed.

Section Arithmetic.

Variable scaled_change : R -> R -> R.




End Arithmetic.

(** In exact arithmetic the call is [update_sleep_mode]. *)
Lemma update_sleep_mode_exact (self : EnergyOptimizer)
    (sensors : list Sensor.IoTSensor) (readings : list SensorReading) :
  update_sleep_mode_with exact_change self sensors readings
  = update_sleep_mode self sensors readings.
Proof. reflexivity. Qed.


Lemma run_cycles_app (l1 l2 : list (list SensorReading))
    (self : EnergyOptimizer) (sensors : list Sensor.IoTSensor) :
  run_cycles self sensors (l1 ++ l2)
  = Py.bind (run_cycles self sensors l1)
            (fun p => run_cycles (fst p) (snd p) l2).
Proof.
  revert self sensors. induction l1 as [| c l1 IH]; intros self sensors.
  - reflexivity.
  - simpl. destruct (update_sleep_mode self sensors c) as [out | e]; simpl.
    + apply IH.
    + reflexivity.
Qed.

Lemma quiet_firstn (threshold : R) (k : nat) (cycles : list (list SensorReading))
    (last : gmap string R) :
  Spec.quiet threshold last cycles ->
  Spec.quiet threshold last (firstn k cycles).
Proof.
  revert k last. induction cycles as [| c cycles IH]; intros k last H.
  - destruct k; exact I.
  - destruct k; [exact I |]. destruct H as [H1 H2].
    split; [exact H1 | apply IH; exact H2].
Qed.

(** Cycles without activity below the timeout only count, and leave the
    level and the sensors as they are. *)
Lemma quiet_run_waits (cycles : list (list SensorReading))
    (self : EnergyOptimizer) (sensors : list Sensor.IoTSensor) :
  progressive_sleep self = true ->
  Spec.quiet (activity_threshold self) (last_sensor_values self) cycles ->
  (inactivity_counter self + Z.of_nat (length cycles)
   < sleep_level_timeout self)%Z ->
  run_cycles self sensors cycles
  = Py.Ok (with_sleep_state self
             (inactivity_counter self + Z.of_nat (length cycles))
             (current_sleep_level self)
             (Spec.stored (last_sensor_values self) (concat cycles)),
           sensors).
Proof.
  revert self. induction cycles as [| c cycles IH]; intros self Hs Hq Hc.
  - simpl. destruct self. unfold with_sleep_state. simpl.
    rewrite Z.add_0_r. reflexivity.
  - destruct Hq as [Hq1 Hq2]. cbn [run_cycles].
    rewrite (quiet_cycle_waits self sensors c Hs Hq1)
      by (cbn [length] in Hc; lia).
    cbn [Py.bind fst snd]. rewrite IH.
    + change (concat (c :: cycles)) with (c ++ concat cycles)%list.
      rewrite stored_app. unfold with_sleep_state. cbn.
      do 3 f_equal. lia.
    + exact Hs.
    + exact Hq2.
    + cbn. cbn [length] in Hc. lia.
Qed.

Lemma quiet_last (threshold : R) (cycles : list (list SensorReading))
    (c : list SensorReading) (last : gmap string R) :
  Spec.quiet threshold last (cycles ++ [c]) ->
  ~ Spec.activity threshold (Spec.stored last (concat cycles)) c.
Proof.
  revert last. induction cycles as [| c0 cycles IH]; intros last H.
  - exact (proj1 H).
  - destruct H as [_ H].
    change (concat (c0 :: cycles)) with (c0 ++ concat cycles)%list.
    rewrite stored_app. apply IH. exact H.
Qed.

(** C9: starting from sleep level index 0 and inactivity counter 0, with
    a timeout of 5 and progressive sleep enabled, five consecutive calls
    of update_sleep_mode without detected activity leave the index at 0
    after each of the first four calls and at 1 after the fifth, apply the
    level-1 duty cycle to every sensor, and leave the inactivity counter
    at 0. *)
Theorem five_quiet_cycles (self : EnergyOptimizer)
    (sensors : list Sensor.IoTSensor)
    (c1 c2 c3 c4 c5 : list SensorReading) (level1 : R) :
  progressive_sleep self = true ->
  current_sleep_level self = 0%Z ->
  inactivity_counter self = 0%Z ->
  sleep_level_timeout self = 5%Z ->
  nth_error (sleep_levels self) 1 = Some level1 ->
  Spec.quiet (activity_threshold self) (last_sensor_values self)
             [c1; c2; c3; c4; c5] ->
  (forall k : nat,
      (k < 5)%nat ->
      exists s : EnergyOptimizer,
        run_cycles self sensors (firstn k [c1; c2; c3; c4; c5])
        = Py.Ok (s, sensors) /\
        current_sleep_level s = 0%Z /\
        inactivity_counter s = Z.of_nat k) /\
  (exists (s : EnergyOptimizer) (sensors' : list Sensor.IoTSensor),
      run_cycles self sensors [c1; c2; c3; c4; c5] = Py.Ok (s, sensors') /\
      current_sleep_level s = 1%Z /\
      inactivity_counter s = 0%Z /\
      length sensors' = length sensors /\
      Forall (fun sensor => Sensor.duty_cycle sensor = level1) sensors').
Proof.
  intros Hsleep Hlevel Hcount Htimeout Hlevel1 Hquiet. split.
  - intros k Hk.
    assert (Hlen : length (firstn k [c1; c2; c3; c4; c5]) = k)
      by (rewrite length_firstn; simpl; lia).
    eexists. split.
    + apply quiet_run_waits.
      * exact Hsleep.
      * apply quiet_firstn. exact Hquiet.
      * rewrite Hlen. lia.
    + simpl. rewrite Hlen. split; lia.
  - change [c1; c2; c3; c4; c5] with ([c1; c2; c3; c4] ++ [c5])%list.
    rewrite run_cycles_app.
    rewrite quiet_run_waits.
    + cbn [Py.bind fst snd run_cycles].
      erewrite quiet_cycle_deepens with (new_duty_cycle := level1).
      * cbn [Py.bind fst snd]. eexists _, _. split; [reflexivity |].
        simpl. repeat split; try lia.
        -- apply length_map.
        -- clear. induction sensors as [| x xs IH]; simpl; constructor;
             [reflexivity | exact IH].
      * exact Hsleep.
      * apply (quiet_last _ [c1; c2; c3; c4] c5). exact Hquiet.
      * simpl. lia.
      * simpl. lia.
      * simpl. rewrite Hlevel. exact Hlevel1.
    + exact Hsleep.
    + apply (quiet_firstn _ 4 [c1; c2; c3; c4; c5]). exact Hquiet.
    + simpl. lia.
Qed.

Lemma five_quiet_cycles_witness :
  let quiet_motion := [mkReading 0 "pir_01_motion" 0 "binary" 0.08] in
  exists (s : EnergyOptimizer) (sensors' : list Sensor.IoTSensor),
    run_cycles (enable_adaptive_duty_cycling EnergyOptimizer_init true)
               [Sensor.IoTSensor_init "pir_01" "PIR" "Front Door"]
               [quiet_motion; []; quiet_motion; []; quiet_motion]
    = Py.Ok (s, sensors') /\
    current_sleep_level s = 1%Z /\
    inactivity_counter s = 0%Z.
Proof.
  intros quiet_motion.
  assert (Hno : forall last, ~ Spec.activity 5.0 last quiet_motion).
  { intros last (before & r & after & Heq & Htr).
    destruct before as [| x before].
    - inversion Heq; subst r after.
      destruct Htr as [[_ H] | [H _]]; [simpl in H; lra | discriminate H].
    - inversion Heq. destruct before; discriminate. }
  assert (Hnil : forall last, ~ Spec.activity 5.0 last []).
  { intros last (before & r & after & Heq & _).
    destruct before; discriminate Heq. }
  destruct (five_quiet_cycles
              (enable_adaptive_duty_cycling EnergyOptimizer_init true)
              [Sensor.IoTSensor_init "pir_01" "PIR" "Front Door"]
              quiet_motion [] quiet_motion [] quiet_motion 0.6)
    as [_ (s & ss & H1 & H2 & H3 & _)]; try reflexivity.
  - simpl. repeat split; (apply Hno || apply Hnil).
  - exists s, ss. repeat split; assumption.
Defined.

End SleepFacts.

(** ** Theorems: sensor types *)

Module SuffixFacts.
Import Optimizer.

Lemma split_nonempty (sep : ascii) (s : string) : Py.split sep s <> [].
Proof.
  destruct s as [| c s]; simpl; [discriminate |].
  destruct (Ascii.eqb c sep); [discriminate |].
  destruct (Py.split sep s); discriminate.
Qed.

Lemma split_cons (sep c : ascii) (s : string) :
  Py.last_piece (Py.split sep (String c s))
  = match Py.split sep s with
    | [p] => if Ascii.eqb c sep then p else String c p
    | _ => Py.last_piece (Py.split sep s)
    end.
Proof.
  unfold Py.last_piece. cbn [Py.split].
  destruct (Py.split sep s) as [| p [| q ps]] eqn:Hs.
  - exfalso. exact (split_nonempty sep s Hs).
  - destruct (Ascii.eqb c sep); reflexivity.
  - destruct (Ascii.eqb c sep); reflexivity.
Qed.

(** The last piece of a split holds no separator. *)
Lemma last_piece_no_sep (sep : ascii) (s : string) :
  Py.has_char sep (Py.last_piece (Py.split sep s)) = false.
Proof.
  induction s as [| c s IH]; [reflexivity |].
  rewrite split_cons.
  destruct (Py.split sep s) as [| p [| q ps]] eqn:Hs; try exact IH.
  unfold Py.last_piece in IH. cbn [List.last] in IH.
  destruct (Ascii.eqb c sep) eqn:Hc; [exact IH |].
  cbn [Py.has_char]. rewrite Hc, IH. reflexivity.
Qed.

(** A string without separator is its own only piece. *)
Lemma split_no_sep (sep : ascii) (s : string) :
  Py.has_char sep s = false -> Py.split sep s = [s].
Proof.
  induction s as [| c s IH]; [reflexivity |].
  cbn [Py.has_char Py.split]. intros H. apply orb_false_iff in H.
  destruct H as [Hc Hs]. rewrite Hc, (IH Hs). reflexivity.
Qed.

Lemma append_cons (c : ascii) (a b : string) :
  String c a ++ b = String c (a ++ b).
Proof. reflexivity. Qed.

Lemma append_nil (b : string) : "" ++ b = b.
Proof. reflexivity. Qed.

(** A split that gives one piece only met no separator. *)
Lemma split_single (sep : ascii) (s p : string) :
  Py.split sep s = [p] -> Py.has_char sep s = false /\ p = s.
Proof.
  revert p. induction s as [| c s IH]; intros p Hs.
  - inversion Hs. split; reflexivity.
  - cbn [Py.split] in Hs. cbn [Py.has_char].
    destruct (Ascii.eqb c sep) eqn:Hc.
    + inversion Hs as [[Hp Hnil]]. exfalso. exact (split_nonempty _ _ Hnil).
    + destruct (Py.split sep s) as [| p' [| q' ps']] eqn:Hs';
        [exfalso; exact (split_nonempty _ _ Hs') | | discriminate Hs].
      destruct (IH p' eq_refl) as [Hn ->].
      inversion Hs. rewrite Hn. split; reflexivity.
Qed.

(** What comes before a separator does not matter for the last piece. *)
Lemma last_piece_after_sep (sep : ascii) (a b : string) :
  Py.last_piece (Py.split sep (a ++ String sep b))
  = Py.last_piece (Py.split sep b).
Proof.
  induction a as [| c a IH].
  - rewrite append_nil. cbn [Py.split]. rewrite Ascii.eqb_refl.
    unfold Py.last_piece. cbn [List.last].
    destruct (Py.split sep b) eqn:Hb; [| reflexivity].
    exfalso. exact (split_nonempty sep b Hb).
  - rewrite append_cons, split_cons.
    destruct (Py.split sep (a ++ String sep b)) as [| p [| q ps]] eqn:Hs;
      try exact IH.
    exfalso. apply split_single in Hs. destruct Hs as [Hn _].
    clear -Hn. induction a as [| c' a IHa].
    + rewrite append_nil in Hn. cbn [Py.has_char] in Hn.
      rewrite Ascii.eqb_refl in Hn. discriminate Hn.
    + rewrite append_cons in Hn. cbn [Py.has_char] in Hn.
      apply orb_false_iff in Hn. apply IHa, Hn.
Qed.

(** The sensor type of a reading is the part of its sensor id after the
    last underscore: it holds no underscore, the id ends with it, what
    precedes it in the id is empty or ends with an underscore, and an id
    without underscore is its own type. *)
Theorem sensor_type_is_suffix (r : SensorReading) :
  Py.has_char "_" (sensor_type_of r) = false /\
  (exists before : string,
      sensor_id r = before ++ sensor_type_of r /\
      (before = "" \/ exists b, before = b ++ "_")) /\
  (Py.has_char "_" (sensor_id r) = false -> sensor_type_of r = sensor_id r).
Proof.
  unfold sensor_type_of.
  split; [apply last_piece_no_sep |]. split.
  - induction (sensor_id r) as [| c s IH].
    + exists "". split; [reflexivity | left; reflexivity].
    + rewrite split_cons.
      destruct IH as (before & Hs & Hb).
      destruct (Py.split "_" s) as [| p [| q ps]] eqn:Hsplit.
      * exfalso. exact (split_nonempty _ _ Hsplit).
      * apply split_single in Hsplit. destruct Hsplit as [Hn ->].
        destruct (Ascii.eqb_spec c "_"%char) as [-> | Hc].
        -- exists "_". split; [reflexivity |]. right. exists "". reflexivity.
        -- exists "". split; [reflexivity | left; reflexivity].
      * exists (String c before). split.
        -- rewrite append_cons, <- Hs. reflexivity.
        -- right. destruct Hb as [-> | (b & ->)].
           ++ exfalso. rewrite append_nil in Hs.
              assert (Hn := last_piece_no_sep "_" s).
              rewrite Hsplit in Hn. rewrite <- Hs in Hn.
              rewrite (split_no_sep _ _ Hn) in Hsplit. discriminate Hsplit.
           ++ exists (String c b). reflexivity.
  - intros H. rewrite (split_no_sep _ _ H). reflexivity.
Qed.

End SuffixFacts.

(** ** Theorems: aggregation *)

Module AggregationFacts.
Import Optimizer.

Local Open Scope R_scope.

Lemma first_occurrences_elem (l : list string) (x : string) :
  x ∈ Spec.first_occurrences l <-> x ∈ l.
Proof.
  induction l as [| k l IH]; simpl; [reflexivity |].
  rewrite !elem_of_cons, list_elem_of_filter, IH.
  destruct (decide (x = k)); tauto.
Qed.

Lemma first_occurrences_NoDup (l : list string) :
  NoDup (Spec.first_occurrences l).
Proof.
  induction l as [| k l IH]; simpl; constructor.
  - rewrite list_elem_of_filter. tauto.
  - apply NoDup_filter. exact IH.
Qed.

Lemma first_occurrences_snoc (l : list string) (x : string) :
  Spec.first_occurrences (l ++ [x])
  = if decide (x ∈ l) then Spec.first_occurrences l
    else (Spec.first_occurrences l ++ [x])%list.
Proof.
  induction l as [| k l IH]; simpl.
  - destruct (decide (x ∈ [])) as [H | _]; [| reflexivity].
    apply elem_of_nil in H. contradiction.
  - rewrite IH.
    destruct (decide (x ∈ l)) as [Hin | Hout].
    + destruct (decide (x ∈ k :: l)) as [_ | H]; [reflexivity |].
      exfalso. apply H. right. exact Hin.
    + rewrite filter_app.
      destruct (decide (x = k)) as [-> | Hne].
      * rewrite filter_cons_False by tauto. rewrite filter_nil, app_nil_r.
        destruct (decide (k ∈ k :: l)) as [_ | H]; [reflexivity |].
        exfalso. apply H. left.
      * rewrite filter_cons_True by exact Hne. rewrite filter_nil.
        destruct (decide (x ∈ k :: l)) as [H | _]; [| reflexivity].
        apply elem_of_cons in H. tauto.
Qed.

(** Appending to a dict whose keys are distinct: the group of the key
    grows, or a new group is added at the end. *)
Lemma group_append_map (G : string -> list SensorReading)
    (key : string) (r : SensorReading) (ks : list string) :
  NoDup ks ->
  group_append key r (map (fun k => (k, G k)) ks)
  = (map (fun k => (k, if decide (k = key) then (G k ++ [r])%list else G k)) ks
     ++ (if decide (key ∈ ks) then [] else [(key, [r])]))%list.
Proof.
  induction 1 as [| k ks Hk Hnd IH]; simpl.
  - destruct (decide (key ∈ [])) as [H | _]; [| reflexivity].
    apply elem_of_nil in H. contradiction.
  - destruct (String.eqb_spec k key) as [-> | Hne].
    + destruct (decide (key = key)) as [_ | H]; [| contradiction].
      destruct (decide (key ∈ key :: ks)) as [_ | H];
        [| exfalso; apply H; left].
      rewrite app_nil_r. f_equal.
      apply map_ext_in. intros k Hin.
      destruct (decide (k = key)) as [-> | _]; [| reflexivity].
      exfalso. apply Hk. apply list_elem_of_In. exact Hin.
    + destruct (decide (k = key)) as [H | _]; [contradiction |].
      rewrite IH. simpl. do 2 f_equal.
      destruct (decide (key ∈ ks)) as [Hin | Hout].
      * destruct (decide (key ∈ k :: ks)) as [_ | H]; [reflexivity |].
        exfalso. apply H. right. exact Hin.
      * destruct (decide (key ∈ k :: ks)) as [H | _]; [| reflexivity].
        apply elem_of_cons in H. destruct H as [H | H]; [| contradiction].
        symmetry in H. contradiction.
Qed.

Lemma groups_snoc (rs : list SensorReading) (r : SensorReading) :
  Spec.groups_by sensor_type_of (rs ++ [r])
  = group_append (sensor_type_of r) r (Spec.groups_by sensor_type_of rs).
Proof.
  unfold Spec.groups_by.
  rewrite group_append_map by apply first_occurrences_NoDup.
  replace (map sensor_type_of (rs ++ [r]))
    with (map sensor_type_of rs ++ [sensor_type_of r])%list
    by (rewrite map_app; reflexivity).
  rewrite first_occurrences_snoc.
  set (key := sensor_type_of r).
  set (ks := Spec.first_occurrences (map sensor_type_of rs)).
  assert (Hmap :
    map (fun k => (k, filter (fun x => sensor_type_of x = k) (rs ++ [r])%list))
        ks
    = map (fun k => (k, if decide (k = key)
                        then (filter (fun x => sensor_type_of x = k) rs ++ [r])%list
                        else filter (fun x => sensor_type_of x = k) rs)) ks).
  { apply map_ext. intros k. f_equal. rewrite filter_app.
    destruct (decide (k = key)) as [-> | Hne].
    - rewrite (filter_cons_True _ r) by reflexivity. reflexivity.
    - rewrite (filter_cons_False _ r) by (fold key; congruence).
      rewrite filter_nil. apply app_nil_r. }
  destruct (decide (key ∈ map sensor_type_of rs)) as [Hin | Hout].
  - destruct (decide (key ∈ ks)) as [_ | H].
    + rewrite app_nil_r. exact Hmap.
    + exfalso. apply H. apply first_occurrences_elem. exact Hin.
  - destruct (decide (key ∈ ks)) as [H | _].
    + exfalso. apply Hout. apply first_occurrences_elem. exact H.
    + rewrite map_app, Hmap. f_equal. simpl. do 2 f_equal.
      rewrite filter_app.
      rewrite (filter_cons_True _ r) by reflexivity. rewrite filter_nil.
      replace (filter (fun x => sensor_type_of x = key) rs) with
        (@nil SensorReading); [reflexivity |].
      symmetry. apply elem_of_nil_inv. intros x Hx.
      apply list_elem_of_filter in Hx. destruct Hx as [Hkey Hx].
      apply Hout. rewrite <- Hkey. apply list_elem_of_In, in_map.
      apply list_elem_of_In. exact Hx.
Qed.

(** The dict built by the loop holds the groups by [split('_')[-1]], in
    the order of the first occurrences of the keys. *)
Lemma group_readings_groups (readings : list SensorReading) :
  group_readings readings = Spec.groups_by sensor_type_of readings.
Proof.
  induction readings as [| r rs IH] using rev_ind; [reflexivity |].
  rewrite groups_snoc, <- IH.
  unfold group_readings. rewrite fold_left_app. reflexivity.
Qed.

(** The key of the program, [split('_')[-1]], is the trailing suffix of
    the specification. *)
Lemma holds_underscore_has_char (s : string) :
  Spec.holds_underscore s = Py.has_char "_" s.
Proof. induction s as [| c s IH]; simpl; [| rewrite IH]; reflexivity. Qed.

Lemma last_piece_trailing_suffix (s : string) :
  Py.last_piece (Py.split "_" s) = Spec.trailing_suffix s.
Proof.
  induction s as [| c s IH]; [reflexivity |].
  rewrite SuffixFacts.split_cons. cbn [Spec.trailing_suffix].
  rewrite holds_underscore_has_char.
  destruct (Py.split "_" s) as [| p [| q ps]] eqn:Hs.
  - exfalso. exact (SuffixFacts.split_nonempty _ _ Hs).
  - apply SuffixFacts.split_single in Hs. destruct Hs as [Hn ->].
    rewrite Hn. reflexivity.
  - destruct (Py.has_char "_" s) eqn:Hn; [exact IH |].
    rewrite (SuffixFacts.split_no_sep _ _ Hn) in Hs. discriminate Hs.
Qed.

Lemma sensor_type_trailing_suffix (r : SensorReading) :
  sensor_type_of r = Spec.suffix_of r.
Proof. apply last_piece_trailing_suffix. Qed.

(** So the groups of the program are the groups by trailing suffix. *)
Lemma groups_by_suffix (readings : list SensorReading) :
  Spec.groups_by sensor_type_of readings = Spec.groups readings.
Proof.
  unfold Spec.groups, Spec.groups_by.
  replace (map Spec.suffix_of readings) with (map sensor_type_of readings)
    by (apply map_ext; intros r; apply sensor_type_trailing_suffix).
  apply map_ext. intros k. f_equal. apply list_filter_iff. intros r.
  rewrite sensor_type_trailing_suffix. reflexivity.
Qed.

(** What the loop adds for one group is what the specification asks. *)
Lemma aggregate_group_spec (self : EnergyOptimizer) (stamp : R)
    (k : string) (group : list SensorReading) :
  Spec.aggregates (aggregation_factor self) k group
                  (aggregate_group self stamp k group).
Proof.
  unfold Spec.aggregates.
  destruct group as [| r1 [| r2 group]]; simpl.
  - split; [reflexivity | lia].
  - split; [reflexivity | lia].
  - split; [intros H; discriminate H | intros _].
    eexists. split; [reflexivity |]. simpl. split; [reflexivity |].
    rewrite !PyFacts.sum_total. unfold Spec.mean. simpl.
    rewrite length_map. split; reflexivity.
Qed.

Lemma Forall2_imap {A B : Type} (P : A -> B -> Prop) (l : list A) :
  forall f : nat -> A -> B,
    (forall i x, P x (f i x)) -> Forall2 P l (imap f l).
Proof.
  induction l as [| x l IH]; intros f Hf; simpl; constructor.
  - apply Hf.
  - apply IH. intros i y. apply Hf.
Qed.

(** C7: when aggregation is enabled, the output of aggregate is the
    concatenation, group by group, of what the groups of the readings by
    the trailing suffix of their sensor id (the text after its last '_')
    give: a group of one reading
    gives that reading unchanged, and a group of N > 1 readings gives
    exactly one synthetic reading whose id is 'aggregated_' + suffix, whose
    value is the mean of the group's values and whose power is the sum of
    the group's powers times the aggregation factor; in particular three
    temp readings with values 20, 22, 24 and factor 0.7 give one reading
    with value 22 and power (sum of the three powers) * 0.7. *)
Theorem aggregation_by_suffix (self : EnergyOptimizer) (stamp : nat -> R)
    (readings : list SensorReading) :
  optimization_enabled self = true ->
  (exists outs : list (list SensorReading),
      aggregate_data self stamp readings = concat outs /\
      Forall2 (fun group out =>
                 Spec.aggregates (aggregation_factor self)
                                 (fst group) (snd group) out)
              (Spec.groups readings) outs) /\
  (forall r1 r2 r3 : SensorReading,
      readings = [r1; r2; r3] ->
      Spec.suffix_of r1 = "temp" ->
      Spec.suffix_of r2 = "temp" ->
      Spec.suffix_of r3 = "temp" ->
      value r1 = 20 -> value r2 = 22 -> value r3 = 24 ->
      aggregation_factor self = 0.7 ->
      exists r : SensorReading,
        aggregate_data self stamp readings = [r] /\
        sensor_id r = "aggregated_temp" /\
        value r = 22 /\
        power_consumed r
        = (power_consumed r1 + power_consumed r2 + power_consumed r3) * 0.7).
Proof.
  intros Hon. unfold aggregate_data. rewrite Hon. simpl negb. cbv iota.
  rewrite group_readings_groups. split.
  - rewrite groups_by_suffix. eexists. split; [reflexivity |].
    apply Forall2_imap. intros i group. apply aggregate_group_spec.
  - intros r1 r2 r3 -> H1 H2 H3 V1 V2 V3 Hf.
    rewrite <- sensor_type_trailing_suffix in H1, H2, H3.
    rewrite <- group_readings_groups. unfold group_readings. simpl.
    rewrite H1, H2, H3. simpl. eexists. split; [reflexivity |]. simpl.
    split; [reflexivity |]. unfold Py.sum. simpl.
    rewrite V1, V2, V3, Hf. split; lra.
Qed.

Lemma aggregation_by_suffix_witness :
  let self := {| optimization_enabled := true; duty_cycle := 0.8;
                 aggregation_factor := 0.7; adaptive_duty_cycling := false;
                 inactivity_counter := 0; progressive_sleep := false;
                 activity_threshold := 5.0; last_sensor_values := ∅;
                 sleep_levels := [0.8; 0.6; 0.4; 0.2];
                 current_sleep_level := 0; sleep_level_timeout := 5 |} in
  let readings := [ mkReading 0 "living_room_01_temp" 20 "C" 0.15;
                    mkReading 0 "bedroom_01_temp" 22 "C" 0.15;
                    mkReading 0 "kitchen_01_temp" 24 "C" 0.15 ] in
  exists r : SensorReading,
    aggregate_data self (fun _ => 1) readings = [r] /\
    sensor_id r = "aggregated_temp" /\
    value r = 22 /\
    power_consumed r = (0.15 + 0.15 + 0.15) * 0.7.
Proof.
  intros self readings.
  exact (proj2 (aggregation_by_suffix self (fun _ => 1) readings eq_refl)
               _ _ _ eq_refl eq_refl eq_refl eq_refl
               eq_refl eq_refl eq_refl eq_refl).
Defined.

End AggregationFacts.

(** ** Theorems: transmission power and distances *)

Module TransmissionFacts.
Import Channel.

Local Open Scope R_scope.

Lemma tx_power_bounds (x : R) : 50 <= calculate_transmission_power x <= 200.
Proof.
  destruct (Rle_dec x 10) as [Hx | Hx].
  - rewrite DistanceFacts.tx_power_near by assumption. lra.
  - split.
    + left. apply DistanceFacts.tx_power_above_min. lra.
    + rewrite DistanceFacts.tx_power_far by lra. apply Rmin_r.
Qed.

(** The transmission power lies between the minimum and the cap and never
    decreases with the distance, on the whole real line. *)
Theorem tx_power_range_monotone (d d' : R) :
  d <= d' ->
  50 <= calculate_transmission_power d /\
  calculate_transmission_power d <= calculate_transmission_power d' /\
  calculate_transmission_power d' <= 200.
Proof.
  intros Hdd'.
  assert (Hlow := fun x => proj1 (tx_power_bounds x)).
  split; [apply Hlow |]. split; [| apply tx_power_bounds].
  destruct (Rle_dec d 10) as [Hd | Hd].
  - rewrite (DistanceFacts.tx_power_near d) by assumption. apply Hlow.
  - rewrite !DistanceFacts.tx_power_far by lra.
    apply Rle_min_compat_r. apply DistanceFacts.path_loss_monotone; lra.
Qed.

Lemma tx_power_range_monotone_witness :
  50 <= calculate_transmission_power 12 /\
  calculate_transmission_power 12 <= calculate_transmission_power 40 /\
  calculate_transmission_power 40 <= 200.
Proof. apply tx_power_range_monotone. lra. Defined.

(** The exponent of the path-loss law collapses to a power of the ratio. *)
Lemma path_loss_power_law (x : R) :
  0 < x -> Rpower 10 ((3 * (ln x / ln 10)) / 10) = Rpower x (3 / 10).
Proof.
  intros Hx. unfold Rpower. f_equal. field.
  apply Rgt_not_eq, PyFacts.ln_10_pos.
Qed.

Lemma Rpower_4_cap : Rpower (Rpower 4 (10 / 3)) (3 / 10) = 4.
Proof.
  rewrite Rpower_mult. replace (10 / 3 * (3 / 10)) with 1 by field.
  apply Rpower_1. lra.
Qed.

Lemma tx_power_law_far (d : R) :
  10 < d ->
  calculate_transmission_power d = Rmin (50 * Rpower (d / 10) (3 / 10)) 200.
Proof.
  intros Hd. rewrite DistanceFacts.tx_power_far by assumption.
  rewrite path_loss_power_law by lra. reflexivity.
Qed.

(** The power law reaches the factor 4 exactly from the ratio 4^(10/3). *)
Lemma power_law_cap (x : R) :
  0 < x -> (4 <= Rpower x (3 / 10) <-> Rpower 4 (10 / 3) <= x).
Proof.
  intros Hx.
  assert (Hc : 0 < Rpower 4 (10 / 3)) by (unfold Rpower; apply exp_pos).
  split; intros H.
  - destruct (Rle_dec (Rpower 4 (10 / 3)) x) as [Hle | Hgt]; [lra |].
    exfalso. apply Rnot_le_lt in Hgt.
    assert (H' := Rlt_Rpower_l x (Rpower 4 (10 / 3)) (3 / 10)).
    rewrite Rpower_4_cap in H'. lra.
  - assert (H' := Rle_Rpower_l (Rpower 4 (10 / 3)) x (3 / 10)).
    rewrite Rpower_4_cap in H'. lra.
Qed.

Lemma cap_distance_above_50 : 50 < 10 * Rpower 4 (10 / 3).
Proof.
  assert (H : Rpower 4 2 < Rpower 4 (10 / 3)) by (apply Rpower_lt; lra).
  replace 2 with (INR 2) in H at 1 by (simpl; lra).
  rewrite Rpower_pow in H by lra. lra.
Qed.

Lemma known_location (loc : string) (pos : Z * Z) :
  sensor_locations !! loc = Some pos ->
  pos ∈ [ (8, 12)%Z; (15, 20)%Z; (6, 8)%Z; (20, 18)%Z;
          (12, 6)%Z; (25, 15)%Z; (3, 5)%Z; (10, 25)%Z ].
Proof.
  intros H. apply elem_of_list_to_map_2 in H.
  repeat (apply elem_of_cons in H;
          destruct H as [H | H]; [inversion H; subst; set_solver |]).
  apply elem_of_nil in H. contradiction.
Qed.

(** Every location name, known or not, is between 5 and 50 metres from
    the gateway, so the cap of the transmission power never applies to a
    location: its transmission power is below 200 mW. *)
Theorem location_distance_range (loc : string) :
  5 < calculate_distance loc <= 50 /\
  calculate_transmission_power (calculate_distance loc) < 200.
Proof.
  assert (Hrange : 5 < calculate_distance loc <= 50).
  { unfold calculate_distance.
    destruct (sensor_locations !! loc) as [pos |] eqn:Hloc; [| lra].
    apply known_location in Hloc.
    repeat (apply elem_of_cons in Hloc; destruct Hloc as [-> | Hloc];
            [ cbn [fst snd gateway_position];
              match goal with
              | |- context [sqrt (IZR ?z)] =>
                  let v := eval vm_compute in z in change z with v
              end;
              match goal with
              | |- _ < sqrt ?x <= _ =>
                  destruct (DistanceFacts.sqrt_between x 5 50); lra
              end |]).
    apply elem_of_nil in Hloc. contradiction. }
  split; [exact Hrange |].
  destruct (Rle_dec (calculate_distance loc) 10) as [Hnear | Hfar].
  - rewrite DistanceFacts.tx_power_near by assumption. lra.
  - assert (Hd : 10 < calculate_distance loc) by lra.
    rewrite tx_power_law_far by assumption.
    eapply Rle_lt_trans; [apply Rmin_l |].
    assert (Hcap := power_law_cap (calculate_distance loc / 10)).
    assert (H := cap_distance_above_50).
    destruct (Rle_dec 4 (Rpower (calculate_distance loc / 10) (3 / 10)))
      as [H4 | H4]; [| lra].
    apply Hcap in H4; lra.
Qed.

End TransmissionFacts.

(** ** Theorems: publishing *)

Module PublishFacts.
Import Channel.

Local Open Scope R_scope.

Lemma tx_power_of_bounds (loc : option string) : 50 <= tx_power_of loc <= 200.
Proof.
  unfold tx_power_of. destruct loc as [l |]; [| lra].
  destruct (Py.truthy (Some l)); [| lra].
  apply TransmissionFacts.tx_power_bounds.
Qed.

Lemma comm_power_lower (sz : Z) (t : R) (loc : option string) :
  0 <= t -> 55 * t + 0.5 <= calculate_comm_power sz t loc.
Proof.
  intros Ht. unfold calculate_comm_power.
  destruct (tx_power_of_bounds loc) as [Hlo Hhi]. cbv zeta. nra.
Qed.

(** A publish outside batch mode. *)
Lemma publish_single (self : MQTTProtocol) (c : Call) :
  batch_mode_enabled self = false ->
  publish self c
  = _publish_single_message self (call_topic c) (call_payload c)
      (size (message_of c)) (time (message_of c)) (call_location c)
      (call_rnd c).
Proof.
  intros Hmode. unfold publish, publish_message. rewrite Hmode. reflexivity.
Qed.

Lemma single_step (self : MQTTProtocol) (c : Call) :
  batch_mode_enabled self = false ->
  message_count (fst (publish self c))
  = (message_count self + if fst (snd (publish self c)) then 1 else 0)%Z /\
  retry_count (fst (publish self c))
  = (retry_count self + if fst (snd (publish self c)) then 0 else 1)%Z /\
  total_bytes_sent (fst (publish self c))
  = (total_bytes_sent self
     + if fst (snd (publish self c)) then size (message_of c) else 0)%Z /\
  message_batch (fst (publish self c)) = message_batch self /\
  batch_mode_enabled (fst (publish self c)) = false /\
  fst (snd (publish self c)) = Py.lt (call_rnd c) 0.95 /\
  snd (snd (publish self c))
  = (if fst (snd (publish self c)) then 1 else 2)
    * calculate_comm_power (size (message_of c)) (time (message_of c))
        (call_location c).
Proof.
  intros Hmode. rewrite (publish_single self c Hmode).
  unfold _publish_single_message.
  destruct (Py.lt (call_rnd c) 0.95); cbn [fst snd message_count retry_count
    total_bytes_sent message_batch batch_mode_enabled];
    repeat split; try lia; try exact Hmode; lra.
Qed.

Lemma count_success_cons (b : bool) (o : bool * R) (rest : list (bool * R)) :
  count_success b (o :: rest)
  = ((if Bool.eqb (fst o) b then 1 else 0) + count_success b rest)%Z.
Proof.
  unfold count_success. cbn [List.filter].
  destruct (Bool.eqb (fst o) b); cbn [length]; lia.
Qed.

(** Outside batch mode every call is counted once: as a message when it
    succeeds and as a retry when it fails; a failure costs twice the
    power of a success, and the pending batch is never touched. *)
Theorem single_mode_counts (calls : list Call) (self : MQTTProtocol) :
  batch_mode_enabled self = false ->
  message_count (run self calls)
  = (message_count self + count_success true (outcomes self calls))%Z /\
  retry_count (run self calls)
  = (retry_count self + count_success false (outcomes self calls))%Z /\
  (message_count (run self calls) + retry_count (run self calls)
   = message_count self + retry_count self + Z.of_nat (length calls))%Z /\
  message_batch (run self calls) = message_batch self /\
  Forall2 (fun (c : Call) (o : bool * R) =>
             snd o = (if fst o then 1 else 2)
                     * calculate_comm_power (size (message_of c))
                         (time (message_of c)) (call_location c))
          calls (outcomes self calls).
Proof.
  revert self. induction calls as [| c calls IH]; intros self Hmode.
  - unfold count_success. simpl. repeat split; try lia. constructor.
  - unfold run. cbn [fold_left outcomes].
    fold (run (fst (publish self c)) calls).
    destruct (single_step self c Hmode)
      as (S1 & S2 & _ & S4 & S5 & _ & S7).
    destruct (IH (fst (publish self c)) S5) as (H1 & H2 & H3 & H4 & H5).
    rewrite !count_success_cons.
    assert (HF : Forall2 (fun (c : Call) (o : bool * R) =>
                            snd o = (if fst o then 1 else 2)
                                    * calculate_comm_power (size (message_of c))
                                        (time (message_of c)) (call_location c))
                         (c :: calls)
                         (snd (publish self c)
                          :: outcomes (fst (publish self c)) calls))
      by (constructor; assumption).
    split; [| split; [| split; [| split; [congruence | exact HF]]]];
      clear HF S7 H5;
      destruct (fst (snd (publish self c))); cbn [Bool.eqb length] in *; lia.
Qed.

Lemma single_mode_counts_witness :
  let self := set_batch_parameters (MQTTProtocol_init 0) false None None in
  let calls := [ mkCall "sensors/t1_temp" "{}" 1 (Some "Kitchen") 1 0.5;
                 mkCall "sensors/t1_hum" "{}" 1 (Some "Kitchen") 2 0.99 ] in
  (message_count (run self calls) + retry_count (run self calls) = 2)%Z.
Proof.
  intros self calls.
  exact (proj1 (proj2 (proj2 (single_mode_counts calls self eq_refl)))).
Defined.

(** The counters after a flush, on the draw that decides the delivery. *)
Lemma publish_flush_counters (self : MQTTProtocol) (c : Call) :
  batch_mode_enabled self = true ->
  flush_due self (pending self c) (call_now c) = true ->
  if Py.lt (call_rnd c) 0.93 then
    message_count (fst (publish self c))
    = (message_count self + Z.of_nat (length (pending self c)))%Z /\
    total_bytes_sent (fst (publish self c))
    = (total_bytes_sent self + Py.sum_int (map size (pending self c)))%Z /\
    retry_count (fst (publish self c)) = retry_count self
  else
    message_count (fst (publish self c)) = message_count self /\
    total_bytes_sent (fst (publish self c)) = total_bytes_sent self /\
    retry_count (fst (publish self c)) = (retry_count self + 1)%Z.
Proof.
  intros Hmode Hdue.
  unfold publish, publish_message, _batch_message. rewrite Hmode.
  unfold pending, message_of in Hdue. rewrite Hdue.
  unfold pending, message_of.
  destruct (Py.lt (call_rnd c) 0.93); cbn [fst]; repeat split.
Qed.

(** One publish in batch mode either keeps every message accounted for
    (queued, or delivered with its batch), or fails a flush and loses the
    batch. *)
Lemma batch_step (self : MQTTProtocol) (c : Call) :
  batch_mode_enabled self = true ->
  (retry_count (fst (publish self c)) = retry_count self /\
   (message_count (fst (publish self c))
    + Z.of_nat (length (message_batch (fst (publish self c))))
    = message_count self + Z.of_nat (length (message_batch self)) + 1)%Z) \/
  (retry_count (fst (publish self c)) = (retry_count self + 1)%Z /\
   message_count (fst (publish self c)) = message_count self /\
   message_batch (fst (publish self c)) = []).
Proof.
  intros Hmode.
  destruct (flush_due self (pending self c) (call_now c)) eqn:Hdue.
  - assert (Hc := publish_flush_counters self c Hmode Hdue).
    destruct (ChannelFacts.publish_flushes self c Hmode Hdue) as (Hnil & _).
    destruct (Py.lt (call_rnd c) 0.93).
    + left. destruct Hc as (H1 & _ & H3). split; [exact H3 |].
      rewrite H1, Hnil. unfold pending. rewrite length_app. simpl. lia.
    + right. destruct Hc as (H1 & _ & H3). auto.
  - left. rewrite (ChannelFacts.publish_queues self c Hmode Hdue).
    cbn [fst message_count retry_count message_batch].
    split; [reflexivity |]. unfold pending. rewrite length_app. simpl. lia.
Qed.

(** In batch mode no message is counted twice and none is invented: the
    messages counted as sent plus the messages pending never exceed what
    was there plus the number of calls; the two are equal when no flush
    failed, and every failed flush raises the retry count. *)
Theorem batch_mode_conservation (calls : list Call) (self : MQTTProtocol) :
  batch_mode_enabled self = true ->
  (message_count (run self calls)
   + Z.of_nat (length (message_batch (run self calls)))
   <= message_count self + Z.of_nat (length (message_batch self))
      + Z.of_nat (length calls))%Z /\
  (retry_count self <= retry_count (run self calls))%Z /\
  (retry_count (run self calls) = retry_count self ->
   (message_count (run self calls)
    + Z.of_nat (length (message_batch (run self calls)))
    = message_count self + Z.of_nat (length (message_batch self))
      + Z.of_nat (length calls))%Z).
Proof.
  revert self. induction calls as [| c calls IH]; intros self Hmode.
  - simpl. lia.
  - unfold run. cbn [fold_left]. fold (run (fst (publish self c)) calls).
    destruct (ChannelFacts.publish_keeps_parameters self c Hmode)
      as (_ & _ & Hmode').
    destruct (IH (fst (publish self c)) Hmode') as (H1 & H2 & H3).
    cbn [length].
    destruct (batch_step self c Hmode) as [[S1 S2] | (S1 & S2 & S3)].
    + split; [lia |]. split; [lia |]. intros Heq. rewrite H3; lia.
    + rewrite S3 in *. cbn [length] in *.
      split; [lia |]. split; [lia |]. intros Heq. lia.
Qed.

Lemma batch_mode_conservation_witness :
  let calls := [ mkCall "sensors/t1_temp" "{}" 1 (Some "Kitchen") 1 0.5;
                 mkCall "sensors/t1_hum" "{}" 1 (Some "Kitchen") 2 0.5 ] in
  (message_count (run (MQTTProtocol_init 0) calls)
   + Z.of_nat (length (message_batch (run (MQTTProtocol_init 0) calls)))
   <= 2)%Z.
Proof.
  intros calls.
  exact (proj1 (batch_mode_conservation calls (MQTTProtocol_init 0) eq_refl)).
Defined.

(** A flush whose delivery fails is not retried: the call reports a
    failure, the messages of the batch are counted neither as sent
    messages nor as sent bytes, the retry count goes up by one, and the
    next call starts a batch of its own message alone. *)
Theorem failed_flush_drops_batch (self : MQTTProtocol) (c next : Call) :
  batch_mode_enabled self = true ->
  flush_due self (pending self c) (call_now c) = true ->
  0.93 <= call_rnd c ->
  fst (snd (publish self c)) = false /\
  message_count (fst (publish self c)) = message_count self /\
  total_bytes_sent (fst (publish self c)) = total_bytes_sent self /\
  retry_count (fst (publish self c)) = (retry_count self + 1)%Z /\
  pending (fst (publish self c)) next = [message_of next].
Proof.
  intros Hmode Hdue Hdraw.
  apply PyFacts.lt_false in Hdraw.
  assert (Hc := publish_flush_counters self c Hmode Hdue).
  destruct (ChannelFacts.publish_flushes self c Hmode Hdue)
    as (Hnil & _ & _ & _ & _ & Hs & _).
  rewrite Hdraw in Hc, Hs. destruct Hc as (H1 & H2 & H3).
  repeat split; try assumption.
  unfold pending. rewrite Hnil. reflexivity.
Qed.

Lemma failed_flush_drops_batch_witness :
  let c := mkCall "sensors/t1_temp" "{}" 1 (Some "Kitchen") 10 0.99 in
  fst (snd (publish (MQTTProtocol_init 0) c)) = false /\
  message_count (fst (publish (MQTTProtocol_init 0) c)) = 0%Z.
Proof.
  intros c.
  refine ((fun H => conj (proj1 H) (proj1 (proj2 H)))
            (failed_flush_drops_batch (MQTTProtocol_init 0) c c _ _ _)).
  - reflexivity.
  - unfold flush_due. apply orb_true_iff. right.
    apply PyFacts.gt_true. simpl. lra.
  - simpl. lra.
Defined.

(** Calls that stay below the limit and within the timeout only queue. *)
Lemma run_queues (calls : list Call) (self : MQTTProtocol) :
  batch_mode_enabled self = true ->
  Forall (fun c => call_now c - last_batch_time self <= batch_timeout self)
         calls ->
  (Z.of_nat (length (message_batch self)) + Z.of_nat (length calls)
   < batch_size_limit self)%Z ->
  run self calls
  = {| message_count := message_count self;
       total_bytes_sent := total_bytes_sent self;
       retry_count := retry_count self;
       message_batch := (message_batch self ++ map message_of calls)%list;
       batch_size_limit := batch_size_limit self;
       batch_timeout := batch_timeout self;
       last_batch_time := last_batch_time self;
       batch_mode_enabled := batch_mode_enabled self |} /\
  outcomes self calls = map (fun c => (true, queuing_power_of c)) calls.
Proof.
  revert self. induction calls as [| c calls IH]; intros self Hmode Hnow Hlen.
  - simpl. rewrite app_nil_r. destruct self; split; reflexivity.
  - inversion Hnow as [| ? ? Hc Hrest]; subst.
    assert (Hdue : flush_due self (pending self c) (call_now c) = false).
    { apply ChannelFacts.flush_due_false. split; [| exact Hc].
      unfold pending. rewrite length_app. cbn [length] in *. lia. }
    unfold run. cbn [fold_left outcomes].
    fold (run (fst (publish self c)) calls).
    rewrite (ChannelFacts.publish_queues self c Hmode Hdue). cbn [fst snd].
    match goal with
    | |- context [run ?s calls] => destruct (IH s) as [IH1 IH2]
    end.
    + exact Hmode.
    + exact Hrest.
    + cbn [message_batch batch_size_limit]. unfold pending.
      rewrite length_app. cbn [length] in *. lia.
    + rewrite IH1, IH2.
      cbn [message_count total_bytes_sent retry_count message_batch
           batch_size_limit batch_timeout last_batch_time batch_mode_enabled].
      unfold pending. rewrite <- app_assoc. split; reflexivity.
Qed.

(** From an empty batch and within the timeout, the size trigger fires
    exactly at the limit: the calls before the limit-th one are all
    queued and reported as successes without touching the message count,
    and the limit-th call flushes a batch of exactly batchSizeLimit
    messages. *)
Theorem flush_exactly_at_limit
    (self : MQTTProtocol) (calls : list Call) (c : Call) :
  batch_mode_enabled self = true ->
  message_batch self = [] ->
  (Z.of_nat (length calls) + 1 = batch_size_limit self)%Z ->
  Forall (fun c => call_now c - last_batch_time self <= batch_timeout self)
         calls ->
  let before := run self calls in
  message_batch before = map message_of calls /\
  message_count before = message_count self /\
  Forall (fun o : bool * R => fst o = true) (outcomes self calls) /\
  flush_due before (pending before c) (call_now c) = true /\
  Z.of_nat (length (pending before c)) = batch_size_limit self /\
  message_batch (fst (publish before c)) = [].
Proof.
  intros Hmode Hempty Hlen Hnow before.
  destruct (run_queues calls self Hmode Hnow) as [Hrun Hout].
  { rewrite Hempty. cbn [length]. lia. }
  assert (Hb : message_batch before = map message_of calls).
  { unfold before. rewrite Hrun, Hempty. reflexivity. }
  assert (Hp : Z.of_nat (length (pending before c)) = batch_size_limit self).
  { unfold pending. rewrite Hb, length_app, length_map. cbn [length]. lia. }
  assert (Hdue : flush_due before (pending before c) (call_now c) = true).
  { unfold flush_due. apply orb_true_iff. left. apply Z.leb_le.
    rewrite Hp. unfold before. rewrite Hrun. cbn [batch_size_limit]. lia. }
  split; [exact Hb |]. split; [unfold before; rewrite Hrun; reflexivity |].
  split.
  { rewrite Hout. clear. induction calls; simpl; constructor; auto. }
  split; [exact Hdue |]. split; [exact Hp |].
  apply ChannelFacts.publish_flushes; [| exact Hdue].
  unfold before. rewrite Hrun. exact Hmode.
Qed.

Lemma flush_exactly_at_limit_witness :
  let c := mkCall "sensors/t1_temp" "{}" 1 (Some "Kitchen") 1 0.5 in
  let before := run (MQTTProtocol_init 0) [c; c; c; c] in
  message_batch before = map message_of [c; c; c; c] /\
  flush_due before (pending before c) (call_now c) = true.
Proof.
  intros c before.
  refine ((fun H => conj (proj1 H) (proj1 (proj2 (proj2 (proj2 H)))))
            (flush_exactly_at_limit (MQTTProtocol_init 0) [c; c; c; c] c
                                    _ _ _ _)).
  - reflexivity.
  - reflexivity.
  - reflexivity.
  - repeat constructor; simpl; lra.
Defined.

(** Whatever batch size and timeout are passed to set_batch_parameters
    (zero and negative sizes included), a channel configured with an
    empty batch never holds more than max(1, batch_size) messages at any
    call of any sequence of publishes. *)
Theorem configured_batch_bounded (self : MQTTProtocol) (batch_size : Z)
    (timeout : option R) (calls : list Call) (c : Call) :
  message_batch self = [] ->
  let configured := set_batch_parameters self true (Some batch_size) timeout in
  (1 <= batch_size_limit configured)%Z /\
  (Z.of_nat (length (pending (run configured calls) c))
   <= Z.max 1 batch_size)%Z.
Proof.
  intros Hempty configured.
  assert (Hlimit : (1 <= batch_size_limit configured)%Z) by (simpl; lia).
  split; [exact Hlimit |].
  destruct (ChannelFacts.run_below_limit calls configured Hlimit)
    as [[_ Hlen] HL].
  { split; [reflexivity |]. simpl. rewrite Hempty. simpl. lia. }
  unfold pending. rewrite length_app. cbn [length].
  rewrite HL in Hlen. simpl in Hlen. lia.
Qed.

Lemma configured_batch_bounded_witness :
  let c := mkCall "sensors/t1_temp" "{}" 1 (Some "Kitchen") 1 0.5 in
  let configured := set_batch_parameters (MQTTProtocol_init 0) true (Some 0%Z)
                                         None in
  (Z.of_nat (length (pending (run configured [c; c; c]) c)) <= 1)%Z.
Proof.
  intros c configured.
  exact (proj2 (configured_batch_bounded (MQTTProtocol_init 0) 0 None
                  [c; c; c] c eq_refl)).
Defined.

(** set_batch_parameters does not flush: when the limit is lowered to or
    below the number of pending messages, the next publish flushes a
    batch that is longer than the new limit. *)
Theorem lowered_limit_overflows (self : MQTTProtocol)
    (batch_size : Z) (timeout : option R) (c : Call) :
  (Z.max 1 batch_size <= Z.of_nat (length (message_batch self)))%Z ->
  let configured := set_batch_parameters self true (Some batch_size) timeout in
  message_batch configured = message_batch self /\
  flush_due configured (pending configured c) (call_now c) = true /\
  (batch_size_limit configured
   < Z.of_nat (length (pending configured c)))%Z.
Proof.
  intros Hlen configured.
  assert (Hp : (batch_size_limit configured
                < Z.of_nat (length (pending configured c)))%Z).
  { unfold pending. rewrite length_app. simpl. lia. }
  split; [reflexivity |]. split; [| exact Hp].
  unfold flush_due. apply orb_true_iff. left. apply Z.leb_le. lia.
Qed.

Lemma lowered_limit_overflows_witness :
  let c := mkCall "sensors/t1_temp" "{}" 1 (Some "Kitchen") 1 0.5 in
  let self := run (MQTTProtocol_init 0) [c; c; c] in
  let configured := set_batch_parameters self true (Some 2%Z) None in
  (batch_size_limit configured < Z.of_nat (length (pending configured c)))%Z.
Proof.
  intros c self configured.
  refine (proj2 (proj2 (lowered_limit_overflows self 2 None c _))).
  destruct (run_queues [c; c; c] (MQTTProtocol_init 0)) as [Hrun _].
  - reflexivity.
  - repeat constructor; simpl; lra.
  - simpl. lia.
  - unfold self. rewrite Hrun. simpl. lia.
Defined.

Lemma sum_int_nonneg (xs : list Z) :
  Forall (fun x => (0 <= x)%Z) xs -> (0 <= Py.sum_int xs)%Z.
Proof.
  intros H. rewrite PyFacts.sum_int_total.
  induction H; simpl; lia.
Qed.

Lemma batch_power_nonneg (batch : list Message) (loc : option string) :
  Forall (fun m => (0 <= size m)%Z) batch -> 0 <= batch_power_of batch loc.
Proof.
  intros H.
  assert (Ht : 0 <= IZR (Py.sum_int (map size batch)) / 1200).
  { assert (Hs : (0 <= Py.sum_int (map size batch))%Z).
    { apply sum_int_nonneg. clear -H. induction H; simpl; constructor; auto. }
    apply IZR_le in Hs. lra. }
  unfold batch_power_of. cbv zeta.
  destruct (Py.truthy loc && (0 <? length (total_locations_of batch))%nat).
  - match goal with
    | |- 0 <= calculate_transmission_power ?d * _ =>
        destruct (TransmissionFacts.tx_power_bounds d)
    end. nra.
  - match goal with
    | |- 0 <= calculate_comm_power ?sz ?t ?l =>
        assert (Hlo := comm_power_lower sz t l Ht); lra
    end.
Qed.

Lemma flush_share_nonneg (self : MQTTProtocol) (c : Call) :
  Forall (fun m => (0 <= size m)%Z) (message_batch self) ->
  0 <= flush_share self c.
Proof.
  intros H. unfold flush_share. cbv zeta.
  assert (Hp : 0 <= batch_power_of (pending self c) (call_location c)).
  { apply batch_power_nonneg. unfold pending. apply Forall_app. split; [exact H |].
    constructor; [simpl; lia | constructor]. }
  assert (He : 0.5 <= Py.max 0.5 (1.0 - INR (length (pending self c)) * 0.1)).
  { rewrite PyFacts.max_Rmax. apply Rmax_l. }
  assert (Hn : 1 <= IZR (Z.max (Z.of_nat (length (pending self c))) 1)).
  { apply IZR_le. lia. }
  assert (Hf : 1 <= (if Py.lt (call_rnd c) 0.93 then 1 else 1.5))
    by (destruct (Py.lt (call_rnd c) 0.93); lra).
  apply Rmult_le_pos; [| left; apply Rinv_0_lt_compat; lra].
  apply Rmult_le_pos; [| lra]. apply Rmult_le_pos; lra.
Qed.

Lemma queuing_power_at_least_idle (c : Call) : 0.5 <= queuing_power_of c.
Proof.
  unfold queuing_power_of.
  assert (Ht : 0 <= time (message_of c) * 0.2).
  { simpl.
    assert (Hz : (0 <= Z.of_nat (String.length (call_payload c)))%Z) by lia.
    apply IZR_le in Hz. lra. }
  match goal with
  | |- _ <= calculate_comm_power ?sz ?t ?l =>
      assert (Hlo := comm_power_lower sz t l Ht); lra
  end.
Qed.

(** Every publish, in either mode, on a channel whose pending messages
    have non-negative sizes, costs at least the idle share of 0.5 mW and
    leaves only messages of non-negative size pending. *)
Theorem publish_costs_at_least_idle (self : MQTTProtocol) (c : Call) :
  Forall (fun m => (0 <= size m)%Z) (message_batch self) ->
  0.5 <= snd (snd (publish self c)) /\
  Forall (fun m => (0 <= size m)%Z) (message_batch (fst (publish self c))).
Proof.
  intros H.
  destruct (batch_mode_enabled self) eqn:Hmode.
  - destruct (flush_due self (pending self c) (call_now c)) eqn:Hdue.
    + destruct (ChannelFacts.publish_flushes self c Hmode Hdue)
        as (Hnil & _ & _ & _ & _ & _ & Hpow).
      rewrite Hpow, Hnil. split; [| constructor].
      assert (H1 := queuing_power_at_least_idle c).
      assert (H2 := flush_share_nonneg self c H). lra.
    + rewrite (ChannelFacts.publish_queues self c Hmode Hdue).
      cbn [fst snd message_batch]. split.
      * apply queuing_power_at_least_idle.
      * unfold pending. apply Forall_app. split; [exact H |].
        constructor; [simpl; lia | constructor].
  - destruct (single_step self c Hmode) as (_ & _ & _ & Hb & _ & _ & Hpow).
    rewrite Hpow, Hb. split; [| exact H].
    assert (Ht : 0 <= time (message_of c)).
    { simpl.
      assert (Hz : (0 <= Z.of_nat (String.length (call_payload c)))%Z) by lia.
      apply IZR_le in Hz. lra. }
    assert (Hlo := comm_power_lower (size (message_of c)) (time (message_of c))
                     (call_location c) Ht).
    destruct (fst (snd (publish self c))); lra.
Qed.

Lemma publish_costs_at_least_idle_witness :
  let c := mkCall "sensors/t1_temp" "{}" 1 (Some "Kitchen") 10 0.5 in
  0.5 <= snd (snd (publish (MQTTProtocol_init 0) c)).
Proof.
  intros c.
  refine (proj1 (publish_costs_at_least_idle (MQTTProtocol_init 0) c _)).
  constructor.
Defined.

End PublishFacts.

(** ** Theorems: duty cycle and tunable parameters *)

Module ParamFacts.
Import Sensor.

Local Open Scope R_scope.

(** For a profile with non-negative coefficients and a duration t >= 0,
    raising the duty cycle within [0,1] never lowers the sensing power
    and never raises the sleep power, both stay non-negative, and the
    communication and processing powers do not depend on it. *)
Theorem duty_cycle_tradeoff (sensor : IoTSensor) (t d1 d2 : R) :
  nonneg_spec (power sensor) ->
  0 <= t -> 0 <= d1 -> d1 <= d2 -> d2 <= 1 ->
  let low := Optimizer.set_duty_cycle d1 sensor in
  let high := Optimizer.set_duty_cycle d2 sensor in
  (exists s1 s2 : R,
      calculate_power_consumption low t "sensing" = Py.Ok s1 /\
      calculate_power_consumption high t "sensing" = Py.Ok s2 /\
      0 <= s1 <= s2) /\
  (exists z1 z2 : R,
      calculate_power_consumption low t "sleep" = Py.Ok z1 /\
      calculate_power_consumption high t "sleep" = Py.Ok z2 /\
      0 <= z2 <= z1) /\
  calculate_power_consumption low t "communication"
  = calculate_power_consumption high t "communication" /\
  calculate_power_consumption low t "processing"
  = calculate_power_consumption high t "processing".
Proof.
  intros (Hs & Hc & Hp & Hz) Ht H1 H12 H2 low high.
  split; [| split; [| split; reflexivity]].
  - eexists _, _. split; [reflexivity |]. split; [reflexivity |].
    cbn [Optimizer.set_duty_cycle power duty_cycle low high].
    assert (Ha : 0 <= sensing (power sensor) * t) by nra.
    split; [apply Rmult_le_pos; lra |].
    apply Rmult_le_compat_l; lra.
  - eexists _, _. split; [reflexivity |]. split; [reflexivity |].
    cbn [Optimizer.set_duty_cycle power duty_cycle low high].
    assert (Ha : 0 <= sleep (power sensor) * t) by nra.
    split; [apply Rmult_le_pos; lra |].
    apply Rmult_le_compat_l; lra.
Qed.

Lemma duty_cycle_tradeoff_witness :
  let sensor := IoTSensor_init "s1" "DHT22" "Kitchen" in
  calculate_power_consumption (Optimizer.set_duty_cycle 0.2 sensor) 1
                              "communication"
  = calculate_power_consumption (Optimizer.set_duty_cycle 0.8 sensor) 1
                                "communication".
Proof.
  intros sensor.
  refine (proj1 (proj2 (proj2 (duty_cycle_tradeoff sensor 1 0.2 0.8
                                 _ _ _ _ _)))); try lra.
  unfold nonneg_spec. simpl. lra.
Defined.

Lemma init_profile_nonneg (id ty loc : string) :
  nonneg_spec (power (IoTSensor_init id ty loc)).
Proof.
  unfold IoTSensor_init, power_specs, nonneg_spec. cbn [power].
  repeat (match goal with
          | |- context [if ?b then _ else _] => destruct b
          end);
    cbn [sensing communication processing sleep]; lra.
Qed.

(** A sensor as its constructor leaves it, of a known type or not, has a
    non-negative power for every duration t >= 0 and every operation
    kind, and no sleep power at all; a type without an entry in the
    table gets the coefficients of the DHT22. *)
Theorem constructed_sensor_power (id ty loc : string) (t : R) (op : string) :
  0 <= t ->
  (exists v : R,
      calculate_power_consumption (IoTSensor_init id ty loc) t op = Py.Ok v /\
      0 <= v /\
      (op = "sleep" -> v = 0)) /\
  (power_specs ty = None ->
   power (IoTSensor_init id ty loc)
   = power (IoTSensor_init id "DHT22" loc)).
Proof.
  intros Ht. split.
  - destruct (init_profile_nonneg id ty loc) as (Hs & Hc & Hp & Hz).
    unfold calculate_power_consumption.
    replace (duty_cycle (IoTSensor_init id ty loc)) with 1
      by (unfold IoTSensor_init; cbn [duty_cycle]; lra).
    destruct (String.eqb_spec op "sensing") as [-> | H1].
    { eexists. split; [reflexivity |]. split; [nra | discriminate]. }
    destruct (String.eqb_spec op "communication") as [-> | H2].
    { eexists. split; [reflexivity |]. split; [nra | discriminate]. }
    destruct (String.eqb_spec op "processing") as [-> | H3].
    { eexists. split; [reflexivity |]. split; [nra | discriminate]. }
    destruct (String.eqb_spec op "sleep") as [-> | H4].
    { eexists. split; [reflexivity |]. split; [nra | intros _; lra]. }
    eexists. split; [reflexivity |]. split; [lra | contradiction].
  - intros Hnone. unfold IoTSensor_init. cbn [power]. rewrite Hnone.
    reflexivity.
Qed.

Lemma constructed_sensor_power_witness :
  exists v : R,
    calculate_power_consumption (IoTSensor_init "x1" "Thermocouple" "Attic")
                                2 "sleep" = Py.Ok v /\
    0 <= v /\ ("sleep" = "sleep" -> v = 0).
Proof.
  refine (proj1 (constructed_sensor_power "x1" "Thermocouple" "Attic" 2
                   "sleep" _)).
  lra.
Defined.

Lemma in_unit_range (x : R) :
  Py.le 0.1 x && Py.le x 1.0 = true <-> 0.1 <= x <= 1.
Proof.
  rewrite andb_true_iff, !PyFacts.le_true. split; intros [H1 H2]; split; lra.
Qed.

Lemma set_duty_cycle_all (d : R) (sensors : list IoTSensor) :
  Forall (fun sensor => duty_cycle sensor = d)
         (map (Optimizer.set_duty_cycle d) sensors).
Proof. induction sensors; simpl; constructor; auto. Qed.

(** update_optimization_params applies a value only when it lies in
    [0.1, 1.0]: tunable parameters within that range stay within it
    whatever is passed, a call that reports no update leaves the
    optimizer and the sensors as they were, and an accepted duty cycle
    reaches the optimizer and every sensor. *)
Theorem update_params_validates (self : Optimizer.EnergyOptimizer)
    (sensors : list IoTSensor) (dc af : option R) :
  let out := Optimizer.update_optimization_params self sensors dc af in
  (Optimizer.params_in_range self ->
   Optimizer.params_in_range (fst (fst out))) /\
  (snd out = false -> fst (fst out) = self /\ snd (fst out) = sensors) /\
  (snd out = true <->
   (exists d, dc = Some d /\ 0.1 <= d <= 1) \/
   (exists a, af = Some a /\ 0.1 <= a <= 1)) /\
  (forall d, dc = Some d -> 0.1 <= d <= 1 ->
             Optimizer.duty_cycle (fst (fst out)) = d /\
             Forall (fun sensor => duty_cycle sensor = d) (snd (fst out))) /\
  length (snd (fst out)) = length sensors.
Proof.
  unfold Optimizer.update_optimization_params, Optimizer.params_in_range.
  destruct dc as [d |], af as [a |]; cbv zeta;
    try (destruct (Py.le 0.1 d && Py.le d 1.0) eqn:Hd;
         [apply in_unit_range in Hd
         | assert (Hd' : ~ 0.1 <= d <= 1)
             by (intros H; apply in_unit_range in H; congruence)]);
    try (destruct (Py.le 0.1 a && Py.le a 1.0) eqn:Ha;
         [apply in_unit_range in Ha
         | assert (Ha' : ~ 0.1 <= a <= 1)
             by (intros H; apply in_unit_range in H; congruence)]);
    cbn [fst snd Optimizer.with_params Optimizer.duty_cycle
         Optimizer.aggregation_factor];
    (split; [| split; [| split; [| split]]]).
  all: try (intros [H1 H2]; split; lra).
  all: try (intros H; first [discriminate H | split; reflexivity]).
  all: try first [apply length_map | reflexivity].
  all: try (intros x Hx Hr;
            first [ discriminate Hx
                  | inversion Hx; subst;
                    first [ contradiction
                          | split; [reflexivity | apply set_duty_cycle_all] ] ]).
  all: split.
  all: try (intros H;
            first [ discriminate H
                  | solve [left; eauto]
                  | solve [right; eauto] ]).
  all: intros [(x & Hx & Hr) | (x & Hx & Hr)];
    first [ reflexivity
          | discriminate Hx
          | inversion Hx; subst; contradiction ].
Qed.

(** enable_duty_cycling does not validate: a duty cycle above 1 reaches
    the optimizer and every sensor, and the sleep power of every sensor
    with a positive sleep coefficient is then negative; the same value
    passed to update_optimization_params changes nothing. *)
Theorem enable_duty_cycling_unchecked (self : Optimizer.EnergyOptimizer)
    (sensors : list IoTSensor) (d t : R) :
  1 < d -> 0 < t ->
  let out := Optimizer.enable_duty_cycling self sensors (Some d) in
  Optimizer.duty_cycle (fst out) = d /\
  Forall2 (fun before after : IoTSensor =>
             duty_cycle after = d /\
             power after = power before /\
             (0 < sleep (power before) ->
              exists v : R,
                calculate_power_consumption after t "sleep" = Py.Ok v /\
                v < 0))
          sensors (snd out) /\
  Optimizer.update_optimization_params self sensors (Some d) None
  = (self, sensors, false).
Proof.
  intros Hd Ht out. split; [reflexivity |]. split.
  - unfold out, Optimizer.enable_duty_cycling. cbn [snd fst].
    cbn [Optimizer.with_params Optimizer.duty_cycle].
    induction sensors as [| s sensors IH]; simpl; constructor; [| exact IH].
    split; [reflexivity |]. split; [reflexivity |]. intros Hz.
    eexists. split; [reflexivity |].
    cbn [Optimizer.set_duty_cycle power duty_cycle].
    assert (Hp : 0 < sleep (power s) * t) by (apply Rmult_lt_0_compat; lra).
    nra.
  - unfold Optimizer.update_optimization_params.
    destruct (Py.le 0.1 d && Py.le d 1.0) eqn:Hr; [| reflexivity].
    apply in_unit_range in Hr. lra.
Qed.

Lemma enable_duty_cycling_unchecked_witness :
  Optimizer.update_optimization_params Optimizer.EnergyOptimizer_init
    [IoTSensor_init "s1" "DHT22" "Kitchen"] (Some 1.5) None
  = (Optimizer.EnergyOptimizer_init,
     [IoTSensor_init "s1" "DHT22" "Kitchen"], false).
Proof.
  refine (proj2 (proj2 (enable_duty_cycling_unchecked
                          Optimizer.EnergyOptimizer_init
                          [IoTSensor_init "s1" "DHT22" "Kitchen"] 1.5 1 _ _)));
    lra.
Defined.

End ParamFacts.

(** ** Theorems: more on progressive sleep *)

Module SleepCycleFacts.
Import Optimizer.

Local Open Scope R_scope.

(** [update_sleep_mode] with the loop over the readings summed up. *)
Lemma update_sleep_mode_cases (self : EnergyOptimizer)
    (sensors : list Sensor.IoTSensor) (readings : list SensorReading) :
  progressive_sleep self = true ->
  let act := fst (scan_readings (activity_threshold self)
                                (last_sensor_values self) readings) in
  let last := Spec.stored (last_sensor_values self) readings in
  update_sleep_mode self sensors readings
  = if act then
      if (0 <? current_sleep_level self)%Z then
        try! new_duty_cycle := Py.getitem (sleep_levels self) 0 in
        Py.Ok (with_sleep_state self 0 0 last,
               map (set_duty_cycle new_duty_cycle) sensors,
               fold_left (fun saved sensor =>
                            saved - power_diff new_duty_cycle sensor)
                         sensors 0.0)
      else
        Py.Ok (with_sleep_state self 0 (current_sleep_level self) last,
               sensors, 0.0)
    else
      if (sleep_level_timeout self <=? inactivity_counter self + 1)%Z then
        if (current_sleep_level self
            <? Z.of_nat (length (sleep_levels self)) - 1)%Z then
          try! new_duty_cycle :=
            Py.getitem (sleep_levels self) (current_sleep_level self + 1) in
          Py.Ok (with_sleep_state self 0 (current_sleep_level self + 1) last,
                 map (set_duty_cycle new_duty_cycle) sensors,
                 fold_left (fun saved sensor =>
                              saved + power_diff new_duty_cycle sensor)
                           sensors 0.0)
        else
          Py.Ok (with_sleep_state self 0 (current_sleep_level self) last,
                 sensors, 0.0)
      else
        Py.Ok (with_sleep_state self (inactivity_counter self + 1)
                                (current_sleep_level self) last,
               sensors, 0.0).
Proof.
  intros Hsleep act last. unfold update_sleep_mode. rewrite Hsleep.
  cbn [negb]. subst act last.
  destruct (SleepFacts.scan_readings_spec (activity_threshold self)
              (last_sensor_values self) readings) as [Hs _].
  destruct (scan_readings (activity_threshold self)
              (last_sensor_values self) readings) as [act last'].
  cbn [fst snd] in *. subst last'. reflexivity.
Qed.

Lemma set_duty_cycle_keeps (d : R) (sensors : list Sensor.IoTSensor) :
  map Sensor.dev_id (map (set_duty_cycle d) sensors) = map Sensor.dev_id sensors /\
  map Sensor.power (map (set_duty_cycle d) sensors) = map Sensor.power sensors.
Proof. rewrite !map_map. split; apply map_ext; reflexivity. Qed.

Lemma nth_error_in_range {A : Type} (l : list A) (i : Z) :
  (0 <= i <= Z.of_nat (length l) - 1)%Z ->
  exists a : A, nth_error l (Z.to_nat i) = Some a /\ Py.getitem l i = Py.Ok a.
Proof.
  intros Hi.
  destruct (SleepFacts.getitem_in_range l i) as (a & H1 & H2); [lia |].
  exists a. split; assumption.
Qed.

(** A call on a sleep level index within range returns, leaves the
    settings of the optimizer and the identity and power profile of the
    sensors alone, and writes the duty cycles exactly when the level
    changes: then every sensor gets the duty cycle of the new level, and
    otherwise the sensors are untouched and the power saved is 0. *)
Theorem sensors_follow_level (self : EnergyOptimizer)
    (sensors : list Sensor.IoTSensor) (readings : list SensorReading) :
  (0 <= current_sleep_level self
   <= Z.of_nat (length (sleep_levels self)) - 1)%Z ->
  exists (self' : EnergyOptimizer) (sensors' : list Sensor.IoTSensor)
         (saved : R),
    update_sleep_mode self sensors readings = Py.Ok (self', sensors', saved) /\
    same_settings self self' /\
    map Sensor.dev_id sensors' = map Sensor.dev_id sensors /\
    map Sensor.power sensors' = map Sensor.power sensors /\
    (current_sleep_level self' = current_sleep_level self ->
     sensors' = sensors /\ saved = 0) /\
    (current_sleep_level self' <> current_sleep_level self ->
     exists new_duty_cycle : R,
       nth_error (sleep_levels self) (Z.to_nat (current_sleep_level self'))
       = Some new_duty_cycle /\
       sensors' = map (set_duty_cycle new_duty_cycle) sensors).
Proof.
  intros Hrange.
  assert (Hsame : forall c l m, same_settings self (with_sleep_state self c l m))
    by (intros; repeat split).
  destruct (progressive_sleep self) eqn:Hsleep.
  2: { unfold update_sleep_mode. rewrite Hsleep. cbn [negb].
       exists self, sensors, 0.0. repeat split; try lra; try congruence. }
  rewrite (update_sleep_mode_cases self sensors readings Hsleep). cbv zeta.
  destruct (fst (scan_readings _ _ readings)).
  - destruct (0 <? current_sleep_level self)%Z eqn:Hpos.
    + apply Z.ltb_lt in Hpos.
      destruct (nth_error_in_range (sleep_levels self) 0) as (a & Hn & Hg);
        [lia |].
      rewrite Hg. cbn [Py.bind].
      destruct (set_duty_cycle_keeps a sensors) as [K1 K2].
      eexists _, _, _. split; [reflexivity |].
      cbn [with_sleep_state current_sleep_level].
      repeat split; try assumption; try (intros; lia).
      intros _. exists a. split; [exact Hn | reflexivity].
    + eexists _, _, _. split; [reflexivity |].
      cbn [with_sleep_state current_sleep_level].
      repeat split; try lra; try congruence.
  - destruct (sleep_level_timeout self <=? inactivity_counter self + 1)%Z.
    + destruct (current_sleep_level self
                <? Z.of_nat (length (sleep_levels self)) - 1)%Z eqn:Hdeep.
      * apply Z.ltb_lt in Hdeep.
        destruct (nth_error_in_range (sleep_levels self)
                    (current_sleep_level self + 1)) as (a & Hn & Hg); [lia |].
        rewrite Hg. cbn [Py.bind].
        destruct (set_duty_cycle_keeps a sensors) as [K1 K2].
        eexists _, _, _. split; [reflexivity |].
        cbn [with_sleep_state current_sleep_level].
        repeat split; try assumption; try (intros; lia).
        intros _. exists a. split; [exact Hn | reflexivity].
      * eexists _, _, _. split; [reflexivity |].
        cbn [with_sleep_state current_sleep_level].
        repeat split; try lra; try congruence.
    + eexists _, _, _. split; [reflexivity |].
      cbn [with_sleep_state current_sleep_level].
      repeat split; try lra; try congruence.
Qed.

Lemma sensors_follow_level_witness :
  exists (self' : EnergyOptimizer) (sensors' : list Sensor.IoTSensor)
         (saved : R),
    update_sleep_mode (enable_adaptive_duty_cycling EnergyOptimizer_init true)
                      [Sensor.IoTSensor_init "pir_01" "PIR" "Front Door"]
                      [mkReading 0 "pir_01_motion" 1 "binary" 0.08]
    = Py.Ok (self', sensors', saved) /\
    same_settings (enable_adaptive_duty_cycling EnergyOptimizer_init true) self'.
Proof.
  destruct (sensors_follow_level
              (enable_adaptive_duty_cycling EnergyOptimizer_init true)
              [Sensor.IoTSensor_init "pir_01" "PIR" "Front Door"]
              [mkReading 0 "pir_01_motion" 1 "binary" 0.08])
    as (s & ss & sv & H1 & H2 & _).
  - simpl. lia.
  - exists s, ss, sv. split; assumption.
Defined.

Lemma fold_power_diff_minus (new : R) (sensors : list Sensor.IoTSensor)
    (acc : R) :
  fold_left (fun saved sensor => saved - power_diff new sensor) sensors acc
  = acc - Spec.total (map (power_diff new) sensors).
Proof.
  revert acc. induction sensors as [| s sensors IH]; intros acc; simpl.
  - lra.
  - rewrite IH. lra.
Qed.

Lemma fold_power_diff_plus (new : R) (sensors : list Sensor.IoTSensor)
    (acc : R) :
  fold_left (fun saved sensor => saved + power_diff new sensor) sensors acc
  = acc + Spec.total (map (power_diff new) sensors).
Proof.
  revert acc. induction sensors as [| s sensors IH]; intros acc; simpl.
  - lra.
  - rewrite IH. lra.
Qed.

Lemma total_power_diff_uniform (old new : R) (sensors : list Sensor.IoTSensor) :
  Forall (fun sensor => Sensor.duty_cycle sensor = old) sensors ->
  Spec.total (map (power_diff new) sensors)
  = 5 * (old - new)
    * Spec.total (map (fun sensor => Sensor.sensing (Sensor.power sensor))
                      sensors).
Proof.
  induction 1 as [| s sensors Hs _ IH]; simpl.
  - lra.
  - rewrite IH. unfold power_diff. rewrite Hs. lra.
Qed.

Lemma saved_on_wake (old new : R) (sensors : list Sensor.IoTSensor) :
  Forall (fun sensor => Sensor.duty_cycle sensor = old) sensors ->
  fold_left (fun saved sensor => saved - power_diff new sensor) sensors 0.0
  = 5 * Spec.total (map (fun sensor => Sensor.sensing (Sensor.power sensor))
                        sensors) * (new - old).
Proof.
  intros H.
  rewrite fold_power_diff_minus, (total_power_diff_uniform old) by assumption.
  lra.
Qed.

Lemma saved_on_deepen (old new : R) (sensors : list Sensor.IoTSensor) :
  Forall (fun sensor => Sensor.duty_cycle sensor = old) sensors ->
  fold_left (fun saved sensor => saved + power_diff new sensor) sensors 0.0
  = 5 * Spec.total (map (fun sensor => Sensor.sensing (Sensor.power sensor))
                        sensors) * (old - new).
Proof.
  intros H.
  rewrite fold_power_diff_plus, (total_power_diff_uniform old) by assumption.
  lra.
Qed.

(** When the sensors run at the duty cycle of the current sleep level, a
    call keeps them at the duty cycle of the level it ends on, and the
    power it reports as saved is 5 times the summed sensing coefficients
    times the change of duty cycle, counted as old minus new when the
    sleep deepens and as new minus old when activity wakes the sensors
    up; with levels in descending order the reported value is therefore
    never negative, waking up included. *)
Theorem power_saved_formula (self : EnergyOptimizer)
    (sensors : list Sensor.IoTSensor) (readings : list SensorReading) :
  (0 <= current_sleep_level self
   <= Z.of_nat (length (sleep_levels self)) - 1)%Z ->
  at_sleep_level self sensors ->
  let total_sensing :=
    Spec.total (map (fun sensor => Sensor.sensing (Sensor.power sensor))
                    sensors) in
  exists (self' : EnergyOptimizer) (sensors' : list Sensor.IoTSensor)
         (saved old new : R),
    update_sleep_mode self sensors readings = Py.Ok (self', sensors', saved) /\
    nth_error (sleep_levels self) (Z.to_nat (current_sleep_level self))
    = Some old /\
    nth_error (sleep_levels self) (Z.to_nat (current_sleep_level self'))
    = Some new /\
    at_sleep_level self' sensors' /\
    saved = 5 * total_sensing
            * (if fst (scan_readings (activity_threshold self)
                                     (last_sensor_values self) readings)
               then new - old else old - new) /\
    (descending (sleep_levels self) -> 0 <= total_sensing -> 0 <= saved).
Proof.
  intros Hrange (old & Hold & Hall) total_sensing.
  destruct (progressive_sleep self) eqn:Hsleep.
  2: { unfold update_sleep_mode. rewrite Hsleep. cbn [negb].
       exists self, sensors, 0.0, old, old.
       split; [reflexivity |]. split; [exact Hold |]. split; [exact Hold |].
       split; [exists old; split; assumption |].
       split; [destruct (fst _); lra | intros; lra]. }
  rewrite (update_sleep_mode_cases self sensors readings Hsleep). cbv zeta.
  assert (Hstay : forall c m,
             at_sleep_level (with_sleep_state self c (current_sleep_level self) m)
                            sensors)
    by (intros; exists old; split; assumption).
  destruct (fst (scan_readings _ _ readings)).
  - destruct (0 <? current_sleep_level self)%Z eqn:Hpos.
    + apply Z.ltb_lt in Hpos.
      destruct (nth_error_in_range (sleep_levels self) 0) as (a & Hn & Hg);
        [lia |].
      rewrite Hg. cbn [Py.bind].
      eexists _, _, _, old, a. split; [reflexivity |].
      cbn [with_sleep_state current_sleep_level].
      split; [exact Hold |]. split; [exact Hn |].
      split; [exists a; split; [exact Hn | apply ParamFacts.set_duty_cycle_all] |].
      rewrite (saved_on_wake old) by assumption.
      split; [reflexivity |]. intros Hdesc Hs.
      assert (old <= a).
      { apply (Hdesc 0%nat (Z.to_nat (current_sleep_level self)));
          [lia | exact Hn | exact Hold]. }
      subst total_sensing. apply Rmult_le_pos; lra.
    + eexists _, _, _, old, old. split; [reflexivity |].
      cbn [with_sleep_state current_sleep_level].
      repeat split; try assumption; try apply Hstay; intros; lra.
  - destruct (sleep_level_timeout self <=? inactivity_counter self + 1)%Z.
    + destruct (current_sleep_level self
                <? Z.of_nat (length (sleep_levels self)) - 1)%Z eqn:Hdeep.
      * apply Z.ltb_lt in Hdeep.
        destruct (nth_error_in_range (sleep_levels self)
                    (current_sleep_level self + 1)) as (a & Hn & Hg); [lia |].
        rewrite Hg. cbn [Py.bind].
        eexists _, _, _, old, a. split; [reflexivity |].
        cbn [with_sleep_state current_sleep_level].
        split; [exact Hold |]. split; [exact Hn |].
        split; [exists a; split;
                [exact Hn | apply ParamFacts.set_duty_cycle_all] |].
        rewrite (saved_on_deepen old) by assumption.
        split; [reflexivity |]. intros Hdesc Hs.
        assert (a <= old).
        { apply (Hdesc (Z.to_nat (current_sleep_level self))
                       (Z.to_nat (current_sleep_level self + 1)));
            [lia | exact Hold | exact Hn]. }
        subst total_sensing. apply Rmult_le_pos; lra.
      * eexists _, _, _, old, old. split; [reflexivity |].
        cbn [with_sleep_state current_sleep_level].
        repeat split; try assumption; try apply Hstay; intros; lra.
    + eexists _, _, _, old, old. split; [reflexivity |].
      cbn [with_sleep_state current_sleep_level].
      repeat split; try assumption; try apply Hstay; intros; lra.
Qed.

Lemma power_saved_formula_witness :
  let self := with_sleep_state
                (enable_adaptive_duty_cycling EnergyOptimizer_init true)
                0 1 ∅ in
  let sensors := [ set_duty_cycle 0.6
                     (Sensor.IoTSensor_init "pir_01" "PIR" "Front Door") ] in
  exists (self' : EnergyOptimizer) (sensors' : list Sensor.IoTSensor)
         (saved : R),
    update_sleep_mode self sensors [mkReading 0 "pir_01_motion" 1 "binary" 0.08]
    = Py.Ok (self', sensors', saved) /\
    at_sleep_level self' sensors'.
Proof.
  intros self sensors.
  destruct (power_saved_formula self sensors
              [mkReading 0 "pir_01_motion" 1 "binary" 0.08])
    as (s & ss & sv & old & new & H1 & _ & _ & H2 & _).
  - simpl. lia.
  - exists 0.6. split; [reflexivity |]. repeat constructor.
  - exists s, ss, sv. split; assumption.
Defined.

Lemma quiet_flag (threshold : R) (last : gmap string R)
    (readings : list SensorReading) :
  ~ Spec.activity threshold last readings ->
  fst (scan_readings threshold last readings) = false.
Proof.
  intros H.
  destruct (SleepFacts.scan_readings_spec threshold last readings) as [_ Hb].
  destruct (fst (scan_readings threshold last readings)); [| reflexivity].
  exfalso. apply H, Hb. reflexivity.
Qed.

(** At the deepest level the sleep saturates: cycles without activity, as
    many as there are, leave the level and the sensors as they are. *)
Theorem deepest_level_saturates (cycles : list (list SensorReading))
    (self : EnergyOptimizer) (sensors : list Sensor.IoTSensor) :
  progressive_sleep self = true ->
  (Z.of_nat (length (sleep_levels self)) - 1 <= current_sleep_level self)%Z ->
  Spec.quiet (activity_threshold self) (last_sensor_values self) cycles ->
  exists s : EnergyOptimizer,
    run_cycles self sensors cycles = Py.Ok (s, sensors) /\
    current_sleep_level s = current_sleep_level self /\
    last_sensor_values s
    = Spec.stored (last_sensor_values self) (concat cycles).
Proof.
  revert self. induction cycles as [| c cycles IH]; intros self Hs Hdeep Hq.
  - exists self. repeat split.
  - destruct Hq as [Hq1 Hq2]. cbn [run_cycles].
    rewrite (update_sleep_mode_cases self sensors c Hs). cbv zeta.
    rewrite (quiet_flag _ _ _ Hq1).
    replace (current_sleep_level self
             <? Z.of_nat (length (sleep_levels self)) - 1)%Z with false
      by (symmetry; apply Z.ltb_ge; lia).
    assert (Hnext : forall k,
      exists s : EnergyOptimizer,
        run_cycles (with_sleep_state self k (current_sleep_level self)
                      (Spec.stored (last_sensor_values self) c))
                   sensors cycles = Py.Ok (s, sensors) /\
        current_sleep_level s = current_sleep_level self /\
        last_sensor_values s
        = Spec.stored (last_sensor_values self) (concat (c :: cycles))).
    { intros k.
      destruct (IH (with_sleep_state self k (current_sleep_level self)
                      (Spec.stored (last_sensor_values self) c)))
        as (s & H1 & H2 & H3); [exact Hs | exact Hdeep | exact Hq2 |].
      exists s. split; [exact H1 |]. split; [exact H2 |].
      rewrite H3. cbn [with_sleep_state last_sensor_values concat].
      symmetry. apply SleepFacts.stored_app. }
    destruct (sleep_level_timeout self <=? inactivity_counter self + 1)%Z;
      cbn [Py.bind fst snd]; apply Hnext.
Qed.

Lemma deepest_level_saturates_witness :
  let self := with_sleep_state
                (enable_adaptive_duty_cycling EnergyOptimizer_init true)
                0 3 ∅ in
  exists s : EnergyOptimizer,
    run_cycles self [] [[]; []; []; []; []; []] = Py.Ok (s, []) /\
    current_sleep_level s = 3%Z.
Proof.
  intros self.
  assert (Hnil : forall last, ~ Spec.activity 5.0 last []).
  { intros last (before & r & after & Heq & _).
    destruct before; discriminate Heq. }
  destruct (deepest_level_saturates [[]; []; []; []; []; []] self [])
    as (s & H1 & H2 & _).
  - reflexivity.
  - simpl. lia.
  - simpl. repeat split; apply Hnil.
  - exists s. split; assumption.
Defined.

(** One period of sleep, for any timeout and from any level that has a
    deeper one: starting with the inactivity counter at 0, as many
    consecutive cycles without activity as the timeout counts move the
    index one level deeper, once, put every sensor at the duty cycle of
    that level and leave the counter at 0. *)
Theorem quiet_period_deepens (cycles : list (list SensorReading))
    (self : EnergyOptimizer) (sensors : list Sensor.IoTSensor)
    (new_duty_cycle : R) :
  progressive_sleep self = true ->
  inactivity_counter self = 0%Z ->
  (1 <= sleep_level_timeout self)%Z ->
  Z.of_nat (length cycles) = sleep_level_timeout self ->
  (0 <= current_sleep_level self)%Z ->
  nth_error (sleep_levels self) (Z.to_nat (current_sleep_level self + 1))
  = Some new_duty_cycle ->
  Spec.quiet (activity_threshold self) (last_sensor_values self) cycles ->
  exists s : EnergyOptimizer,
    run_cycles self sensors cycles
    = Py.Ok (s, map (set_duty_cycle new_duty_cycle) sensors) /\
    current_sleep_level s = (current_sleep_level self + 1)%Z /\
    inactivity_counter s = 0%Z.
Proof.
  intros Hs Hc Ht Hlen Hlevel Hnew Hq.
  destruct (exists_last (l := cycles)) as (front & c & ->).
  { intros ->. simpl in Hlen. lia. }
  rewrite length_app in Hlen. cbn [length] in Hlen.
  assert (Hfront : Spec.quiet (activity_threshold self)
                              (last_sensor_values self) front).
  { replace front with (firstn (length front) (front ++ [c])).
    - apply SleepFacts.quiet_firstn. exact Hq.
    - rewrite firstn_app, Nat.sub_diag, firstn_all. simpl. apply app_nil_r. }
  rewrite SleepFacts.run_cycles_app.
  rewrite SleepFacts.quiet_run_waits by (try assumption; lia).
  cbn [Py.bind fst snd run_cycles].
  erewrite SleepFacts.quiet_cycle_deepens with (new_duty_cycle := new_duty_cycle).
  - cbn [Py.bind fst snd]. eexists. split; [reflexivity |].
    split; reflexivity.
  - exact Hs.
  - apply (SleepFacts.quiet_last _ front c). exact Hq.
  - cbn [with_sleep_state sleep_level_timeout inactivity_counter]. lia.
  - cbn [with_sleep_state current_sleep_level]. lia.
  - exact Hnew.
Qed.

Lemma quiet_period_deepens_witness :
  let self := with_sleep_state
                (enable_adaptive_duty_cycling EnergyOptimizer_init true)
                0 2 ∅ in
  exists s : EnergyOptimizer,
    run_cycles self [Sensor.IoTSensor_init "pir_01" "PIR" "Front Door"]
               [[]; []; []; []; []]
    = Py.Ok (s, map (set_duty_cycle 0.2)
                    [Sensor.IoTSensor_init "pir_01" "PIR" "Front Door"]) /\
    current_sleep_level s = 3%Z.
Proof.
  intros self.
  assert (Hnil : forall last, ~ Spec.activity 5.0 last []).
  { intros last (before & r & after & Heq & _).
    destruct before; discriminate Heq. }
  destruct (quiet_period_deepens [[]; []; []; []; []] self
              [Sensor.IoTSensor_init "pir_01" "PIR" "Front Door"] 0.2)
    as (s & H1 & H2 & _); try reflexivity.
  - simpl. lia.
  - simpl. lia.
  - simpl. repeat split; apply Hnil.
  - exists s. split; assumption.
Defined.

Lemma stored_cons (last : gmap string R) (r : SensorReading)
    (rs : list SensorReading) :
  Spec.stored last (r :: rs)
  = Spec.stored (if Py.contains "motion" (sensor_id r) then last
                 else <[sensor_id r := value r]> last) rs.
Proof. reflexivity. Qed.

(** Readings of other sensors and motion readings leave an entry alone. *)
Lemma stored_lookup_untouched (rs : list SensorReading)
    (last : gmap string R) (id : string) :
  (forall r, In r rs ->
             sensor_id r <> id \/ Py.contains "motion" (sensor_id r) = true) ->
  Spec.stored last rs !! id = last !! id.
Proof.
  revert last. induction rs as [| r rs IH]; intros last H; [reflexivity |].
  rewrite stored_cons, IH by (intros r' Hr'; apply H; right; exact Hr').
  destruct (H r (or_introl eq_refl)) as [Hne | Hm].
  - destruct (Py.contains "motion" (sensor_id r)); [reflexivity |].
    apply lookup_insert_ne. exact Hne.
  - rewrite Hm. reflexivity.
Qed.

Lemma stored_lookup_latest (before after : list SensorReading)
    (r : SensorReading) (last : gmap string R) :
  Py.contains "motion" (sensor_id r) = false ->
  (forall r', In r' after -> sensor_id r' <> sensor_id r) ->
  Spec.stored last (before ++ r :: after) !! sensor_id r = Some (value r).
Proof.
  intros Hm Hafter. rewrite SleepFacts.stored_app, stored_cons, Hm.
  rewrite stored_lookup_untouched
    by (intros r' Hr'; left; apply Hafter; exact Hr').
  apply lookup_insert_eq.
Qed.

Lemma update_stores (self self' : EnergyOptimizer)
    (sensors sensors' : list Sensor.IoTSensor)
    (readings : list SensorReading) (saved : R) :
  progressive_sleep self = true ->
  update_sleep_mode self sensors readings = Py.Ok (self', sensors', saved) ->
  last_sensor_values self'
  = Spec.stored (last_sensor_values self) readings.
Proof.
  intros Hs. rewrite (update_sleep_mode_cases self sensors readings Hs).
  cbv zeta. intros H.
  repeat match type of H with
         | (if ?b then _ else _) = _ => destruct b
         | Py.bind ?m _ = _ => destruct m; cbn [Py.bind] in H
         end;
    try discriminate H; inversion H; reflexivity.
Qed.

(** The dict of previous values after a call with progressive sleep on:
    a reading that is not a motion reading is found under its sensor id
    when no later reading of the cycle has that id, and an id that only
    motion readings or no reading of the cycle carry keeps the value it
    had (none, if it had none) - so motion readings are never stored. *)
Theorem last_values_after_update (self self' : EnergyOptimizer)
    (sensors sensors' : list Sensor.IoTSensor)
    (readings : list SensorReading) (saved : R) :
  progressive_sleep self = true ->
  update_sleep_mode self sensors readings = Py.Ok (self', sensors', saved) ->
  (forall (before after : list SensorReading) (r : SensorReading),
      readings = (before ++ r :: after)%list ->
      Py.contains "motion" (sensor_id r) = false ->
      (forall r', In r' after -> sensor_id r' <> sensor_id r) ->
      last_sensor_values self' !! sensor_id r = Some (value r)) /\
  (forall id : string,
      (forall r, In r readings ->
                 sensor_id r <> id \/
                 Py.contains "motion" (sensor_id r) = true) ->
      last_sensor_values self' !! id = last_sensor_values self !! id).
Proof.
  intros Hs Hup.
  rewrite (update_stores self self' sensors sensors' readings saved Hs Hup).
  split.
  - intros before after r -> Hm Hafter. apply stored_lookup_latest; assumption.
  - intros id H. apply stored_lookup_untouched. exact H.
Qed.

Lemma last_values_after_update_witness :
  let self := enable_adaptive_duty_cycling EnergyOptimizer_init true in
  let readings := [ mkReading 0 "living_room_01_temp" 21 "C" 0.15;
                    mkReading 0 "pir_01_motion" 0 "binary" 0.08 ] in
  last_sensor_values
    (with_sleep_state self 1 0 (Spec.stored ∅ readings))
  !! "living_room_01_temp" = Some 21.
Proof.
  intros self readings.
  refine (proj1 (last_values_after_update self
                   (with_sleep_state self 1 0 (Spec.stored ∅ readings))
                   [] [] readings 0.0 eq_refl _)
                [] [mkReading 0 "pir_01_motion" 0 "binary" 0.08]
                (mkReading 0 "living_room_01_temp" 21 "C" 0.15)
                eq_refl eq_refl _).
  - rewrite SleepFacts.quiet_cycle_waits.
    + reflexivity.
    + reflexivity.
    + intros (before & r & after & Heq & Htr).
      destruct before as [| x [| y before]]; inversion Heq; subst.
      * destruct Htr as [[H _] | [_ (p & Hp & _)]];
          [discriminate H | discriminate Hp].
      * destruct Htr as [[_ H] | [H _]]; [simpl in H; lra | discriminate H].
      * destruct before; discriminate.
    + simpl. lia.
  - intros r' [<- | []]. discriminate.
Defined.

Lemma percent_change_same (v : R) : percent_change v v = 0.
Proof.
  unfold percent_change, Py.ne.
  destruct (Req_dec_T v 0) as [H0 | Hne].
  - lra.
  - replace ((v - v) / v) with 0 by (field; exact Hne).
    rewrite Rabs_R0. lra.
Qed.

(** A cycle that brings nothing new is quiet: when the threshold is not
    negative, every sensor id occurs once, no motion reading has a value
    above 0, and every other reading either has no stored previous value
    or repeats it, the loop over the readings detects no activity. *)
Theorem unchanged_values_are_quiet (threshold : R) (last : gmap string R)
    (readings : list SensorReading) :
  0 <= threshold ->
  NoDup (map sensor_id readings) ->
  (forall r, In r readings ->
             if Py.contains "motion" (sensor_id r) then value r <= 0
             else last !! sensor_id r = None \/
                  last !! sensor_id r = Some (value r)) ->
  fst (scan_readings threshold last readings) = false.
Proof.
  intros Hthr Hnd Hall. apply quiet_flag.
  intros (before & r & after & -> & Htr).
  assert (Hr := Hall r ltac:(apply in_or_app; right; left; reflexivity)).
  destruct Htr as [[Hm Hv] | [Hm (prev & Hprev & Hchange)]].
  - rewrite Hm in Hr. lra.
  - rewrite Hm in Hr.
    rewrite stored_lookup_untouched in Hprev.
    + destruct Hr as [Hr | Hr]; rewrite Hr in Hprev; [discriminate Hprev |].
      inversion Hprev; subst prev.
      rewrite percent_change_same in Hchange. lra.
    + intros r' Hr'. left. intros Heq.
      rewrite map_app in Hnd. apply NoDup_app in Hnd.
      destruct Hnd as (_ & Hdisj & _).
      apply (Hdisj (sensor_id r')).
      * apply list_elem_of_In, in_map. exact Hr'.
      * rewrite Heq. simpl. left.
Qed.

Lemma unchanged_values_are_quiet_witness :
  fst (scan_readings 5.0 ∅
         [ mkReading 0 "living_room_01_temp" 21 "C" 0.15;
           mkReading 0 "pir_01_motion" 0 "binary" 0.08 ]) = false.
Proof.
  apply unchanged_values_are_quiet.
  - lra.
  - apply NoDup_cons. split; [| apply NoDup_singleton].
    intros H. apply list_elem_of_singleton in H. discriminate H.
  - intros r [<- | [<- | []]]; simpl; [left; reflexivity | lra].
Defined.

End SleepCycleFacts.

(** ** Theorems: more on aggregation *)


Module AggregationMore.
Import Optimizer.

Local Open Scope R_scope.

Lemma first_occurrences_length (l : list string) :
  (length (Spec.first_occurrences l) <= length l)%nat.
Proof.
  induction l as [| k l IH]; simpl; [lia |].
  assert (H := length_filter (fun k' => k' <> k) (Spec.first_occurrences l)).
  lia.
Qed.

Lemma first_occurrences_NoDup_id (l : list string) :
  NoDup l -> Spec.first_occurrences l = l.
Proof.
  induction 1 as [| k l Hk Hnd IH]; simpl; [reflexivity |].
  rewrite IH. f_equal.
  clear -Hk. induction l as [| x l IHl]; [reflexivity |].
  rewrite filter_cons_True.
  - f_equal. apply IHl. intros H. apply Hk. right. exact H.
  - intros ->. apply Hk. left.
Qed.

(** Every group holds at least one reading, all of the type of the group,
    and the type holds no underscore. *)
Lemma group_shape (readings : list SensorReading)
    (group : string * list SensorReading) :
  In group (Spec.groups_by sensor_type_of readings) ->
  snd group <> [] /\
  Forall (fun r => sensor_type_of r = fst group /\ In r readings)
         (snd group) /\
  Py.has_char "_" (fst group) = false.
Proof.
  unfold Spec.groups_by. intros H. apply in_map_iff in H.
  destruct H as (k & <- & Hk). cbn [fst snd].
  apply list_elem_of_In in Hk.
  apply (proj1 (AggregationFacts.first_occurrences_elem _ _)) in Hk.
  apply list_elem_of_In in Hk.
  apply in_map_iff in Hk. destruct Hk as (r & Hr & Hin).
  split; [| split].
  - intros Hnil.
    apply (filter_nil_not_elem_of _ _ r Hnil Hr), list_elem_of_In, Hin.
  - apply List.Forall_forall. intros x Hx.
    apply list_elem_of_In, list_elem_of_filter in Hx.
    destruct Hx as [H1 H2]. split; [exact H1 | apply list_elem_of_In, H2].
  - rewrite <- Hr. apply SuffixFacts.last_piece_no_sep.
Qed.

Lemma aggregated_type (k : string) :
  Py.has_char "_" k = false ->
  Py.last_piece (Py.split "_" ("aggregated_" ++ k)) = k.
Proof.
  intros Hk.
  change ("aggregated_" ++ k) with ("aggregated" ++ String "_" k).
  rewrite SuffixFacts.last_piece_after_sep, (SuffixFacts.split_no_sep _ _ Hk).
  reflexivity.
Qed.

Lemma aggregate_group_types (self : EnergyOptimizer) (stamp : R)
    (readings : list SensorReading) (group : string * list SensorReading) :
  In group (Spec.groups_by sensor_type_of readings) ->
  map sensor_type_of (aggregate_group self stamp (fst group) (snd group))
  = [fst group].
Proof.
  intros H. destruct (group_shape readings group H) as (Hne & Hall & Hk).
  destruct group as [k g]. cbn [fst snd] in *.
  destruct g as [| r1 [| r2 g]]; [contradiction | |].
  - inversion Hall as [| x l Hx Hl]; subst. destruct Hx as [H1 _].
    simpl. rewrite H1. reflexivity.
  - simpl. unfold sensor_type_of. cbn [sensor_id].
    rewrite (aggregated_type k Hk). reflexivity.
Qed.

Lemma concat_imap_types {A : Type} (gs : list (string * A)) :
  forall f : nat -> string * A -> list SensorReading,
    (forall i g, In g gs -> map sensor_type_of (f i g) = [fst g]) ->
    map sensor_type_of (concat (imap f gs)) = map fst gs.
Proof.
  induction gs as [| g gs IH]; intros f Hf; [reflexivity |].
  rewrite imap_cons. cbn [concat map]. rewrite map_app.
  rewrite (Hf 0%nat g (or_introl eq_refl)). cbn [app]. f_equal.
  apply IH. intros i g' Hg'. apply Hf. right. exact Hg'.
Qed.

(** The types of the aggregated readings are the types of the input, each
    once, in the order of their first occurrences. *)
Lemma aggregated_types (self : EnergyOptimizer) (stamp : nat -> R)
    (readings : list SensorReading) :
  optimization_enabled self = true ->
  map sensor_type_of (aggregate_data self stamp readings)
  = Spec.first_occurrences (map sensor_type_of readings).
Proof.
  intros Hon. unfold aggregate_data. rewrite Hon. cbn [negb].
  rewrite AggregationFacts.group_readings_groups.
  rewrite (concat_imap_types (Spec.groups_by sensor_type_of readings)).
  - unfold Spec.groups_by. rewrite map_map. cbn [fst]. apply map_id.
  - intros i g Hg. apply (aggregate_group_types self (stamp i) readings g Hg).
Qed.

(** With aggregation enabled the output holds exactly one reading per
    sensor type of the input, so never more readings than the input. *)
Theorem aggregated_count (self : EnergyOptimizer) (stamp : nat -> R)
    (readings : list SensorReading) :
  optimization_enabled self = true ->
  NoDup (map sensor_type_of (aggregate_data self stamp readings)) /\
  (forall k : string,
      In k (map sensor_type_of (aggregate_data self stamp readings)) <->
      In k (map sensor_type_of readings)) /\
  (length (aggregate_data self stamp readings) <= length readings)%nat.
Proof.
  intros Hon. rewrite (aggregated_types self stamp readings Hon).
  split; [apply AggregationFacts.first_occurrences_NoDup |]. split.
  - intros k. rewrite <- !list_elem_of_In.
    apply AggregationFacts.first_occurrences_elem.
  - rewrite <- (length_map sensor_type_of (aggregate_data self stamp readings)).
    rewrite (aggregated_types self stamp readings Hon).
    rewrite <- (length_map sensor_type_of readings).
    apply first_occurrences_length.
Qed.

Lemma aggregated_count_witness :
  let self := set_optimization_enabled EnergyOptimizer_init true in
  let readings := [ mkReading 0 "living_room_01_temp" 20 "C" 0.15;
                    mkReading 0 "living_room_01_hum" 55 "%" 0.15;
                    mkReading 0 "bedroom_01_temp" 22 "C" 0.15 ] in
  (length (aggregate_data self (fun _ => 1%R) readings) <= 3)%nat.
Proof.
  intros self readings.
  exact (proj2 (proj2 (aggregated_count self (fun _ => 1) readings eq_refl))).
Defined.

Lemma filter_own_type (readings : list SensorReading) (r : SensorReading) :
  NoDup (map sensor_type_of readings) ->
  In r readings ->
  filter (fun x => sensor_type_of x = sensor_type_of r) readings = [r].
Proof.
  induction readings as [| x readings IH]; intros Hnd Hin; [contradiction |].
  cbn [map] in Hnd. apply NoDup_cons in Hnd. destruct Hnd as [Hx Hnd].
  destruct Hin as [-> | Hin].
  - rewrite filter_cons_True by reflexivity. f_equal.
    apply elem_of_nil_inv. intros y Hy.
    apply list_elem_of_filter in Hy. destruct Hy as [Hty Hy].
    apply Hx. rewrite <- Hty. apply list_elem_of_In, in_map.
    apply list_elem_of_In. exact Hy.
  - rewrite filter_cons_False.
    + apply IH; assumption.
    + intros Hty. apply Hx. rewrite Hty.
      apply list_elem_of_In, in_map. exact Hin.
Qed.

Lemma concat_imap_singletons {A : Type} (l : list A) :
  forall (f : nat -> A -> list SensorReading) (h : A -> SensorReading),
    (forall i x, In x l -> f i x = [h x]) ->
    concat (imap f l) = map h l.
Proof.
  induction l as [| x l IH]; intros f h Hf; [reflexivity |].
  rewrite imap_cons. cbn [concat map].
  rewrite (Hf 0%nat x (or_introl eq_refl)). cbn [app]. f_equal.
  apply IH. intros i y Hy. apply Hf. right. exact Hy.
Qed.

(** With aggregation enabled, every group of readings of pairwise
    different sensor types is a single reading, which is kept as it is. *)
Lemma singleton_groups_kept (self : EnergyOptimizer)
    (stamp : nat -> R) (readings : list SensorReading) :
  optimization_enabled self = true ->
  NoDup (map sensor_type_of readings) ->
  aggregate_data self stamp readings = readings.
Proof.
  intros Hon Hnd. unfold aggregate_data. rewrite Hon. cbn [negb].
  rewrite AggregationFacts.group_readings_groups. unfold Spec.groups_by.
  rewrite (first_occurrences_NoDup_id _ Hnd), map_map.
  transitivity (map (fun r : SensorReading => r) readings); [| apply map_id].
  rewrite (concat_imap_singletons _ _ (fun g => match snd g with
                                                | r :: _ => r
                                                | [] => mkReading 0 "" 0 "" 0
                                                end)).
  - rewrite map_map. apply map_ext_in. intros r Hr. cbn [snd].
    rewrite (filter_own_type readings r Hnd Hr). reflexivity.
  - intros i g Hg. apply in_map_iff in Hg. destruct Hg as (r & <- & Hr).
    cbn [fst snd]. rewrite (filter_own_type readings r Hnd Hr). reflexivity.
Qed.

(** Readings of pairwise different sensor types pass through aggregation
    unchanged, in their order. *)
Theorem distinct_types_pass_through (self : EnergyOptimizer)
    (stamp : nat -> R) (readings : list SensorReading) :
  NoDup (map sensor_type_of readings) ->
  aggregate_data self stamp readings = readings.
Proof.
  intros Hnd. destruct (optimization_enabled self) eqn:Hon.
  - apply singleton_groups_kept; assumption.
  - unfold aggregate_data. rewrite Hon. reflexivity.
Qed.

Lemma distinct_types_pass_through_witness :
  let readings := [ mkReading 0 "living_room_01_temp" 20 "C" 0.15;
                    mkReading 0 "living_room_01_hum" 55 "%" 0.15 ] in
  aggregate_data (set_optimization_enabled EnergyOptimizer_init true)
                 (fun _ => 1) readings = readings.
Proof.
  intros readings. apply distinct_types_pass_through.
  apply NoDup_cons. split; [| apply NoDup_singleton].
  intros H. apply list_elem_of_singleton in H. discriminate H.
Defined.

(** Aggregating twice changes nothing more: the output of an aggregation
    passes through a second aggregation unchanged. *)
Theorem aggregate_twice (self : EnergyOptimizer) (stamp stamp' : nat -> R)
    (readings : list SensorReading) :
  optimization_enabled self = true ->
  aggregate_data self stamp' (aggregate_data self stamp readings)
  = aggregate_data self stamp readings.
Proof.
  intros Hon. apply singleton_groups_kept; [exact Hon |].
  rewrite (aggregated_types self stamp readings Hon).
  apply AggregationFacts.first_occurrences_NoDup.
Qed.

Lemma aggregate_twice_witness :
  let self := set_optimization_enabled EnergyOptimizer_init true in
  let readings := [ mkReading 0 "living_room_01_temp" 20 "C" 0.15;
                    mkReading 0 "bedroom_01_temp" 22 "C" 0.15 ] in
  aggregate_data self (fun _ => 2) (aggregate_data self (fun _ => 1) readings)
  = aggregate_data self (fun _ => 1) readings.
Proof.
  intros self readings.
  exact (aggregate_twice self (fun _ => 1) (fun _ => 2) readings eq_refl).
Defined.

End AggregationMore.

(** ** Theorems: the system *)

Module SystemFacts.
Import System.

Local Open Scope R_scope.

Lemma first_piece_no_sep (sep : ascii) (s : string) :
  match Py.split sep s with
  | first :: _ => Py.has_char sep first = false
  | [] => True
  end.
Proof.
  induction s as [| c s IH]; [reflexivity |].
  cbn [Py.split]. destruct (Ascii.eqb c sep) eqn:Hc; [reflexivity |].
  destruct (Py.split sep s) as [| p ps].
  - cbn [Py.has_char]. rewrite Hc. reflexivity.
  - cbn [Py.has_char]. rewrite Hc, IH. reflexivity.
Qed.

(** The sensor lookup of the publishing loop compares the sensor ids with
    the part of the reading's id before its first underscore, which holds
    no underscore: when every sensor id holds one, as all twelve ids of
    the system do, no reading ever finds its sensor, the location passed
    to publish_message is None, and the communication power is the one of
    the default transmission power of 100 mW, whatever the distance. *)
Theorem simulation_location_never_resolves
    (sensors : list Sensor.IoTSensor) (reading : SensorReading) :
  Forall (fun s => Py.has_char "_" (Sensor.dev_id s) = true) sensors ->
  Forall (fun s => Py.has_char "_" (Sensor.dev_id s) = true)
         _initialize_sensors /\
  matching_sensor sensors reading = None /\
  sensor_location_of sensors reading = None /\
  (forall (message_size : Z) (t : R),
      Channel.calculate_comm_power message_size t
        (sensor_location_of sensors reading)
      = 105 * t + 0.5).
Proof.
  intros Hall.
  assert (Hnone : matching_sensor sensors reading = None).
  { unfold matching_sensor.
    destruct (find _ sensors) as [s |] eqn:Hfind; [| reflexivity].
    apply find_some in Hfind. destruct Hfind as [Hin Heq].
    apply String.eqb_eq in Heq.
    rewrite List.Forall_forall in Hall. specialize (Hall s Hin).
    assert (Hfirst := first_piece_no_sep "_" (sensor_id reading)).
    unfold base_sensor_id in Heq.
    destruct (Py.split "_" (sensor_id reading)) as [| first rest].
    - rewrite Heq in Hall. discriminate Hall.
    - rewrite Heq in Hall. congruence. }
  split; [repeat constructor |].
  split; [exact Hnone |].
  assert (Hloc : sensor_location_of sensors reading = None)
    by (unfold sensor_location_of; rewrite Hnone; reflexivity).
  split; [exact Hloc |].
  intros message_size t. rewrite Hloc.
  unfold Channel.calculate_comm_power, Channel.tx_power_of. lra.
Qed.

Lemma simulation_location_never_resolves_witness :
  sensor_location_of _initialize_sensors
    (mkReading 0 "living_room_01_temp" 21 "C" 0.15) = None.
Proof.
  refine (proj1 (proj2 (proj2 (simulation_location_never_resolves
                                 _initialize_sensors
                                 (mkReading 0 "living_room_01_temp" 21 "C" 0.15)
                                 _)))).
  repeat constructor.
Defined.

Lemma sleep_sum (sensors : list Sensor.IoTSensor) :
  sum_results (map (fun s => Sensor.calculate_power_consumption s 1.0 "sleep")
                   sensors)
  = Py.Ok (Spec.total
             (map (fun s => Sensor.sleep (Sensor.power s) * 1.0
                            * (1 - Sensor.duty_cycle s))
                  sensors)).
Proof.
  unfold sum_results.
  enough (H : forall acc,
             fold_left (fun acc x => try! a := acc in try! v := x in Py.Ok (a + v))
                       (map (fun s => Sensor.calculate_power_consumption
                                        s 1.0 "sleep") sensors)
                       (Py.Ok acc)
             = Py.Ok (acc + Spec.total
                              (map (fun s => Sensor.sleep (Sensor.power s) * 1.0
                                             * (1 - Sensor.duty_cycle s))
                                   sensors))).
  { rewrite H. f_equal. lra. }
  induction sensors as [| s sensors IH]; intros acc; simpl.
  - f_equal. lra.
  - rewrite IH. f_equal. lra.
Qed.

Lemma total_nonneg (xs : list R) :
  Forall (fun x => 0 <= x) xs -> 0 <= Spec.total xs.
Proof. induction 1; simpl; [lra |]. unfold Spec.total in *. lra. Qed.

(** For sensors with non-negative coefficients and duty cycles within
    [0,1], readings of non-negative power and a non-negative
    communication power, calculate_system_power returns metrics whose
    fields are all non-negative, whose total is the sum of the four
    components and at least each of them, and whose processing power is
    0.5 mW per reading; with every sensor at a duty cycle of 1 the sleep
    power is 0. *)
Theorem system_power_metrics (sensors : list Sensor.IoTSensor)
    (readings : list SensorReading) (comm_power : R) :
  Forall (fun s => Sensor.nonneg_spec (Sensor.power s) /\
                   0 <= Sensor.duty_cycle s <= 1) sensors ->
  Forall (fun r => 0 <= power_consumed r) readings ->
  0 <= comm_power ->
  exists m : PowerMetrics,
    calculate_system_power sensors readings comm_power = Py.Ok m /\
    0 <= sensing_power m /\
    communication_power m = comm_power /\
    processing_power m = 0.5 * INR (length readings) /\
    0 <= sleep_power m /\
    total_power m = sensing_power m + communication_power m
                    + processing_power m + sleep_power m /\
    sensing_power m <= total_power m /\
    communication_power m <= total_power m /\
    processing_power m <= total_power m /\
    sleep_power m <= total_power m /\
    (Forall (fun s => Sensor.duty_cycle s = 1) sensors -> sleep_power m = 0).
Proof.
  intros Hsensors Hreadings Hcomm.
  unfold calculate_system_power. rewrite sleep_sum. cbn [Py.bind].
  eexists. split; [reflexivity |].
  cbn [sensing_power communication_power processing_power sleep_power
       total_power].
  assert (Hs : 0 <= Py.sum (map power_consumed readings)).
  { rewrite PyFacts.sum_total. apply total_nonneg.
    clear -Hreadings. induction Hreadings; simpl; constructor; auto. }
  assert (Hp : 0 <= INR (length readings) * 0.5).
  { assert (H := pos_INR (length readings)). lra. }
  assert (Hz : 0 <= Spec.total
                      (map (fun s => Sensor.sleep (Sensor.power s) * 1.0
                                     * (1 - Sensor.duty_cycle s)) sensors)).
  { apply total_nonneg. clear -Hsensors.
    induction Hsensors as [| s l [(_ & _ & _ & Hz) Hd] _ IH]; simpl;
      constructor; [| exact IH].
    apply Rmult_le_pos; [| lra]. apply Rmult_le_pos; lra. }
  repeat split; try lra.
  intros Hfull. clear -Hfull. unfold Spec.total.
  induction Hfull as [| s l Hs _ IH]; cbn [map fold_right]; [reflexivity |].
  rewrite IH, Hs. lra.
Qed.

Lemma initial_sensors_fresh :
  Forall (fun s => Sensor.nonneg_spec (Sensor.power s) /\
                   Sensor.duty_cycle s = 1)
         _initialize_sensors.
Proof.
  unfold _initialize_sensors.
  repeat (apply List.Forall_cons;
          [ split;
            [ apply ParamFacts.init_profile_nonneg
            | unfold Sensor.IoTSensor_init; cbn [Sensor.duty_cycle]; lra ] |]).
  apply List.Forall_nil.
Qed.

Lemma system_power_metrics_witness :
  exists m : PowerMetrics,
    calculate_system_power _initialize_sensors
      [mkReading 0 "living_room_01_temp" 21 "C" 0.15] 0.6 = Py.Ok m /\
    0 <= sensing_power m.
Proof.
  destruct (system_power_metrics _initialize_sensors
              [mkReading 0 "living_room_01_temp" 21 "C" 0.15] 0.6)
    as (m & H1 & H2 & _).
  - eapply Forall_impl; [exact initial_sensors_fresh |].
    intros s [Hp Hd]. split; [exact Hp | lra].
  - apply List.Forall_cons; [simpl; lra | apply List.Forall_nil].
  - lra.
  - exists m. split; assumption.
Defined.

End SystemFacts.

(** ** Theorems: alerts *)

Module AlertFacts.
Import Alerts.

Local Open Scope R_scope.

(** [rsplit] and [split] agree on what precedes the last separator. *)
Lemma before_last_spec (sep : ascii) (s : string) :
  match PyStr.before_last sep s with
  | Some p =>
      (2 <= length (Py.split sep s))%nat /\
      p = PyStr.join sep (removelast (Py.split sep s))
  | None => Py.split sep s = [s]
  end.
Proof.
  induction s as [| c s IH]; [reflexivity |].
  cbn [PyStr.before_last Py.split].
  destruct (PyStr.before_last sep s) as [p |].
  - destruct IH as [Hlen ->].
    destruct (Py.split sep s) as [| p0 [| p1 ps]] eqn:Hs;
      cbn [length] in Hlen; try lia.
    destruct (Ascii.eqb c sep) eqn:Hc.
    + apply Ascii.eqb_eq in Hc. subst c. split; [cbn [length]; lia |].
      reflexivity.
    + split; [cbn [length]; lia |].
      change (removelast (String c p0 :: p1 :: ps))
        with (String c p0 :: removelast (p1 :: ps)).
      change (removelast (p0 :: p1 :: ps)) with (p0 :: removelast (p1 :: ps)).
      cbn [PyStr.join]. destruct (removelast (p1 :: ps)); reflexivity.
  - rewrite IH. destruct (Ascii.eqb c sep) eqn:Hc.
    + apply Ascii.eqb_eq in Hc. subst c. split; [cbn [length]; lia |].
      reflexivity.
    + reflexivity.
Qed.

Lemma rsplit_join (sep : ascii) (s : string) :
  (2 <= length (Py.split sep s))%nat ->
  PyStr.rsplit1_head sep s = PyStr.join sep (removelast (Py.split sep s)).
Proof.
  intros Hlen. unfold PyStr.rsplit1_head.
  assert (H := before_last_spec sep s).
  destruct (PyStr.before_last sep s) as [p |].
  - apply H.
  - rewrite H in Hlen. cbn [length] in Hlen. lia.
Qed.

Section Checks.

Variable format_1f : R -> string.

(** What a call that returns an alert went through. *)
Lemma check_alert_inv (self self' : EmailAlertSystem) (reading : SensorReading)
    (now : R) (a : AlertData) (rest : list AlertData) :
  check_sensor_reading format_1f self reading now = (self', a :: rest) ->
  rest = [] /\
  exists (key : string) (limits : Thresholds) (ty sev : string) (thr : R),
    (2 <= length (Py.split "_" (reading_sensor_id reading)))%nat /\
    type_mapping (Optimizer.sensor_type_of reading) = Some key /\
    Py.truthy (Some key) = true /\
    thresholds self !! key = Some limits /\
    classify key limits (reading_value reading) = Some (ty, sev, thr) /\
    (alert_key_of reading ty ∉ pending_alerts self) /\
    alert_cooldown self
    <= now - (default datetime_min
                      (last_alert_time self !! alert_key_of reading ty)) /\
    a = mkAlert now ty sev (reading_sensor_id reading) "Unknown Location"
                (reading_value reading) thr (reading_unit reading)
                (_generate_alert_message format_1f ty (reading_value reading)
                   thr (reading_unit reading) "Unknown Location") /\
    self' = {| thresholds := thresholds self;
               alert_history := alert_history self;
               last_alert_time :=
                 <[alert_key_of reading ty := now]> (last_alert_time self);
               alert_cooldown := alert_cooldown self;
               pending_alerts :=
                 {[alert_key_of reading ty]} ∪ pending_alerts self;
               email_enabled := email_enabled self |}.
Proof.
  unfold check_sensor_reading, alert_key_of, Optimizer.sensor_type_of.
  fold (reading_sensor_id reading).
  destruct (length (Py.split "_" (reading_sensor_id reading)) <? 2)%nat eqn:Hlen;
    [discriminate |].
  apply Nat.ltb_ge in Hlen.
  destruct (type_mapping _) as [key |] eqn:Hkey; [| discriminate].
  destruct (Py.truthy (Some key)) eqn:Htruthy; cbn [negb]; [| discriminate].
  destruct (thresholds self !! key) as [limits |] eqn:Hlimits; [| discriminate].
  destruct (classify key limits (reading_value reading))
    as [[[ty sev] thr] |] eqn:Hclass; [| discriminate].
  cbv zeta.
  destruct (bool_decide _) eqn:Hpending; [discriminate |].
  apply bool_decide_eq_false in Hpending.
  destruct (Py.le _ _) eqn:Hcool; [| discriminate].
  apply PyFacts.le_true in Hcool.
  intros H. inversion H; subst. split; [reflexivity |].
  exists key, limits, ty, sev, thr. repeat split; assumption.
Qed.

(** A call that returns no alert leaves the alert system as it was. *)
Lemma check_quiet (self : EmailAlertSystem) (reading : SensorReading)
    (now : R) :
  snd (check_sensor_reading format_1f self reading now) = [] ->
  check_sensor_reading format_1f self reading now = (self, []).
Proof.
  unfold check_sensor_reading.
  repeat match goal with
         | |- context [if ?b then _ else _] => destruct b
         | |- context [match ?x with Some _ => _ | None => _ end] =>
             destruct x as [? |]
         | |- context [let '(_, _) := ?x in _] => destruct x
         | p : (_ * _)%type |- _ => destruct p
         end;
    cbn [snd]; intros H; try reflexivity; discriminate H.
Qed.

Lemma classify_inv (key : string) (limits : Thresholds) (v : R)
    (ty sev : string) (thr : R) :
  classify key limits v = Some (ty, sev, thr) ->
  (sev = "critical" /\
   ((v < critical_min limits /\ thr = critical_min limits) \/
    (critical_min limits <= v /\ critical_max limits < v /\
     thr = critical_max limits))) \/
  (sev = "high" /\
   critical_min limits <= v <= critical_max limits /\
   ((v < min limits /\ thr = min limits) \/
    (min limits <= v /\ max limits < v /\ thr = max limits))).
Proof.
  unfold classify. cbv zeta.
  destruct (Py.lt v (critical_min limits)) eqn:H1.
  { apply PyFacts.lt_true in H1. intros H; inversion H; subst. auto. }
  apply PyFacts.lt_false in H1.
  destruct (Py.gt v (critical_max limits)) eqn:H2.
  { apply PyFacts.gt_true in H2. intros H; inversion H; subst.
    left. split; [reflexivity |]. right. auto. }
  apply PyFacts.gt_false in H2.
  destruct (Py.lt v (min limits)) eqn:H3.
  { apply PyFacts.lt_true in H3. intros H; inversion H; subst.
    right. split; [reflexivity |]. split; [lra |]. left. auto. }
  apply PyFacts.lt_false in H3.
  destruct (Py.gt v (max limits)) eqn:H4; [| discriminate].
  apply PyFacts.gt_true in H4. intros H; inversion H; subst.
  right. split; [reflexivity |]. split; [lra |]. right. auto.
Qed.

(** A check returns at most one alert, and none, leaving the alert system
    untouched, for a sensor id without underscore, for a sensor type
    without thresholds (motion and unknown types) and for a value within
    both the critical and the normal bounds of its type; an alert it
    returns carries the reading's id and value, the placeholder location,
    and the severity and threshold of the first bound crossed in the
    order critical low, critical high, low, high. *)
Theorem alert_classification (self : EmailAlertSystem)
    (reading : SensorReading) (now : R) :
  let out := check_sensor_reading format_1f self reading now in
  (length (snd out) <= 1)%nat /\
  (snd out = [] -> fst out = self) /\
  (Py.has_char "_" (reading_sensor_id reading) = false -> out = (self, [])) /\
  (type_mapping (Optimizer.sensor_type_of reading) = None ->
   out = (self, [])) /\
  (forall (key : string) (limits : Thresholds),
      type_mapping (Optimizer.sensor_type_of reading) = Some key ->
      thresholds self !! key = Some limits ->
      critical_min limits <= reading_value reading <= critical_max limits ->
      min limits <= reading_value reading <= max limits ->
      out = (self, [])) /\
  (forall a : AlertData,
      In a (snd out) ->
      exists (key : string) (limits : Thresholds),
        type_mapping (Optimizer.sensor_type_of reading) = Some key /\
        thresholds self !! key = Some limits /\
        sensor_id a = reading_sensor_id reading /\
        current_value a = reading_value reading /\
        timestamp a = now /\
        sensor_location a = "Unknown Location" /\
        let v := reading_value reading in
        ((severity a = "critical" /\
          ((v < critical_min limits /\
            threshold_value a = critical_min limits) \/
           (critical_min limits <= v /\ critical_max limits < v /\
            threshold_value a = critical_max limits))) \/
         (severity a = "high" /\
          critical_min limits <= v <= critical_max limits /\
          ((v < min limits /\ threshold_value a = min limits) \/
           (min limits <= v /\ max limits < v /\
            threshold_value a = max limits))))).
Proof.
  intros out.
  assert (Hcases : out = (self, []) \/
                   exists self' a, out = (self', [a])).
  { destruct out as [self' alerts] eqn:Hout. destruct alerts as [| a rest].
    - left. rewrite <- Hout. apply check_quiet. unfold out in Hout.
      rewrite Hout. reflexivity.
    - right. destruct (check_alert_inv _ _ _ _ _ _ Hout) as [-> _]. eauto. }
  assert (Hno : forall self' a,
             out = (self', [a]) ->
             exists key limits ty sev thr,
               (2 <= length (Py.split "_" (reading_sensor_id reading)))%nat /\
               type_mapping (Optimizer.sensor_type_of reading) = Some key /\
               thresholds self !! key = Some limits /\
               classify key limits (reading_value reading)
               = Some (ty, sev, thr) /\
               a = mkAlert now ty sev (reading_sensor_id reading)
                     "Unknown Location" (reading_value reading) thr
                     (reading_unit reading)
                     (_generate_alert_message format_1f ty
                        (reading_value reading) thr (reading_unit reading)
                        "Unknown Location")).
  { intros self' a Hout.
    destruct (check_alert_inv _ _ _ _ _ _ Hout)
      as (_ & key & limits & ty & sev & thr & H1 & H2 & _ & H4 & H5 & _ & _
          & H8 & _).
    exists key, limits, ty, sev, thr. auto. }
  split; [| split; [| split; [| split; [| split]]]].
  - destruct Hcases as [-> | (s & a & ->)]; simpl; lia.
  - destruct Hcases as [-> | (s & a & ->)]; [reflexivity | discriminate].
  - intros Hchar. destruct Hcases as [H | (s & a & H)]; [exact H |].
    destruct (Hno s a H) as (? & ? & ? & ? & ? & Hlen & _).
    rewrite (SuffixFacts.split_no_sep _ _ Hchar) in Hlen. simpl in Hlen. lia.
  - intros Hnone. destruct Hcases as [H | (s & a & H)]; [exact H |].
    destruct (Hno s a H) as (? & ? & ? & ? & ? & _ & Hkey & _). congruence.
  - intros key limits Hkey Hlim Hc Hn.
    destruct Hcases as [H | (s & a & H)]; [exact H |].
    destruct (Hno s a H)
      as (key' & limits' & ty & sev & thr & _ & Hkey' & Hlim' & Hcl & _).
    assert (key' = key) by congruence. subst key'.
    assert (limits' = limits) by congruence. subst limits'.
    apply classify_inv in Hcl. lra.
  - intros a Ha. destruct Hcases as [H | (s & a' & H)].
    + rewrite H in Ha. contradiction.
    + rewrite H in Ha. destruct Ha as [<- | []].
      destruct (Hno s a' H)
        as (key & limits & ty & sev & thr & _ & Hkey & Hlim & Hcl & ->).
      exists key, limits. cbn [sensor_id current_value timestamp
        sensor_location severity threshold_value].
      repeat (split; [first [assumption | reflexivity] |]).
      apply classify_inv in Hcl. exact Hcl.
Qed.

(** The outcome of a check whose reading crosses a bound. *)
Lemma check_crossing (self : EmailAlertSystem) (reading : SensorReading)
    (now : R) (key : string) (limits : Thresholds) (ty sev : string)
    (thr : R) :
  (2 <= length (Py.split "_" (reading_sensor_id reading)))%nat ->
  type_mapping (Optimizer.sensor_type_of reading) = Some key ->
  Py.truthy (Some key) = true ->
  thresholds self !! key = Some limits ->
  classify key limits (reading_value reading) = Some (ty, sev, thr) ->
  check_sensor_reading format_1f self reading now
  = if bool_decide (alert_key_of reading ty ∈ pending_alerts self)
    then (self, [])
    else if Py.le (alert_cooldown self)
              (now - default datetime_min
                       (last_alert_time self !! alert_key_of reading ty))
    then ({| thresholds := thresholds self;
             alert_history := alert_history self;
             last_alert_time :=
               <[alert_key_of reading ty := now]> (last_alert_time self);
             alert_cooldown := alert_cooldown self;
             pending_alerts :=
               {[alert_key_of reading ty]} ∪ pending_alerts self;
             email_enabled := email_enabled self |},
          [mkAlert now ty sev (reading_sensor_id reading) "Unknown Location"
             (reading_value reading) thr (reading_unit reading)
             (_generate_alert_message format_1f ty (reading_value reading)
                thr (reading_unit reading) "Unknown Location")])
    else (self, []).
Proof.
  unfold check_sensor_reading, alert_key_of, Optimizer.sensor_type_of.
  fold (reading_sensor_id reading).
  intros Hlen Hkey Htruthy Hlimits Hclass.
  apply Nat.ltb_ge in Hlen. rewrite Hlen, Hkey, Htruthy. cbn [negb].
  rewrite Hlimits, Hclass. cbv zeta.
  destruct (bool_decide _); [reflexivity |].
  destruct (last_alert_time self !! _); reflexivity.
Qed.

(** An alert is raised once per crossing and cooldown.  After a check has
    returned an alert, the same reading checked again before the alert is
    processed returns nothing, at whatever time.  Processing the alert,
    with the location the caller fills in, removes its pending mark (the
    key built with [rsplit] is the one built with [split] and [join]),
    appends it to the history and counts one mail exactly when mails are
    enabled and the server accepts it.  From then on the same reading
    returns nothing until the cooldown has elapsed since the alert, and a
    new alert of the same type from then on. *)
Theorem alert_round_trip (delivered : AlertData -> bool)
    (self self1 : EmailAlertSystem) (reading : SensorReading) (now : R)
    (a : AlertData) (location : string) :
  check_sensor_reading format_1f self reading now = (self1, [a]) ->
  let done := process_alerts delivered self1 [with_location a location] in
  (forall later : R,
      check_sensor_reading format_1f self1 reading later = (self1, [])) /\
  pending_alerts (fst done) = pending_alerts self /\
  alert_history (fst done)
  = (alert_history self ++ [with_location a location])%list /\
  last_alert_time (fst done) !! alert_key_of reading (alert_type a)
  = Some now /\
  snd done
  = (if email_enabled self && delivered (with_location a location)
     then 1 else 0)%Z /\
  (forall later : R,
      later - now < alert_cooldown self ->
      check_sensor_reading format_1f (fst done) reading later
      = (fst done, [])) /\
  (forall later : R,
      alert_cooldown self <= later - now ->
      exists (self3 : EmailAlertSystem) (a' : AlertData),
        check_sensor_reading format_1f (fst done) reading later
        = (self3, [a']) /\
        timestamp a' = later /\ alert_type a' = alert_type a /\
        severity a' = severity a /\
        threshold_value a' = threshold_value a).
Proof.
  intros Hcheck done.
  destruct (check_alert_inv _ _ _ _ _ _ Hcheck)
    as (_ & key & limits & ty & sev & thr & Hlen & Hkey & Htruthy & Hlimits
        & Hclass & Hpending & Hcool & Ha & Hself1).
  assert (Hdone : done
    = ({| thresholds := thresholds self;
          alert_history := (alert_history self ++ [with_location a location])%list;
          last_alert_time :=
            <[alert_key_of reading ty := now]> (last_alert_time self);
          alert_cooldown := alert_cooldown self;
          pending_alerts :=
            ({[alert_key_of reading ty]} ∪ pending_alerts self)
              ∖ {[alert_key_of reading ty]};
          email_enabled := email_enabled self |},
       ((if (if email_enabled self then delivered (with_location a location)
             else false) then 1 else 0) + 0)%Z)).
  { unfold done. cbn [process_alerts]. rewrite Hself1, Ha.
    cbn [with_location Alerts.sensor_id Alerts.alert_type thresholds
         alert_history last_alert_time alert_cooldown pending_alerts
         email_enabled timestamp severity sensor_location current_value
         threshold_value unit message].
    rewrite (rsplit_join _ _ Hlen). reflexivity. }
  assert (Hty : alert_type a = ty) by (rewrite Ha; reflexivity).
  assert (Hset : ({[alert_key_of reading ty]} ∪ pending_alerts self)
                   ∖ {[alert_key_of reading ty]} = pending_alerts self).
  { apply set_eq. intros k. rewrite elem_of_difference, elem_of_union,
      !elem_of_singleton. split.
    - intros [[-> | H] Hne]; [contradiction | exact H].
    - intros H. split; [right; exact H |]. intros ->. contradiction. }
  split; [| split; [| split; [| split; [| split; [| split]]]]].
  - intros later.
    rewrite (check_crossing self1 reading later key limits ty sev thr);
      try assumption.
    + rewrite bool_decide_eq_true_2; [reflexivity |].
      rewrite Hself1. cbn [pending_alerts]. apply elem_of_union_l.
      apply elem_of_singleton. reflexivity.
    + rewrite Hself1. exact Hlimits.
  - rewrite Hdone. cbn [fst pending_alerts]. exact Hset.
  - rewrite Hdone. reflexivity.
  - rewrite Hdone, Hty. cbn [fst last_alert_time]. apply lookup_insert_eq.
  - rewrite Hdone. cbn [snd]. rewrite Z.add_0_r.
    destruct (email_enabled self); reflexivity.
  - intros later Hlater.
    rewrite (check_crossing (fst done) reading later key limits ty sev thr);
      try assumption; [| rewrite Hdone; exact Hlimits].
    rewrite Hdone. cbn [fst pending_alerts last_alert_time alert_cooldown].
    rewrite Hset. rewrite bool_decide_eq_false_2 by exact Hpending.
    rewrite lookup_insert_eq.
    change (default datetime_min (Some now)) with now.
    replace (Py.le (alert_cooldown self) (later - now)) with false;
      [reflexivity |].
    symmetry. apply PyFacts.le_false. exact Hlater.
  - intros later Hlater.
    rewrite (check_crossing (fst done) reading later key limits ty sev thr);
      try assumption; [| rewrite Hdone; exact Hlimits].
    rewrite Hdone. cbn [fst pending_alerts last_alert_time alert_cooldown].
    rewrite Hset. rewrite bool_decide_eq_false_2 by exact Hpending.
    rewrite lookup_insert_eq.
    change (default datetime_min (Some now)) with now.
    replace (Py.le (alert_cooldown self) (later - now)) with true
      by (symmetry; apply PyFacts.le_true; exact Hlater).
    eexists _, _. split; [reflexivity |].
    rewrite Ha. repeat split; reflexivity.
Qed.

(** A reading of 40 degrees on a fresh alert system, at second 1000. *)
Lemma hot_reading_alerts :
  check_sensor_reading format_1f EmailAlertSystem_init
    (mkReading 0 "living_room_01_temp" 40 "C" 0.15) 1000
  = ({| thresholds := thresholds EmailAlertSystem_init;
        alert_history := [];
        last_alert_time :=
          <["living_room_01_Critical High Temperature" := 1000]> ∅;
        alert_cooldown := 300;
        pending_alerts := {["living_room_01_Critical High Temperature"]} ∪ ∅;
        email_enabled := true |},
     [mkAlert 1000 "Critical High Temperature" "critical"
        "living_room_01_temp" "Unknown Location" 40 35.0 "C"
        (_generate_alert_message format_1f "Critical High Temperature" 40
           35.0 "C" "Unknown Location")]).
Proof.
  rewrite (check_crossing _ _ _ "temperature"
             (mkThresholds 18.0 28.0 10.0 35.0)
             "Critical High Temperature" "critical" 35.0).
  - change (alert_key_of (mkReading 0 "living_room_01_temp" 40 "C" 0.15)
              "Critical High Temperature")
      with "living_room_01_Critical High Temperature".
    cbn [EmailAlertSystem_init pending_alerts last_alert_time alert_cooldown
         alert_history email_enabled].
    rewrite bool_decide_eq_false_2 by apply not_elem_of_empty.
    rewrite lookup_empty.
    change (default datetime_min None) with datetime_min.
    replace (Py.le 300 (1000 - datetime_min)) with true; [reflexivity |].
    symmetry. apply PyFacts.le_true. unfold datetime_min. lra.
  - cbn. lia.
  - reflexivity.
  - reflexivity.
  - cbn [EmailAlertSystem_init thresholds list_to_map foldr].
    apply lookup_insert_eq.
  - unfold classify. cbn [critical_min critical_max min max]. cbv zeta.
    unfold reading_value. cbn [value].
    replace (Py.lt 40 10.0) with false
      by (symmetry; apply PyFacts.lt_false; lra).
    replace (Py.gt 40 35.0) with true
      by (symmetry; apply PyFacts.gt_true; lra).
    reflexivity.
Qed.

End Checks.

Lemma alert_round_trip_witness :
  check_sensor_reading (fun _ => "0.0") EmailAlertSystem_init
    (mkReading 0 "living_room_01_temp" 40 "C" 0.15) 1000
  = ({| thresholds := thresholds EmailAlertSystem_init;
        alert_history := [];
        last_alert_time :=
          <["living_room_01_Critical High Temperature" := 1000]> ∅;
        alert_cooldown := 300;
        pending_alerts := {["living_room_01_Critical High Temperature"]} ∪ ∅;
        email_enabled := true |},
     [mkAlert 1000 "Critical High Temperature" "critical"
        "living_room_01_temp" "Unknown Location" 40 35.0 "C"
        (_generate_alert_message (fun _ => "0.0")
           "Critical High Temperature" 40 35.0 "C" "Unknown Location")]) /\
  pending_alerts
    (fst (process_alerts (fun _ => true)
            {| thresholds := thresholds EmailAlertSystem_init;
               alert_history := [];
               last_alert_time :=
                 <["living_room_01_Critical High Temperature" := 1000]> ∅;
               alert_cooldown := 300;
               pending_alerts :=
                 {["living_room_01_Critical High Temperature"]} ∪ ∅;
               email_enabled := true |}
            [with_location
               (mkAlert 1000 "Critical High Temperature" "critical"
                  "living_room_01_temp" "Unknown Location" 40 35.0 "C"
                  (_generate_alert_message (fun _ => "0.0")
                     "Critical High Temperature" 40 35.0 "C"
                     "Unknown Location"))
               "Living Room"]))
  = pending_alerts EmailAlertSystem_init.
Proof.
  split.
  - apply hot_reading_alerts.
  - exact (proj1 (proj2 (alert_round_trip (fun _ => "0.0") (fun _ => true)
                           EmailAlertSystem_init _
                           (mkReading 0 "living_room_01_temp" 40 "C" 0.15)
                           1000 _ "Living Room"
                           (hot_reading_alerts (fun _ => "0.0"))))).
Defined.

End AlertFacts.
